(** * Confidential payroll: settlement and access-control rules

  A shallow embedding of the two Solidity contracts of the repository,
  [ConfidentialPayrollSystem] and [PayrollToken], together with the part
  of the FHE runtime and of the OpenZeppelin base contracts they call.

  - An encrypted 64-bit integer is a ciphertext handle.  The runtime
    derives the handle of a result from the operation and the handles
    of its operands, so a handle is modelled by the operation tree that
    produced it, and its clear value by evaluating the tree with
    wrap-around modulo 2^64.
  - Solidity mappings are [gmap]s read with the zero value as default.
  - A call either commits a new state or reverts with an error; [uint256]
    counters are checked on increment, as Solidity 0.8 does.
  - The contracts are modelled in two layers.  The modules
    [ConfidentialPayrollSystem] and [PayrollToken] give what each
    function stores, grants and logs when every FHE operation it makes
    is permitted.  The modules [PayrollRuntime] and [TokenRuntime] run
    the same functions, statement by statement, under the access
    control of the runtime: every operand of an operation must be
    allowed to the calling contract, by a persistent grant or by a grant
    of the current transaction; a result is allowed to the contract
    that computed it until the transaction ends; [FHE.allow] requires
    that the granting contract is allowed itself.  A run the second
    layer accepts is a run of the first, so what holds of every run of
    the first holds of the runs the runtime accepts.
  - A transaction carries one call, sent by an account other than the
    contract.  The persistent grants of the payroll contract are those
    its own calls have issued; the token is also granted the ciphertexts
    a payroll manager passes to it.
  - [ConfidentialPayrollSystem] declares no coprocessor configuration,
    which [PayrollToken] inherits from [SepoliaConfig]; it is modelled
    as deployed with one, since without it not even its constructor
    could run.
  - Gas and the verification of input proofs are outside the model. *)

From stdpp Require Import gmap list strings.
From Stdlib Require Import ZArith Lia.

Open Scope Z_scope.

Definition address := Z.
Definition bytes := list Z.

(** ** The FHE runtime, as the contracts use it *)

(** Handles and their clear values.  [add], [sub] and the like give the
    handle an operation returns; the checks the coprocessor makes before
    it computes are those of [Runtime] below. *)
Module FHE.

Inductive handle :=
| Null
| Trivial (v : Z)
| Input (id : Z) (v : Z)
| Add (a b : handle)
| Sub (a b : handle)
| Mul (a b : handle)
| Le (a b : handle)
| Ge (a b : handle)
| Gt (a b : handle)
| Select (c a b : handle).

Global Instance handle_eq_dec : EqDecision handle.
Proof. solve_decision. Defined.

Definition modulus : Z := 2 ^ 64.

(** The clear value behind a handle; an encrypted boolean is 0 or 1. *)
Fixpoint decrypt (h : handle) : Z :=
  match h with
  | Null => 0
  | Trivial v => v mod modulus
  | Input _ v => v mod modulus
  | Add a b => (decrypt a + decrypt b) mod modulus
  | Sub a b => (decrypt a - decrypt b) mod modulus
  | Mul a b => (decrypt a * decrypt b) mod modulus
  | Le a b => if decrypt a <=? decrypt b then 1 else 0
  | Ge a b => if decrypt b <=? decrypt a then 1 else 0
  | Gt a b => if decrypt b <? decrypt a then 1 else 0
  | Select c a b => if decrypt c =? 0 then decrypt b else decrypt a
  end.

Definition isInitialized (h : handle) : bool :=
  match h with Null => false | _ => true end.

Definition asEuint64 (v : Z) : handle := Trivial v.

(** An operand that was never assigned is replaced by an encryption of 0. *)
Definition operand (h : handle) : handle :=
  if isInitialized h then h else asEuint64 0.

Definition add (a b : handle) : handle := Add (operand a) (operand b).
Definition sub (a b : handle) : handle := Sub (operand a) (operand b).
Definition mul (a b : handle) : handle := Mul (operand a) (operand b).
Definition le (a b : handle) : handle := Le (operand a) (operand b).
Definition ge (a b : handle) : handle := Ge (operand a) (operand b).
Definition gt (a b : handle) : handle := Gt (operand a) (operand b).
Definition select (c a b : handle) : handle := Select c a b.

(** A ciphertext submitted by a user, with the value it encrypts. *)
Record externalEuint64 := { ext_id : Z; ext_value : Z }.

Definition fromExternal (e : externalEuint64) (inputProof : bytes) : handle :=
  Input (ext_id e) (ext_value e).

(** The access-control list: the grants issued so far, newest first. *)
Definition ACL := list (handle * address).

Definition allow (h : handle) (account : address) (acl : ACL) : ACL :=
  (h, account) :: acl.

Definition isAllowed (h : handle) (account : address) (acl : ACL) : bool :=
  bool_decide ((h, account) ∈ acl).

End FHE.

Abbreviation euint64 := FHE.handle (only parsing).
Abbreviation ebool := FHE.handle (only parsing).
Abbreviation externalEuint64 := FHE.externalEuint64 (only parsing).

(** ** Results of a call *)

Inductive bytes32 :=
| Bytes32Zero
| Keccak256String (s : string)
| Keccak256Packed (words : list Z).

Global Instance bytes32_eq_dec : EqDecision bytes32.
Proof. solve_decision. Defined.

Inductive Error :=
| AccessControlUnauthorizedAccount (account : address) (neededRole : bytes32)
| AccessControlBadConfirmation
| OwnableUnauthorizedAccount (account : address)
| ConfidentialFungibleTokenZeroBalance (holder : address)
| ConfidentialFungibleTokenInvalidReceiver (receiver : address)
| RequireFailed (reason : string)
| PanicOverflow
| ACLNotAllowed (handle : euint64) (account : address)
| SenderNotAllowed (sender : address).

Inductive result (A : Type) :=
| Ok (a : A)
| Revert (e : Error).
Arguments Ok {A} a.
Arguments Revert {A} e.

Definition bind {A B} (r : result A) (k : A -> result B) : result B :=
match r with
| Ok a => k a
| Revert e => Revert e
end.

Global Instance result_bind : MBind result := fun A B k r => bind r k.
Global Instance result_ret : MRet result := fun A a => Ok a.

Definition require (cond : bool) (reason : string) : result unit :=
if cond then Ok tt else Revert (RequireFailed reason).

Definition uint256_max : Z := 2 ^ 256 - 1.

(** [x++] on a [uint256]: Solidity 0.8 panics instead of wrapping. *)
Definition checked_incr (x : Z) : result Z :=
if x <? uint256_max then Ok (x + 1) else Revert PanicOverflow.

Record Env := {
msg_sender : address;
block_timestamp : Z;
this : address
}.

(** ** ConfidentialPayrollSystem *)

(** What each function stores, grants and logs when every FHE operation
    it makes is permitted; [PayrollRuntime] runs the same functions
    under the permission checks. *)
Module ConfidentialPayrollSystem.

Definition DEFAULT_ADMIN_ROLE : bytes32 := Bytes32Zero.
Definition EMPLOYER_ROLE : bytes32 := Keccak256String "EMPLOYER_ROLE".
Definition PAYROLL_ADMIN_ROLE : bytes32 := Keccak256String "PAYROLL_ADMIN_ROLE".
Definition AUDITOR_ROLE : bytes32 := Keccak256String "AUDITOR_ROLE".

Record EmployeeData := {
  encryptedSalary : euint64;
  encryptedBonus : euint64;
  encryptedTaxRate : euint64;
  encryptedYTDEarnings : euint64;
  encryptedYTDTax : euint64;
  lastPaymentTimestamp : Z;
  isActive : bool
}.

Record PayrollConfig := {
  payPeriodDays : Z;
  paymentToken : address;
  treasuryAddress : address;
  encryptedTotalBudget : euint64
}.

Inductive Event :=
| RoleGranted (role : bytes32) (account sender : address)
| RoleRevoked (role : bytes32) (account sender : address)
| EmployeeAdded (employee : address) (timestamp : Z)
| PayrollProcessed (payPeriod employeeCount : Z)
| BonusDistributed (employee : address) (timestamp : Z)
| TaxWithheld (payPeriod : Z) (taxAuthority : address)
| ComplianceReportGenerated (period : Z) (reportHash : bytes32).

(** The storage of the contract, the grants it has issued and the events
    it has emitted (oldest first).  [payrollBatches] is declared by the
    contract but no function reads or writes it. *)
Record State := {
  _roles : list (bytes32 * address);
  employees : gmap address EmployeeData;
  paymentHistory : gmap (address * Z) euint64;
  config : PayrollConfig;
  currentPayPeriod : Z;
  totalEmployees : Z;
  acl : FHE.ACL;
  events : list Event
}.

(** The value a mapping holds at a key nobody wrote. *)
Definition noEmployee : EmployeeData :=
  {| encryptedSalary := FHE.Null; encryptedBonus := FHE.Null;
     encryptedTaxRate := FHE.Null; encryptedYTDEarnings := FHE.Null;
     encryptedYTDTax := FHE.Null; lastPaymentTimestamp := 0;
     isActive := false |}.

Definition employeeOf (s : State) (a : address) : EmployeeData :=
  default noEmployee (employees s !! a).

Definition paymentOf (s : State) (a : address) (period : Z) : euint64 :=
  default FHE.Null (paymentHistory s !! (a, period)).

(** *** Storage writes *)

Definition set_roles (r : list (bytes32 * address)) (s : State) : State :=
  {| _roles := r; employees := employees s;
     paymentHistory := paymentHistory s; config := config s;
     currentPayPeriod := currentPayPeriod s;
     totalEmployees := totalEmployees s; acl := acl s; events := events s |}.

Definition set_employee (a : address) (e : EmployeeData) (s : State) : State :=
  {| _roles := _roles s; employees := <[a := e]> (employees s);
     paymentHistory := paymentHistory s; config := config s;
     currentPayPeriod := currentPayPeriod s;
     totalEmployees := totalEmployees s; acl := acl s; events := events s |}.

Definition set_payment (a : address) (period : Z) (h : euint64) (s : State)
  : State :=
  {| _roles := _roles s; employees := employees s;
     paymentHistory := <[(a, period) := h]> (paymentHistory s);
     config := config s; currentPayPeriod := currentPayPeriod s;
     totalEmployees := totalEmployees s; acl := acl s; events := events s |}.

Definition set_budget (h : euint64) (s : State) : State :=
  {| _roles := _roles s; employees := employees s;
     paymentHistory := paymentHistory s;
     config := {| payPeriodDays := payPeriodDays (config s);
                  paymentToken := paymentToken (config s);
                  treasuryAddress := treasuryAddress (config s);
                  encryptedTotalBudget := h |};
     currentPayPeriod := currentPayPeriod s;
     totalEmployees := totalEmployees s; acl := acl s; events := events s |}.

Definition set_currentPayPeriod (p : Z) (s : State) : State :=
  {| _roles := _roles s; employees := employees s;
     paymentHistory := paymentHistory s; config := config s;
     currentPayPeriod := p; totalEmployees := totalEmployees s;
     acl := acl s; events := events s |}.

Definition set_totalEmployees (n : Z) (s : State) : State :=
  {| _roles := _roles s; employees := employees s;
     paymentHistory := paymentHistory s; config := config s;
     currentPayPeriod := currentPayPeriod s; totalEmployees := n;
     acl := acl s; events := events s |}.

Definition allow (h : euint64) (account : address) (s : State) : State :=
  {| _roles := _roles s; employees := employees s;
     paymentHistory := paymentHistory s; config := config s;
     currentPayPeriod := currentPayPeriod s;
     totalEmployees := totalEmployees s;
     acl := FHE.allow h account (acl s); events := events s |}.

Definition allowThis (env : Env) (h : euint64) (s : State) : State :=
  allow h (this env) s.

Definition emit (e : Event) (s : State) : State :=
  {| _roles := _roles s; employees := employees s;
     paymentHistory := paymentHistory s; config := config s;
     currentPayPeriod := currentPayPeriod s;
     totalEmployees := totalEmployees s; acl := acl s;
     events := events s ++ [e] |}.

Definition set_salary (h : euint64) (e : EmployeeData) : EmployeeData :=
  {| encryptedSalary := h; encryptedBonus := encryptedBonus e;
     encryptedTaxRate := encryptedTaxRate e;
     encryptedYTDEarnings := encryptedYTDEarnings e;
     encryptedYTDTax := encryptedYTDTax e;
     lastPaymentTimestamp := lastPaymentTimestamp e;
     isActive := isActive e |}.

Definition set_bonus (h : euint64) (e : EmployeeData) : EmployeeData :=
  {| encryptedSalary := encryptedSalary e; encryptedBonus := h;
     encryptedTaxRate := encryptedTaxRate e;
     encryptedYTDEarnings := encryptedYTDEarnings e;
     encryptedYTDTax := encryptedYTDTax e;
     lastPaymentTimestamp := lastPaymentTimestamp e;
     isActive := isActive e |}.

Definition set_YTDEarnings (h : euint64) (e : EmployeeData) : EmployeeData :=
  {| encryptedSalary := encryptedSalary e;
     encryptedBonus := encryptedBonus e;
     encryptedTaxRate := encryptedTaxRate e;
     encryptedYTDEarnings := h;
     encryptedYTDTax := encryptedYTDTax e;
     lastPaymentTimestamp := lastPaymentTimestamp e;
     isActive := isActive e |}.

Definition set_YTDTax (h : euint64) (e : EmployeeData) : EmployeeData :=
  {| encryptedSalary := encryptedSalary e;
     encryptedBonus := encryptedBonus e;
     encryptedTaxRate := encryptedTaxRate e;
     encryptedYTDEarnings := encryptedYTDEarnings e;
     encryptedYTDTax := h;
     lastPaymentTimestamp := lastPaymentTimestamp e;
     isActive := isActive e |}.

Definition set_lastPaymentTimestamp (t : Z) (e : EmployeeData)
  : EmployeeData :=
  {| encryptedSalary := encryptedSalary e;
     encryptedBonus := encryptedBonus e;
     encryptedTaxRate := encryptedTaxRate e;
     encryptedYTDEarnings := encryptedYTDEarnings e;
     encryptedYTDTax := encryptedYTDTax e;
     lastPaymentTimestamp := t;
     isActive := isActive e |}.

(** A write through the storage reference [employees[a]]. *)
Definition update_employee (a : address) (f : EmployeeData -> EmployeeData)
    (s : State) : State :=
  set_employee a (f (employeeOf s a)) s.

(** *** Role-based access control (inherited from AccessControl) *)

Definition hasRole (role : bytes32) (account : address) (s : State) : bool :=
  bool_decide ((role, account) ∈ _roles s).

Definition onlyRole (role : bytes32) (env : Env) (s : State) : result unit :=
  if hasRole role (msg_sender env) s then Ok tt
  else Revert (AccessControlUnauthorizedAccount (msg_sender env) role).

Definition _grantRole (env : Env) (role : bytes32) (account : address)
    (s : State) : State :=
  if hasRole role account s then s
  else emit (RoleGranted role account (msg_sender env))
            (set_roles ((role, account) :: _roles s) s).

Definition _revokeRole (env : Env) (role : bytes32) (account : address)
    (s : State) : State :=
  if hasRole role account s then
    emit (RoleRevoked role account (msg_sender env))
         (set_roles (filter (λ p, p ≠ (role, account)) (_roles s)) s)
  else s.

(** No function of the contract sets a role admin, so every role is
    administered by [DEFAULT_ADMIN_ROLE]. *)
Definition getRoleAdmin (role : bytes32) : bytes32 := DEFAULT_ADMIN_ROLE.

Definition grantRole (env : Env) (s : State) (role : bytes32)
    (account : address) : result State :=
  _ ← onlyRole (getRoleAdmin role) env s;
  Ok (_grantRole env role account s).

Definition revokeRole (env : Env) (s : State) (role : bytes32)
    (account : address) : result State :=
  _ ← onlyRole (getRoleAdmin role) env s;
  Ok (_revokeRole env role account s).

Definition renounceRole (env : Env) (s : State) (role : bytes32)
    (callerConfirmation : address) : result State :=
  if bool_decide (callerConfirmation = msg_sender env)
  then Ok (_revokeRole env role callerConfirmation s)
  else Revert AccessControlBadConfirmation.

(** *** The contract's functions *)

Definition constructor (env : Env) (_paymentToken _treasury : address)
    (_payPeriodDays : Z) : State :=
  let s0 :=
    {| _roles := []; employees := ∅; paymentHistory := ∅;
       config := {| payPeriodDays := 0; paymentToken := 0;
                    treasuryAddress := 0; encryptedTotalBudget := FHE.Null |};
       currentPayPeriod := 0; totalEmployees := 0; acl := []; events := [] |} in
  let s1 := _grantRole env DEFAULT_ADMIN_ROLE (msg_sender env) s0 in
  let s2 := _grantRole env EMPLOYER_ROLE (msg_sender env) s1 in
  let s3 := _grantRole env PAYROLL_ADMIN_ROLE (msg_sender env) s2 in
  {| _roles := _roles s3; employees := employees s3;
     paymentHistory := paymentHistory s3;
     config := {| payPeriodDays := _payPeriodDays;
                  paymentToken := _paymentToken;
                  treasuryAddress := _treasury;
                  encryptedTotalBudget := FHE.asEuint64 0 |};
     currentPayPeriod := currentPayPeriod s3;
     totalEmployees := totalEmployees s3; acl := acl s3;
     events := events s3 |}.

Definition addEmployee (env : Env) (s : State) (employee : address)
    (encryptedSalary encryptedTaxRate : externalEuint64)
    (inputProof : bytes) : result State :=
  _ ← onlyRole PAYROLL_ADMIN_ROLE env s;
  _ ← require (negb (isActive (employeeOf s employee)))
              "Employee already exists";
  let salary := FHE.fromExternal encryptedSalary inputProof in
  let taxRate := FHE.fromExternal encryptedTaxRate inputProof in
  let s := set_employee employee
             {| encryptedSalary := salary;
                encryptedBonus := FHE.asEuint64 0;
                encryptedTaxRate := taxRate;
                encryptedYTDEarnings := FHE.asEuint64 0;
                encryptedYTDTax := FHE.asEuint64 0;
                lastPaymentTimestamp := block_timestamp env;
                isActive := true |} s in
  let s := set_budget (FHE.add (encryptedTotalBudget (config s)) salary) s in
  let s := allowThis env salary s in
  let s := allowThis env taxRate s in
  let s := allow salary employee s in
  n ← checked_incr (totalEmployees s);
  let s := set_totalEmployees n s in
  Ok (emit (EmployeeAdded employee (block_timestamp env)) s).

(** The body only grants the token contract access to the amount. *)
Definition _transferConfidentialPayment (to : address)
    (encryptedAmount : euint64) (s : State) : State :=
  allow encryptedAmount (paymentToken (config s)) s.

Definition getEmployeeByIndex (index : Z) : address := 0.

(** The indices [0 .. n-1] a [for] loop runs through.  Both loops of the
    contract are bounded by [totalEmployees], which their bodies do not
    change. *)
Definition indices (n : Z) : list Z := Z.of_nat <$> seq 0 (Z.to_nat n).

(** One iteration of the loop of [processPayroll]; the second component
    is [processedCount], which cannot exceed the loop bound. *)
Definition processPayroll_iter (env : Env) (acc : State * Z) (i : Z)
  : State * Z :=
  let '(s, processedCount) := acc in
  let employeeAddr := getEmployeeByIndex i in
  let employee := employeeOf s employeeAddr in
  if negb (isActive employee) then (s, processedCount) else
  let periodSalary := encryptedSalary employee in
  let grossPay := FHE.add periodSalary (encryptedBonus employee) in
  let taxAmount := FHE.mul grossPay (encryptedTaxRate employee) in
  let netPay := FHE.sub grossPay taxAmount in
  let s := update_employee employeeAddr
             (λ e, set_YTDEarnings
                     (FHE.add (encryptedYTDEarnings e) grossPay) e) s in
  let s := update_employee employeeAddr
             (λ e, set_YTDTax (FHE.add (encryptedYTDTax e) taxAmount) e) s in
  let s := set_payment employeeAddr (currentPayPeriod s) netPay s in
  let s := _transferConfidentialPayment employeeAddr netPay s in
  let s := update_employee employeeAddr (set_bonus (FHE.asEuint64 0)) s in
  let s := update_employee employeeAddr
             (set_lastPaymentTimestamp (block_timestamp env)) s in
  (s, processedCount + 1).

Definition processPayroll (env : Env) (s : State) : result State :=
  _ ← onlyRole PAYROLL_ADMIN_ROLE env s;
  p ← checked_incr (currentPayPeriod s);
  let s := set_currentPayPeriod p s in
  let '(s, processedCount) :=
    foldl (processPayroll_iter env) (s, 0) (indices (totalEmployees s)) in
  Ok (emit (PayrollProcessed (currentPayPeriod s) processedCount) s).

Definition distributeBonus (env : Env) (s : State) (employee : address)
    (encryptedBonus : externalEuint64) (inputProof : bytes) : result State :=
  _ ← onlyRole EMPLOYER_ROLE env s;
  _ ← require (isActive (employeeOf s employee)) "Employee not found";
  let bonus := FHE.fromExternal encryptedBonus inputProof in
  let bonusOf := ConfidentialPayrollSystem.encryptedBonus in
  let s := update_employee employee
             (λ e, set_bonus (FHE.add (bonusOf e) bonus) e) s in
  let s := allowThis env (bonusOf (employeeOf s employee)) s in
  Ok (emit (BonusDistributed employee (block_timestamp env)) s).

(** One iteration of the loop of [generateComplianceReport]; the
    accumulator is [(totalPaid, totalTax)]. *)
Definition report_iter (s : State) (acc : euint64 * euint64) (i : Z)
  : euint64 * euint64 :=
  let '(totalPaid, totalTax) := acc in
  let employeeAddr := getEmployeeByIndex i in
  let employee := employeeOf s employeeAddr in
  if isActive employee then
    (FHE.add totalPaid (encryptedYTDEarnings employee),
     FHE.add totalTax (encryptedYTDTax employee))
  else (totalPaid, totalTax).

Definition report_totals (s : State) : euint64 * euint64 :=
  foldl (report_iter s) (FHE.asEuint64 0, FHE.asEuint64 0)
        (indices (totalEmployees s)).

Definition generateComplianceReport (env : Env) (s : State)
  : result (State * bytes32) :=
  _ ← onlyRole AUDITOR_ROLE env s;
  let '(totalPaid, totalTax) := report_totals s in
  let reportHash :=
    Keccak256Packed
      [currentPayPeriod s; totalEmployees s; block_timestamp env] in
  let s := allow totalPaid (msg_sender env) s in
  let s := allow totalTax (msg_sender env) s in
  let s := emit (ComplianceReportGenerated (currentPayPeriod s) reportHash) s in
  Ok (s, reportHash).

Definition updateSalary (env : Env) (s : State) (employee : address)
    (newEncryptedSalary : externalEuint64) (inputProof : bytes)
  : result State :=
  _ ← onlyRole PAYROLL_ADMIN_ROLE env s;
  _ ← require (isActive (employeeOf s employee)) "Employee not found";
  let oldSalary := encryptedSalary (employeeOf s employee) in
  let newSalary := FHE.fromExternal newEncryptedSalary inputProof in
  let s := set_budget (FHE.sub (encryptedTotalBudget (config s)) oldSalary) s in
  let s := set_budget (FHE.add (encryptedTotalBudget (config s)) newSalary) s in
  let s := update_employee employee (set_salary newSalary) s in
  let s := allowThis env newSalary s in
  let s := allow newSalary employee s in
  Ok s.

Definition isEmployee (s : State) (account : address) : bool :=
  isActive (employeeOf s account).

Definition getCurrentPayPeriod (s : State) : Z := currentPayPeriod s.

(** The state the loop of [processPayroll] ends in, and its count. *)
Definition payroll_loop (env : Env) (s : State) : State * Z :=
  foldl (processPayroll_iter env)
        (set_currentPayPeriod (currentPayPeriod s + 1) s, 0)
        (indices (totalEmployees s)).

(** What one iteration of the payroll loop leaves alone. *)
Definition payroll_frame (s s' : State) : Prop :=
  config s' = config s /\
  currentPayPeriod s' = currentPayPeriod s /\
  totalEmployees s' = totalEmployees s /\
  _roles s' = _roles s /\
  events s' = events s /\
  (forall a, isActive (employeeOf s' a) = isActive (employeeOf s a)) /\
  (forall a q, q <> currentPayPeriod s -> paymentOf s' a q = paymentOf s a q).

(** *** Transactions *)

Inductive Call :=
| call_addEmployee (employee : address)
    (encryptedSalary encryptedTaxRate : externalEuint64) (inputProof : bytes)
| call_processPayroll
| call_distributeBonus (employee : address)
    (encryptedBonus : externalEuint64) (inputProof : bytes)
| call_generateComplianceReport
| call_updateSalary (employee : address)
    (newEncryptedSalary : externalEuint64) (inputProof : bytes)
| call_grantRole (role : bytes32) (account : address)
| call_revokeRole (role : bytes32) (account : address)
| call_renounceRole (role : bytes32) (callerConfirmation : address).

Definition run (env : Env) (s : State) (c : Call) : result State :=
  match c with
  | call_addEmployee e sal tax pf => addEmployee env s e sal tax pf
  | call_processPayroll => processPayroll env s
  | call_distributeBonus e b pf => distributeBonus env s e b pf
  | call_generateComplianceReport =>
      r ← generateComplianceReport env s; Ok r.1
  | call_updateSalary e sal pf => updateSalary env s e sal pf
  | call_grantRole r a => grantRole env s r a
  | call_revokeRole r a => revokeRole env s r a
  | call_renounceRole r a => renounceRole env s r a
  end.

(** A transaction commits the state its call returns; a call that
    reverts leaves the state as it was. *)
Definition transact (env : Env) (s : State) (c : Call) : State :=
  match run env s c with
  | Ok s' => s'
  | Revert _ => s
  end.

(** [later s s']: [s'] is the state after some transactions from [s]. *)
Inductive later (s : State) : State -> Prop :=
| later_now : later s s
| later_step env c s' : later s s' -> later s (transact env s' c).

Definition reachable (s : State) : Prop :=
  exists env _paymentToken _treasury _payPeriodDays,
    later (constructor env _paymentToken _treasury _payPeriodDays) s.

End ConfidentialPayrollSystem.

(** ** PayrollToken *)

(** What each function stores, grants and logs when every FHE operation
    it makes is permitted; [TokenRuntime] runs the payment and the
    remittance under the permission checks. *)
Module PayrollToken.

Inductive Event :=
| ConfidentialTransfer (from to : address) (amount : euint64)
| PayrollManagerAdded (manager : address)
| PayrollManagerRemoved (manager : address)
| TaxWithheld (from : address) (period : Z)
| TaxRemitted (authority : address) (period : Z).

Record State := {
  _owner : address;
  _balances : gmap address euint64;
  _totalSupply : euint64;
  payrollManagers : gmap address bool;
  pendingWithholdings : gmap address euint64;
  taxAuthority : address;
  acl : FHE.ACL;
  events : list Event
}.

Definition balanceOf (s : State) (a : address) : euint64 :=
  default FHE.Null (_balances s !! a).

Definition isPayrollManager (s : State) (a : address) : bool :=
  default false (payrollManagers s !! a).

Definition withholdingsOf (s : State) (a : address) : euint64 :=
  default FHE.Null (pendingWithholdings s !! a).

(** *** Storage writes *)

Definition set_balance (a : address) (h : euint64) (s : State) : State :=
  {| _owner := _owner s; _balances := <[a := h]> (_balances s);
     _totalSupply := _totalSupply s; payrollManagers := payrollManagers s;
     pendingWithholdings := pendingWithholdings s;
     taxAuthority := taxAuthority s; acl := acl s; events := events s |}.

Definition set_totalSupply (h : euint64) (s : State) : State :=
  {| _owner := _owner s; _balances := _balances s; _totalSupply := h;
     payrollManagers := payrollManagers s;
     pendingWithholdings := pendingWithholdings s;
     taxAuthority := taxAuthority s; acl := acl s; events := events s |}.

Definition set_payrollManager (a : address) (b : bool) (s : State) : State :=
  {| _owner := _owner s; _balances := _balances s;
     _totalSupply := _totalSupply s;
     payrollManagers := <[a := b]> (payrollManagers s);
     pendingWithholdings := pendingWithholdings s;
     taxAuthority := taxAuthority s; acl := acl s; events := events s |}.

Definition set_withholdings (a : address) (h : euint64) (s : State) : State :=
  {| _owner := _owner s; _balances := _balances s;
     _totalSupply := _totalSupply s; payrollManagers := payrollManagers s;
     pendingWithholdings := <[a := h]> (pendingWithholdings s);
     taxAuthority := taxAuthority s; acl := acl s; events := events s |}.

Definition allow (h : euint64) (account : address) (s : State) : State :=
  {| _owner := _owner s; _balances := _balances s;
     _totalSupply := _totalSupply s; payrollManagers := payrollManagers s;
     pendingWithholdings := pendingWithholdings s;
     taxAuthority := taxAuthority s;
     acl := FHE.allow h account (acl s); events := events s |}.

Definition allowThis (env : Env) (h : euint64) (s : State) : State :=
  allow h (this env) s.

Definition emit (e : Event) (s : State) : State :=
  {| _owner := _owner s; _balances := _balances s;
     _totalSupply := _totalSupply s; payrollManagers := payrollManagers s;
     pendingWithholdings := pendingWithholdings s;
     taxAuthority := taxAuthority s; acl := acl s;
     events := events s ++ [e] |}.

Definition isSenderAllowed (env : Env) (s : State) (h : euint64) : bool :=
  FHE.isAllowed h (msg_sender env) (acl s).

(** *** The inherited confidential token (OpenZeppelin) *)

Definition tryIncrease (oldValue delta : euint64) : ebool * euint64 :=
  if FHE.isInitialized oldValue then
    let newValue := FHE.add oldValue delta in
    let success := FHE.ge newValue oldValue in
    (success, FHE.select success newValue oldValue)
  else (FHE.Trivial 1, delta).

Definition tryDecrease (oldValue delta : euint64) : ebool * euint64 :=
  let success := FHE.ge oldValue delta in
  (success, FHE.select success (FHE.sub oldValue delta) oldValue).

(** Moves [amount] from [from] to [to] when the sender's balance covers
    it and nothing otherwise; returns the amount that moved. *)
Definition _update (env : Env) (s : State) (from to : address)
    (amount : euint64) : result (State * euint64) :=
  r ← (if bool_decide (from = 0) then
         let '(success, ptr) := tryIncrease (_totalSupply s) amount in
         Ok (success, set_totalSupply ptr (allowThis env ptr s))
       else
         let fromBalance := balanceOf s from in
         if FHE.isInitialized fromBalance then
           let '(success, ptr) := tryDecrease fromBalance amount in
           Ok (success,
               set_balance from ptr (allow ptr from (allowThis env ptr s)))
         else Revert (ConfidentialFungibleTokenZeroBalance from));
  let '(success, s) := r in
  let transferred := FHE.select success amount (FHE.asEuint64 0) in
  let s :=
    if bool_decide (to = 0) then
      let ptr := FHE.sub (_totalSupply s) transferred in
      set_totalSupply ptr (allowThis env ptr s)
    else
      let ptr := FHE.add (balanceOf s to) transferred in
      set_balance to ptr (allow ptr to (allowThis env ptr s)) in
  let s := if bool_decide (from = 0) then s else allow transferred from s in
  let s := if bool_decide (to = 0) then s else allow transferred to s in
  let s := allowThis env transferred s in
  Ok (emit (ConfidentialTransfer from to transferred) s, transferred).

(** The clear amount [_update] moves out of a balance [bal]. *)
Definition moved (amount bal : Z) : Z :=
  if amount <=? bal then amount else 0.

Definition _mint (env : Env) (s : State) (to : address) (amount : euint64)
  : result (State * euint64) :=
  if bool_decide (to = 0)
  then Revert (ConfidentialFungibleTokenInvalidReceiver 0)
  else _update env s 0 to amount.

Definition confidentialBalanceOf (s : State) (account : address) : euint64 :=
  balanceOf s account.

(** *** The contract's functions *)

Definition onlyPayrollManager (env : Env) (s : State) : result unit :=
  require (isPayrollManager s (msg_sender env)) "Not a payroll manager".

Definition onlyOwner (env : Env) (s : State) : result unit :=
  if bool_decide (_owner s = msg_sender env) then Ok tt
  else Revert (OwnableUnauthorizedAccount (msg_sender env)).

Definition constructor (env : Env) (initialSupply : Z)
    (_taxAuthority : address) : result State :=
  let s0 :=
    {| _owner := msg_sender env; _balances := ∅; _totalSupply := FHE.Null;
       payrollManagers := ∅; pendingWithholdings := ∅; taxAuthority := 0;
       acl := []; events := [] |} in
  let encryptedSupply := FHE.asEuint64 initialSupply in
  r ← _mint env s0 (msg_sender env) encryptedSupply;
  let s := r.1 in
  let s :=
    {| _owner := _owner s; _balances := _balances s;
       _totalSupply := _totalSupply s; payrollManagers := payrollManagers s;
       pendingWithholdings := pendingWithholdings s;
       taxAuthority := _taxAuthority; acl := acl s; events := events s |} in
  Ok (set_payrollManager (msg_sender env) true s).

Definition addPayrollManager (env : Env) (s : State) (manager : address)
  : result State :=
  _ ← onlyOwner env s;
  Ok (emit (PayrollManagerAdded manager) (set_payrollManager manager true s)).

Definition removePayrollManager (env : Env) (s : State) (manager : address)
  : result State :=
  _ ← onlyOwner env s;
  Ok (emit (PayrollManagerRemoved manager)
           (set_payrollManager manager false s)).

Definition processPayrollPayment (env : Env) (s : State) (employee : address)
    (grossPay taxAmount : euint64) : result State :=
  _ ← onlyPayrollManager env s;
  _ ← require (isSenderAllowed env s grossPay) "Gross pay not allowed";
  _ ← require (isSenderAllowed env s taxAmount) "Tax amount not allowed";
  let netPay := FHE.sub grossPay taxAmount in
  let canTransfer :=
    FHE.le grossPay (confidentialBalanceOf s (msg_sender env)) in
  let actualTransfer := FHE.select canTransfer netPay (FHE.asEuint64 0) in
  r ← _update env s (msg_sender env) employee actualTransfer;
  let s := r.1 in
  let s := set_withholdings (taxAuthority s)
             (FHE.add (withholdingsOf s (taxAuthority s)) taxAmount) s in
  let s := allow (confidentialBalanceOf s employee) employee s in
  Ok (emit (TaxWithheld employee (block_timestamp env)) s).

(** The loop of [batchProcessPayroll] over the three arrays, which have
    the same length when it starts. *)
Fixpoint batch_loop (env : Env) (s : State) (employees : list address)
    (grossPayments taxAmounts : list euint64) : result State :=
  match employees, grossPayments, taxAmounts with
  | e :: es, g :: gs, t :: ts =>
      s ← processPayrollPayment env s e g t;
      batch_loop env s es gs ts
  | _, _, _ => Ok s
  end.

Definition batchProcessPayroll (env : Env) (s : State)
    (employees : list address) (grossPayments taxAmounts : list euint64)
  : result State :=
  _ ← onlyPayrollManager env s;
  _ ← require (bool_decide (length employees = length grossPayments)
               && bool_decide (length employees = length taxAmounts))
              "Array length mismatch";
  batch_loop env s employees grossPayments taxAmounts.

Definition remitTaxWithholdings (env : Env) (s : State) : result State :=
  _ ← onlyPayrollManager env s;
  let totalTax := withholdingsOf s (taxAuthority s) in
  let hasTax := FHE.gt totalTax (FHE.asEuint64 0) in
  let remittance := FHE.select hasTax totalTax (FHE.asEuint64 0) in
  r ← _update env s (msg_sender env) (taxAuthority s) remittance;
  let s := r.1 in
  let s := set_withholdings (taxAuthority s) (FHE.asEuint64 0) s in
  let s := allow (confidentialBalanceOf s (taxAuthority s))
                 (taxAuthority s) s in
  Ok (emit (TaxRemitted (taxAuthority s) (block_timestamp env)) s).

Definition emergencyPause (env : Env) (s : State) : result State :=
  _ ← onlyOwner env s;
  Ok s.

End PayrollToken.

Module CPS := ConfidentialPayrollSystem.
Module PT := PayrollToken.

(** * Stated properties and scenarios *)

Module Scenario.

Import ConfidentialPayrollSystem.

Definition admin : address := 1000.
Definition employer : address := 2000.
Definition auditor : address := 3000.
Definition alice : address := 1.
Definition payrollAddress : address := 7777.
Definition tokenAddress : address := 8888.

(** A call by [sender] to the payroll contract in a block stamped [t]. *)
Definition by_ (sender : address) (t : Z) : Env :=
  {| msg_sender := sender; block_timestamp := t; this := payrollAddress |}.

Definition enc (id v : Z) : externalEuint64 :=
  {| FHE.ext_id := id; FHE.ext_value := v |}.

Definition after (calls : list (Env * Call)) (s : State) : State :=
  foldl (fun s ec => transact ec.1 s ec.2) s calls.

Definition deployed : State :=
  constructor (by_ admin 50) tokenAddress admin 14.

(** The example of the specification: one employee at address [e] with a
    salary of 5000000 cents and a tax rate of 20, then one payroll run. *)
Definition hired (e : address) : State :=
  after [(by_ admin 50, call_addEmployee e (enc 1 5000000) (enc 2 20) [])]
        deployed.

Definition paid (e : address) : State :=
  after [(by_ admin 60, call_processPayroll)] (hired e).

(** Two employees, one at the address the index helper returns (salary
    100) and [alice] (salary 70), an auditor, and one payroll run. *)
Definition two_staff_paid : State :=
  after [(by_ admin 50, call_grantRole AUDITOR_ROLE auditor);
         (by_ admin 50, call_addEmployee 0 (enc 1 100) (enc 2 0) []);
         (by_ admin 50, call_addEmployee alice (enc 3 70) (enc 4 0) []);
         (by_ admin 60, call_processPayroll)]
        deployed.



(** *** The token *)

Definition taxOffice : address := 5000.
Definition bob : address := 2.

Definition token_by (sender : address) (t : Z) : Env :=
  {| msg_sender := sender; block_timestamp := t; this := tokenAddress |}.

Definition token_blank : PayrollToken.State :=
  {| PayrollToken._owner := 0; PayrollToken._balances := ∅;
     PayrollToken._totalSupply := FHE.Null;
     PayrollToken.payrollManagers := ∅;
     PayrollToken.pendingWithholdings := ∅;
     PayrollToken.taxAuthority := 0; PayrollToken.acl := [];
     PayrollToken.events := [] |}.

Definition token_after (r : result PayrollToken.State) : PayrollToken.State :=
  match r with Ok s => s | Revert _ => token_blank end.

(** The token deployed by [admin] with a supply of 50, and [admin] allowed
    to use the ciphertexts it will pass as gross pay and tax. *)
Definition token_funded : PayrollToken.State :=
  PayrollToken.allow (FHE.Trivial 100) admin
    (PayrollToken.allow (FHE.Trivial 30) admin
      (PayrollToken.allow (FHE.Trivial 0) admin
        (token_after (PayrollToken.constructor (token_by admin 40) 50 taxOffice)))).

(** A payment of gross 100 and tax 0 out of a balance of 50. *)
Definition token_short_payment : PayrollToken.State :=
  token_after (PayrollToken.processPayrollPayment (token_by admin 60)
                 token_funded bob (FHE.Trivial 100) (FHE.Trivial 0)).

End Scenario.

(** * Derived quantities and state invariants *)

Module Ledger.

Import ConfidentialPayrollSystem.

(** The pay of one employee record, as the payroll loop computes it. *)
Definition grossOf (e : EmployeeData) : euint64 :=
  FHE.add (encryptedSalary e) (encryptedBonus e).

Definition taxOf (e : EmployeeData) : euint64 :=
  FHE.mul (grossOf e) (encryptedTaxRate e).

Definition netOf (e : EmployeeData) : euint64 :=
  FHE.sub (grossOf e) (taxOf e).

(** The record one iteration of the payroll loop leaves behind. *)
Definition processed (env : Env) (e : EmployeeData) : EmployeeData :=
  {| encryptedSalary := encryptedSalary e;
     encryptedBonus := FHE.asEuint64 0;
     encryptedTaxRate := encryptedTaxRate e;
     encryptedYTDEarnings := FHE.add (encryptedYTDEarnings e) (grossOf e);
     encryptedYTDTax := FHE.add (encryptedYTDTax e) (taxOf e);
     lastPaymentTimestamp := block_timestamp env;
     isActive := isActive e |}.

(** The state one iteration leaves behind when the record it visits,
    [e] at address [a], is active. *)
Definition pay_once (env : Env) (a : address) (e : EmployeeData) (s : State)
  : State :=
  {| _roles := _roles s;
     employees := <[a := processed env e]> (employees s);
     paymentHistory := <[(a, currentPayPeriod s) := netOf e]> (paymentHistory s);
     config := config s;
     currentPayPeriod := currentPayPeriod s;
     totalEmployees := totalEmployees s;
     acl := FHE.allow (netOf e) (paymentToken (config s)) (acl s);
     events := events s |}.

(** The clear sum of the salaries stored in the employee mapping. *)
Definition salarySum (m : gmap address EmployeeData) : Z :=
  map_fold (fun _ e acc => acc + FHE.decrypt (encryptedSalary e)) 0 m.

(** The number of iterations a loop bounded by [n] makes. *)
Definition iterations (n : Z) : Z := Z.of_nat (Z.to_nat n).

(** The clear sum of a list of encrypted tax amounts. *)
Definition taxTotal (taxAmounts : list euint64) : Z :=
  foldr (fun t acc => FHE.decrypt t + acc) 0 taxAmounts.

(** What every reachable state of the payroll contract satisfies. *)
Definition consistent (s : State) : Prop :=
  (forall a e, employees s !! a = Some e -> isActive e = true) /\
  totalEmployees s = Z.of_nat (size (employees s)) /\
  FHE.decrypt (encryptedTotalBudget (config s)) =
    salarySum (employees s) mod FHE.modulus /\
  0 <= currentPayPeriod s /\
  (forall a q h, paymentHistory s !! (a, q) = Some h ->
                 a = 0 /\ 1 <= q <= currentPayPeriod s) /\
  (forall a e, a <> 0 -> employees s !! a = Some e ->
               encryptedYTDEarnings e = FHE.asEuint64 0 /\
               encryptedYTDTax e = FHE.asEuint64 0).

End Ledger.

(** * The permission checks of the FHE runtime *)

Module Runtime.

(** What a call runs on: the storage of the contract, which holds the
    persistent grants, and the grants of the current transaction, which
    end with it. *)
Record Machine (S : Type) := {
  store : S;
  transient : FHE.ACL
}.
Arguments Build_Machine {S} store transient.
Arguments store {S} m.
Arguments transient {S} m.

Definition M (S A : Type) : Type := Machine S -> result (A * Machine S).

Global Instance M_ret S : MRet (M S) := fun A a m => Ok (a, m).

Global Instance M_bind S : MBind (M S) := fun A B k c m =>
  match c m with
  | Ok (a, m') => k a m'
  | Revert e => Revert e
  end.

Section Primitives.

Context {S : Type}.

(** The persistent grants a storage holds, the write of one more, and
    the address of the contract that runs. *)
Variable grants : S -> FHE.ACL.
Variable grant : euint64 -> address -> S -> S.
Variable self : address.

Definition read {A} (f : S -> A) : M S A := fun m => Ok (f (store m), m).

Definition write (f : S -> S) : M S unit := fun m =>
  Ok (tt, {| store := f (store m); transient := transient m |}).

Definition lift {A} (r : result A) : M S A := fun m =>
  match r with
  | Ok a => Ok (a, m)
  | Revert e => Revert e
  end.

(** A modifier or a [require] over the storage. *)
Definition guard (g : S -> result unit) : M S unit := fun m =>
  lift (g (store m)) m.

(** A function that makes no FHE call. *)
Definition plain (f : S -> result S) : M S unit := fun m =>
  match f (store m) with
  | Ok s => Ok (tt, {| store := s; transient := transient m |})
  | Revert e => Revert e
  end.

Fixpoint foldM {A B} (f : A -> B -> M S A) (a : A) (l : list B) : M S A :=
  match l with
  | [] => mret a
  | b :: l => a' ← f a b; foldM f a' l
  end.

(** [ACL.isAllowed]: a persistent grant or one of this transaction. *)
Definition isAllowed (h : euint64) (account : address) (m : Machine S)
  : bool :=
  FHE.isAllowed h account (grants (store m))
  || FHE.isAllowed h account (transient m).

Definition allowTransient (h : euint64) (account : address) : M S unit :=
  fun m => Ok (tt, {| store := store m;
                      transient := FHE.allow h account (transient m) |}).

(** The check the coprocessor makes on every encrypted operand. *)
Definition check (h : euint64) : M S unit := fun m =>
  if isAllowed h self m then Ok (tt, m) else Revert (ACLNotAllowed h self).

(** The result of an operation may be used by the contract that computed
    it until the transaction ends. *)
Definition produced (h : euint64) : M S euint64 :=
  _ ← allowTransient h self; mret h.

Definition asEuint64 (v : Z) : M S euint64 := produced (FHE.asEuint64 v).

Definition asEbool (b : bool) : M S ebool :=
  produced (FHE.Trivial (if b then 1 else 0)).

Definition fromExternal (e : externalEuint64) (inputProof : bytes)
  : M S euint64 :=
  produced (FHE.fromExternal e inputProof).

(** The library replaces an operand that was never assigned by a fresh
    encryption of 0 before it calls the coprocessor. *)
Definition operand (h : euint64) : M S euint64 :=
  if FHE.isInitialized h then mret h else asEuint64 0.

Definition binary (op : euint64 -> euint64 -> euint64) (a b : euint64)
  : M S euint64 :=
  a ← operand a;
  b ← operand b;
  _ ← check a;
  _ ← check b;
  produced (op a b).

Definition add := binary FHE.Add.
Definition sub := binary FHE.Sub.
Definition mul := binary FHE.Mul.
Definition le := binary FHE.Le.
Definition ge := binary FHE.Ge.
Definition gt := binary FHE.Gt.

(** [select] passes its operands on as they are: an operand that was
    never assigned is refused, since nobody holds a grant on it. *)
Definition select (c a b : euint64) : M S euint64 :=
  _ ← check c;
  _ ← check a;
  _ ← check b;
  produced (FHE.select c a b).

(** [FHE.allow]: the contract must itself be allowed on the handle. *)
Definition allow (h : euint64) (account : address) : M S unit := fun m =>
  if isAllowed h self m
  then Ok (tt, {| store := grant h account (store m);
                  transient := transient m |})
  else Revert (SenderNotAllowed self).

Definition allowThis (h : euint64) : M S unit := allow h self.

Definition isSenderAllowed (sender : address) (h : euint64) : M S bool :=
  fun m => Ok (isAllowed h sender m, m).

End Primitives.

End Runtime.

(** ** ConfidentialPayrollSystem on the runtime *)

Module PayrollRuntime.

Import ConfidentialPayrollSystem.

Abbreviation M := (Runtime.M State).
Abbreviation Machine := (Runtime.Machine State).
Abbreviation read := Runtime.read.
Abbreviation write := Runtime.write.
Abbreviation lift := Runtime.lift.

Section Calls.

Variable env : Env.

Definition onlyRole (role : bytes32) : M unit :=
  Runtime.guard (ConfidentialPayrollSystem.onlyRole role env).

Definition asEuint64 : Z -> M euint64 := Runtime.asEuint64 (this env).
Definition fromExternal : externalEuint64 -> bytes -> M euint64 :=
  Runtime.fromExternal (this env).
Definition add : euint64 -> euint64 -> M euint64 :=
  Runtime.add acl (this env).
Definition sub : euint64 -> euint64 -> M euint64 :=
  Runtime.sub acl (this env).
Definition mul : euint64 -> euint64 -> M euint64 :=
  Runtime.mul acl (this env).
Definition allow : euint64 -> address -> M unit :=
  Runtime.allow acl ConfidentialPayrollSystem.allow (this env).
Definition allowThis (h : euint64) : M unit := allow h (this env).

Definition addEmployee (employee : address)
    (encryptedSalary encryptedTaxRate : externalEuint64)
    (inputProof : bytes) : M unit :=
  _ ← onlyRole PAYROLL_ADMIN_ROLE;
  active ← read (λ s, isActive (employeeOf s employee));
  _ ← lift (require (negb active) "Employee already exists");
  salary ← fromExternal encryptedSalary inputProof;
  taxRate ← fromExternal encryptedTaxRate inputProof;
  bonus ← asEuint64 0;
  earnings ← asEuint64 0;
  tax ← asEuint64 0;
  _ ← write (set_employee employee
               {| encryptedSalary := salary;
                  encryptedBonus := bonus;
                  encryptedTaxRate := taxRate;
                  encryptedYTDEarnings := earnings;
                  encryptedYTDTax := tax;
                  lastPaymentTimestamp := block_timestamp env;
                  isActive := true |});
  budget ← read (λ s, encryptedTotalBudget (config s));
  budget ← add budget salary;
  _ ← write (set_budget budget);
  _ ← allowThis salary;
  _ ← allowThis taxRate;
  _ ← allow salary employee;
  total ← read totalEmployees;
  n ← lift (checked_incr total);
  _ ← write (set_totalEmployees n);
  write (emit (EmployeeAdded employee (block_timestamp env))).

Definition _transferConfidentialPayment (to : address)
    (encryptedAmount : euint64) : M unit :=
  token ← read (λ s, paymentToken (config s));
  allow encryptedAmount token.

Definition processPayroll_iter (processedCount : Z) (i : Z) : M Z :=
  let employeeAddr := getEmployeeByIndex i in
  employee ← read (λ s, employeeOf s employeeAddr);
  if negb (isActive employee) then mret processedCount else
  let periodSalary := encryptedSalary employee in
  grossPay ← add periodSalary (encryptedBonus employee);
  taxAmount ← mul grossPay (encryptedTaxRate employee);
  netPay ← sub grossPay taxAmount;
  earnings ← add (encryptedYTDEarnings employee) grossPay;
  _ ← write (update_employee employeeAddr (set_YTDEarnings earnings));
  ytdTax ← read (λ s, encryptedYTDTax (employeeOf s employeeAddr));
  tax ← add ytdTax taxAmount;
  _ ← write (update_employee employeeAddr (set_YTDTax tax));
  period ← read currentPayPeriod;
  _ ← write (set_payment employeeAddr period netPay);
  _ ← _transferConfidentialPayment employeeAddr netPay;
  zero ← asEuint64 0;
  _ ← write (update_employee employeeAddr (set_bonus zero));
  _ ← write (update_employee employeeAddr
               (set_lastPaymentTimestamp (block_timestamp env)));
  mret (processedCount + 1).

Definition processPayroll : M unit :=
  _ ← onlyRole PAYROLL_ADMIN_ROLE;
  period ← read currentPayPeriod;
  p ← lift (checked_incr period);
  _ ← write (set_currentPayPeriod p);
  total ← read totalEmployees;
  processedCount ← Runtime.foldM processPayroll_iter 0 (indices total);
  period ← read currentPayPeriod;
  write (emit (PayrollProcessed period processedCount)).

Definition distributeBonus (employee : address)
    (encryptedBonus : externalEuint64) (inputProof : bytes) : M unit :=
  _ ← onlyRole EMPLOYER_ROLE;
  active ← read (λ s, isActive (employeeOf s employee));
  _ ← lift (require active "Employee not found");
  bonus ← fromExternal encryptedBonus inputProof;
  old ← read (λ s, ConfidentialPayrollSystem.encryptedBonus
                     (employeeOf s employee));
  new ← add old bonus;
  _ ← write (update_employee employee (set_bonus new));
  stored ← read (λ s, ConfidentialPayrollSystem.encryptedBonus
                        (employeeOf s employee));
  _ ← allowThis stored;
  write (emit (BonusDistributed employee (block_timestamp env))).

Definition report_iter (acc : euint64 * euint64) (i : Z)
  : M (euint64 * euint64) :=
  let employeeAddr := getEmployeeByIndex i in
  employee ← read (λ s, employeeOf s employeeAddr);
  if isActive employee then
    totalPaid ← add acc.1 (encryptedYTDEarnings employee);
    totalTax ← add acc.2 (encryptedYTDTax employee);
    mret (totalPaid, totalTax)
  else mret acc.

Definition generateComplianceReport : M bytes32 :=
  _ ← onlyRole AUDITOR_ROLE;
  totalPaid ← asEuint64 0;
  totalTax ← asEuint64 0;
  total ← read totalEmployees;
  totals ← Runtime.foldM report_iter (totalPaid, totalTax) (indices total);
  period ← read currentPayPeriod;
  let reportHash :=
    Keccak256Packed [period; total; block_timestamp env] in
  _ ← allow totals.1 (msg_sender env);
  _ ← allow totals.2 (msg_sender env);
  _ ← write (emit (ComplianceReportGenerated period reportHash));
  mret reportHash.

Definition updateSalary (employee : address)
    (newEncryptedSalary : externalEuint64) (inputProof : bytes) : M unit :=
  _ ← onlyRole PAYROLL_ADMIN_ROLE;
  active ← read (λ s, isActive (employeeOf s employee));
  _ ← lift (require active "Employee not found");
  oldSalary ← read (λ s, encryptedSalary (employeeOf s employee));
  newSalary ← fromExternal newEncryptedSalary inputProof;
  budget ← read (λ s, encryptedTotalBudget (config s));
  budget ← sub budget oldSalary;
  _ ← write (set_budget budget);
  budget ← read (λ s, encryptedTotalBudget (config s));
  budget ← add budget newSalary;
  _ ← write (set_budget budget);
  _ ← write (update_employee employee (set_salary newSalary));
  _ ← allowThis newSalary;
  allow newSalary employee.

Definition run (c : Call) : M unit :=
  match c with
  | call_addEmployee e sal tax pf => addEmployee e sal tax pf
  | call_processPayroll => processPayroll
  | call_distributeBonus e b pf => distributeBonus e b pf
  | call_generateComplianceReport =>
      _ ← generateComplianceReport; mret tt
  | call_updateSalary e sal pf => updateSalary e sal pf
  | call_grantRole r a => Runtime.plain (λ s, grantRole env s r a)
  | call_revokeRole r a => Runtime.plain (λ s, revokeRole env s r a)
  | call_renounceRole r a => Runtime.plain (λ s, renounceRole env s r a)
  end.

End Calls.

(** A transaction starts with no transient grant. *)
Definition begin (s : State) : Machine :=
  {| Runtime.store := s; Runtime.transient := [] |}.

Definition outcome (env : Env) (s : State) (c : Call) : result State :=
  match run env c (begin s) with
  | Ok (_, m) => Ok (Runtime.store m)
  | Revert e => Revert e
  end.

Definition transact (env : Env) (s : State) (c : Call) : State :=
  match outcome env s c with
  | Ok s' => s'
  | Revert _ => s
  end.


Definition after (calls : list (Env * Call)) (s : State) : State :=
  foldl (fun s ec => transact ec.1 s ec.2) s calls.

(** [later self s s']: [s'] is the state of the contract deployed at
    [self] after some transactions from [s]; the contract does not call
    itself. *)
Inductive later (self : address) (s : State) : State -> Prop :=
| later_now : later self s s
| later_step env c s' :
    later self s s' -> this env = self -> msg_sender env <> self ->
    later self s (transact env s' c).

Definition reachable (self : address) (s : State) : Prop :=
  exists env _paymentToken _treasury _payPeriodDays,
    later self (constructor env _paymentToken _treasury _payPeriodDays) s.


(** What the transactions of the contract deployed at [self] maintain:
    the contract holds persistent grants on submitted ciphertexts only;
    every stored record has a submitted salary, which the contract may
    use, a submitted tax rate, and the bonus and year-to-date values it
    was created with; no payment is recorded; and either nobody was
    added and the budget is the encryption of 0 of the constructor, or
    one employee is stored and the budget is a sum computed by a past
    transaction. *)
Definition dormant (self : address) (s : State) : Prop :=
  (forall h, (h, self) ∈ acl s -> exists id v, h = FHE.Input id v) /\
  (forall a e, employees s !! a = Some e ->
     (exists id v, encryptedSalary e = FHE.Input id v) /\
     (exists id v, encryptedTaxRate e = FHE.Input id v) /\
     (encryptedSalary e, self) ∈ acl s /\
     encryptedBonus e = FHE.asEuint64 0 /\
     encryptedYTDEarnings e = FHE.asEuint64 0 /\
     encryptedYTDTax e = FHE.asEuint64 0) /\
  paymentHistory s = ∅ /\
  ((encryptedTotalBudget (config s) = FHE.asEuint64 0 /\ employees s = ∅) \/
   (exists a e x y,
      employees s = {[a := e]} /\
      encryptedTotalBudget (config s) = FHE.Add x y)).

End PayrollRuntime.

Module PR := PayrollRuntime.

(** ** PayrollToken on the runtime *)

Module TokenRuntime.

Import PayrollToken.

Abbreviation M := (Runtime.M State).
Abbreviation Machine := (Runtime.Machine State).
Abbreviation read := Runtime.read.
Abbreviation write := Runtime.write.
Abbreviation lift := Runtime.lift.

Section Calls.

Variable env : Env.

Definition asEuint64 : Z -> M euint64 := Runtime.asEuint64 (this env).
Definition asEbool : bool -> M ebool := Runtime.asEbool (this env).
Definition add : euint64 -> euint64 -> M euint64 :=
  Runtime.add acl (this env).
Definition sub : euint64 -> euint64 -> M euint64 :=
  Runtime.sub acl (this env).
Definition le : euint64 -> euint64 -> M ebool := Runtime.le acl (this env).
Definition ge : euint64 -> euint64 -> M ebool := Runtime.ge acl (this env).
Definition gt : euint64 -> euint64 -> M ebool := Runtime.gt acl (this env).
Definition select : ebool -> euint64 -> euint64 -> M euint64 :=
  Runtime.select acl (this env).
Definition allow : euint64 -> address -> M unit :=
  Runtime.allow acl PayrollToken.allow (this env).
Definition allowThis (h : euint64) : M unit := allow h (this env).
Definition isSenderAllowed : euint64 -> M bool :=
  Runtime.isSenderAllowed acl (msg_sender env).

Definition tryIncrease (oldValue delta : euint64) : M (ebool * euint64) :=
  if FHE.isInitialized oldValue then
    newValue ← add oldValue delta;
    success ← ge newValue oldValue;
    updated ← select success newValue oldValue;
    mret (success, updated)
  else
    success ← asEbool true;
    mret (success, delta).

Definition tryDecrease (oldValue delta : euint64) : M (ebool * euint64) :=
  success ← ge oldValue delta;
  difference ← sub oldValue delta;
  updated ← select success difference oldValue;
  mret (success, updated).

(** The first half of [_update]: the supply grows, or the balance of
    [from] shrinks; the result is the encrypted success flag. *)
Definition debit (from : address) (amount : euint64) : M ebool :=
  if bool_decide (from = 0) then
    supply ← read _totalSupply;
    r ← tryIncrease supply amount;
    _ ← allowThis r.2;
    _ ← write (set_totalSupply r.2);
    mret r.1
  else
    fromBalance ← read (λ s, balanceOf s from);
    _ ← lift (if FHE.isInitialized fromBalance then Ok tt
              else Revert (ConfidentialFungibleTokenZeroBalance from));
    r ← tryDecrease fromBalance amount;
    _ ← allowThis r.2;
    _ ← allow r.2 from;
    _ ← write (set_balance from r.2);
    mret r.1.

(** The second half: the amount that moves is selected, credited and
    granted. *)
Definition credit (from to : address) (amount : euint64) (success : ebool)
  : M euint64 :=
  zero ← asEuint64 0;
  transferred ← select success amount zero;
  _ ← (if bool_decide (to = 0) then
         supply ← read _totalSupply;
         ptr ← sub supply transferred;
         _ ← allowThis ptr;
         write (set_totalSupply ptr)
       else
         toBalance ← read (λ s, balanceOf s to);
         ptr ← add toBalance transferred;
         _ ← allowThis ptr;
         _ ← allow ptr to;
         write (set_balance to ptr));
  _ ← (if bool_decide (from = 0) then mret tt else allow transferred from);
  _ ← (if bool_decide (to = 0) then mret tt else allow transferred to);
  _ ← allowThis transferred;
  _ ← write (emit (ConfidentialTransfer from to transferred));
  mret transferred.

Definition _update (from to : address) (amount : euint64) : M euint64 :=
  success ← debit from amount;
  credit from to amount success.

(** What the second half stores and returns when it is permitted. *)
Definition credited (from to : address) (amount : euint64)
    (success : ebool) (s : State) : State * euint64 :=
  let transferred := FHE.select success amount (FHE.asEuint64 0) in
  let s :=
    if bool_decide (to = 0) then
      let ptr := FHE.sub (_totalSupply s) transferred in
      set_totalSupply ptr (PayrollToken.allowThis env ptr s)
    else
      let ptr := FHE.add (balanceOf s to) transferred in
      set_balance to ptr
        (PayrollToken.allow ptr to (PayrollToken.allowThis env ptr s)) in
  let s := if bool_decide (from = 0) then s
           else PayrollToken.allow transferred from s in
  let s := if bool_decide (to = 0) then s
           else PayrollToken.allow transferred to s in
  let s := PayrollToken.allowThis env transferred s in
  (emit (ConfidentialTransfer from to transferred) s, transferred).

Definition processPayrollPayment (employee : address)
    (grossPay taxAmount : euint64) : M unit :=
  _ ← Runtime.guard (onlyPayrollManager env);
  grossAllowed ← isSenderAllowed grossPay;
  _ ← lift (require grossAllowed "Gross pay not allowed");
  taxAllowed ← isSenderAllowed taxAmount;
  _ ← lift (require taxAllowed "Tax amount not allowed");
  netPay ← sub grossPay taxAmount;
  senderBalance ← read (λ s, confidentialBalanceOf s (msg_sender env));
  canTransfer ← le grossPay senderBalance;
  zero ← asEuint64 0;
  actualTransfer ← select canTransfer netPay zero;
  _ ← _update (msg_sender env) employee actualTransfer;
  authority ← read taxAuthority;
  pending ← read (λ s, withholdingsOf s authority);
  pending ← add pending taxAmount;
  _ ← write (set_withholdings authority pending);
  employeeBalance ← read (λ s, confidentialBalanceOf s employee);
  _ ← allow employeeBalance employee;
  write (emit (TaxWithheld employee (block_timestamp env))).

Definition remitTaxWithholdings : M unit :=
  _ ← Runtime.guard (onlyPayrollManager env);
  authority ← read taxAuthority;
  totalTax ← read (λ s, withholdingsOf s authority);
  zero ← asEuint64 0;
  hasTax ← gt totalTax zero;
  zero ← asEuint64 0;
  remittance ← select hasTax totalTax zero;
  _ ← _update (msg_sender env) authority remittance;
  authority ← read taxAuthority;
  zero ← asEuint64 0;
  _ ← write (set_withholdings authority zero);
  authorityBalance ← read (λ s, confidentialBalanceOf s authority);
  _ ← allow authorityBalance authority;
  write (emit (TaxRemitted authority (block_timestamp env))).

End Calls.

Definition begin (s : State) : Machine :=
  {| Runtime.store := s; Runtime.transient := [] |}.

(** The transactions that call [processPayrollPayment] and
    [remitTaxWithholdings]. *)
Definition payment (env : Env) (s : State) (employee : address)
    (grossPay taxAmount : euint64) : result State :=
  match processPayrollPayment env employee grossPay taxAmount (begin s) with
  | Ok (_, m) => Ok (Runtime.store m)
  | Revert e => Revert e
  end.

Definition remittance (env : Env) (s : State) : result State :=
  match remitTaxWithholdings env (begin s) with
  | Ok (_, m) => Ok (Runtime.store m)
  | Revert e => Revert e
  end.

End TokenRuntime.

Module TR := TokenRuntime.

(** ** Scenarios on the runtime *)

Module RuntimeScenario.

Import ConfidentialPayrollSystem Scenario.

(** The example of the specification, through the runtime's
    transactions. *)
Definition hired (e : address) : State :=
  PR.after [(by_ admin 50, call_addEmployee e (enc 1 5000000) (enc 2 20) [])]
           deployed.

Definition paid (e : address) : State :=
  PR.after [(by_ admin 60, call_processPayroll)] (hired e).






(** *** The token *)

(** The token deployed by [admin] with a supply of 50; [admin] may use
    the ciphertexts it will pass as gross pay and tax, and has granted
    them to the token. *)
Definition token_ready : PayrollToken.State :=
  PayrollToken.allow (FHE.Trivial 100) tokenAddress
    (PayrollToken.allow (FHE.Trivial 30) tokenAddress
      (PayrollToken.allow (FHE.Trivial 0) tokenAddress token_funded)).

(** A payment of gross 100 and tax 30 out of a balance of 50. *)
Definition token_short : PayrollToken.State :=
  token_after (TokenRuntime.payment (token_by admin 60) token_ready bob
                 (FHE.Trivial 100) (FHE.Trivial 30)).

(** A payment of gross 30 and tax 0 out of a balance of 50. *)
Definition token_paid : PayrollToken.State :=
  token_after (TokenRuntime.payment (token_by admin 60) token_ready bob
                 (FHE.Trivial 30) (FHE.Trivial 0)).

(** The amount a payment moves, as the specification states it. *)
Definition pays_min_of_amount_and_balance : Prop :=
  forall env s employee grossPay taxAmount s',
    TokenRuntime.payment env s employee grossPay taxAmount = Ok s' ->
    employee <> msg_sender env -> employee <> 0 ->
    FHE.decrypt (PayrollToken.balanceOf s' employee) =
    (FHE.decrypt (PayrollToken.balanceOf s employee) +
     Z.min (FHE.decrypt (FHE.sub grossPay taxAmount))
           (FHE.decrypt (PayrollToken.balanceOf s (msg_sender env))))
    mod FHE.modulus.

End RuntimeScenario.

Module RS := RuntimeScenario.

(** * Properties *)

(** ** The FHE runtime *)

Section FHEFacts.

Lemma decrypt_range (h : euint64) : 0 <= FHE.decrypt h < FHE.modulus.
Proof.
  assert (0 < FHE.modulus) by (unfold FHE.modulus; lia).
  assert (1 < FHE.modulus) by (unfold FHE.modulus; lia).
  induction h; simpl; try (apply Z.mod_pos_bound; lia);
    try (case_match; lia).
  lia.
Qed.

Lemma decrypt_operand (h : euint64) :
  FHE.decrypt (FHE.operand h) = FHE.decrypt h.
Proof. destruct h; reflexivity. Qed.

Lemma decrypt_add (a b : euint64) :
  FHE.decrypt (FHE.add a b) = (FHE.decrypt a + FHE.decrypt b) mod FHE.modulus.
Proof. simpl. by rewrite !decrypt_operand. Qed.

Lemma decrypt_sub (a b : euint64) :
  FHE.decrypt (FHE.sub a b) = (FHE.decrypt a - FHE.decrypt b) mod FHE.modulus.
Proof. simpl. by rewrite !decrypt_operand. Qed.

Lemma decrypt_mul (a b : euint64) :
  FHE.decrypt (FHE.mul a b) = (FHE.decrypt a * FHE.decrypt b) mod FHE.modulus.
Proof. simpl. by rewrite !decrypt_operand. Qed.

Lemma isAllowed_allow (h : euint64) (a : address) (acl : FHE.ACL) :
  FHE.isAllowed h a (FHE.allow h a acl) = true.
Proof. unfold FHE.isAllowed, FHE.allow. apply bool_decide_eq_true. set_solver. Qed.

Lemma isAllowed_mono (h h' : euint64) (a a' : address) (acl : FHE.ACL) :
  FHE.isAllowed h a acl = true ->
  FHE.isAllowed h a (FHE.allow h' a' acl) = true.
Proof.
  unfold FHE.isAllowed, FHE.allow. rewrite !bool_decide_eq_true. set_solver.
Qed.

End FHEFacts.

(** ** ConfidentialPayrollSystem: storage and loop lemmas *)

Section PayrollSystemFacts.

Import CPS.

Lemma employeeOf_set_employee (a b : address) (e : EmployeeData) (s : State) :
  employeeOf (set_employee a e s) b = if decide (a = b) then e else employeeOf s b.
Proof.
  unfold employeeOf, set_employee; simpl.
  rewrite lookup_insert. by case_decide.
Qed.

Lemma employeeOf_update_employee (a b : address)
    (f : EmployeeData -> EmployeeData) (s : State) :
  employeeOf (update_employee a f s) b =
  if decide (a = b) then f (employeeOf s a) else employeeOf s b.
Proof. unfold update_employee. apply employeeOf_set_employee. Qed.

Lemma isActive_update_employee (a b : address)
    (f : EmployeeData -> EmployeeData) (s : State) :
  (forall e, isActive (f e) = isActive e) ->
  isActive (employeeOf (update_employee a f s) b) = isActive (employeeOf s b).
Proof.
  intros Hf. unfold update_employee. rewrite employeeOf_set_employee.
  case_decide; [subst; apply Hf | done].
Qed.

Lemma paymentOf_set_payment (a b : address) (p q : Z) (h : euint64) (s : State) :
  paymentOf (set_payment a p h s) b q =
  if decide ((a, p) = (b, q)) then h else paymentOf s b q.
Proof.
  unfold paymentOf, set_payment; simpl.
  rewrite lookup_insert. by case_decide.
Qed.

Lemma employeeOf_allow (h : euint64) (a b : address) (s : State) :
  employeeOf (allow h a s) b = employeeOf s b.
Proof. reflexivity. Qed.

Lemma employeeOf_set_payment (a b : address) (p : Z) (h : euint64) (s : State) :
  employeeOf (set_payment a p h s) b = employeeOf s b.
Proof. reflexivity. Qed.

Lemma employeeOf_set_budget (h : euint64) (b : address) (s : State) :
  employeeOf (set_budget h s) b = employeeOf s b.
Proof. reflexivity. Qed.


Lemma payroll_frame_refl (s : State) : payroll_frame s s.
Proof. by repeat split. Qed.

Lemma payroll_frame_trans (s1 s2 s3 : State) :
  payroll_frame s1 s2 -> payroll_frame s2 s3 -> payroll_frame s1 s3.
Proof.
  intros (c1 & p1 & t1 & r1 & e1 & a1 & h1) (c2 & p2 & t2 & r2 & e2 & a2 & h2).
  unfold payroll_frame. split_and!; try congruence.
  intros a q Hq. rewrite h2, h1; [done | done | congruence].
Qed.

Lemma processPayroll_iter_frame (env : Env) (s : State) (n i : Z) :
  payroll_frame s (processPayroll_iter env (s, n) i).1.
Proof.
  unfold processPayroll_iter.
  destruct (isActive (employeeOf s (getEmployeeByIndex i))) eqn:Hact; simpl;
    [| apply payroll_frame_refl].
  unfold payroll_frame. split_and!; try done.
  - intros a.
    repeat (rewrite isActive_update_employee; [| done]).
    unfold _transferConfidentialPayment.
    rewrite employeeOf_allow, employeeOf_set_payment.
    repeat (rewrite isActive_update_employee; [| done]). done.
  - intros a q Hq.
    unfold update_employee, set_employee, _transferConfidentialPayment, allow,
      paymentOf; simpl.
    rewrite lookup_insert_ne; [done | congruence].
Qed.

Lemma processPayroll_loop_frame (env : Env) (l : list Z) (s : State) (n : Z) :
  payroll_frame s (foldl (processPayroll_iter env) (s, n) l).1.
Proof.
  revert s n. induction l as [| i l IH]; intros s n; cbn [foldl].
  - apply payroll_frame_refl.
  - pose proof (processPayroll_iter_frame env s n i) as H.
    destruct (processPayroll_iter env (s, n) i) as [s1 n1].
    eapply payroll_frame_trans; [exact H | apply IH].
Qed.

Lemma processPayroll_unfold (env : Env) (s : State) :
  processPayroll env s =
  if hasRole PAYROLL_ADMIN_ROLE (msg_sender env) s then
    if currentPayPeriod s <? uint256_max then
      let r := payroll_loop env s in
      Ok (emit (PayrollProcessed (currentPayPeriod r.1) r.2) r.1)
    else Revert PanicOverflow
  else Revert (AccessControlUnauthorizedAccount (msg_sender env)
                 PAYROLL_ADMIN_ROLE).
Proof.
  unfold processPayroll, onlyRole, checked_incr, payroll_loop.
  destruct (hasRole _ _ s); [| done]. simpl.
  destruct (currentPayPeriod s <? uint256_max); [| done]. simpl.
  by destruct (foldl _ _ _).
Qed.

Lemma payroll_loop_frame (env : Env) (s : State) :
  payroll_frame (set_currentPayPeriod (currentPayPeriod s + 1) s)
                (payroll_loop env s).1.
Proof. apply processPayroll_loop_frame. Qed.

End PayrollSystemFacts.

(** Reads an employee record through the writes that precede it. *)
Ltac read_employee :=
  unfold CPS._transferConfidentialPayment, CPS.allowThis;
  repeat first
    [ rewrite employeeOf_update_employee
    | rewrite employeeOf_set_employee
    | rewrite employeeOf_allow
    | rewrite employeeOf_set_payment
    | rewrite employeeOf_set_budget
    | rewrite decide_True by done ].

(** ** Payroll runs and the budget *)

Section PayrollRuns.

Import CPS Scenario.

(** C2: the example of the specification, run on the code.  With the
    employee at an ordinary address the run records no payment for her and
    her year-to-date accumulators stay at zero, because the loop only ever
    visits the address returned by [getEmployeeByIndex].  With the employee
    at that address a payment is recorded, and it decrypts to
    5000000 - 5000000 * 20 wrapped modulo 2^64, not to 4000000. *)
Theorem payroll_example_on_code :
  paymentHistory (paid alice) !! (alice, 1) = None /\
  FHE.decrypt (encryptedYTDEarnings (employeeOf (paid alice) alice)) = 0 /\
  FHE.decrypt (encryptedYTDTax (employeeOf (paid alice) alice)) = 0 /\
  last (events (paid alice)) = Some (PayrollProcessed 1 0) /\
  FHE.decrypt (paymentOf (paid 0) 0 1) = 2 ^ 64 - 95000000 /\
  FHE.decrypt (encryptedYTDEarnings (employeeOf (paid 0) 0)) = 5000000 /\
  FHE.decrypt (encryptedYTDTax (employeeOf (paid 0) 0)) = 100000000.
Proof. vm_compute. by split_and!. Qed.

(** The arithmetic of one processed employee, on handles and in clear. *)
Lemma processPayroll_iter_active (env : Env) (s : State) (n i : Z) :
  let a := getEmployeeByIndex i in
  let e := employeeOf s a in
  let grossPay := FHE.add (encryptedSalary e) (encryptedBonus e) in
  let taxAmount := FHE.mul grossPay (encryptedTaxRate e) in
  let netPay := FHE.sub grossPay taxAmount in
  let s' := (processPayroll_iter env (s, n) i).1 in
  isActive e = true ->
  paymentOf s' a (currentPayPeriod s) = netPay /\
  encryptedYTDEarnings (employeeOf s' a) =
    FHE.add (encryptedYTDEarnings e) grossPay /\
  encryptedYTDTax (employeeOf s' a) = FHE.add (encryptedYTDTax e) taxAmount /\
  encryptedBonus (employeeOf s' a) = FHE.asEuint64 0 /\
  FHE.isAllowed netPay (paymentToken (config s)) (acl s') = true.
Proof.
intros a e grossPay taxAmount netPay s' Hact. subst s'.
unfold processPayroll_iter. fold a. fold e. rewrite Hact. cbn [negb fst].
fold grossPay. fold taxAmount. fold netPay.
split_and!.
- unfold update_employee at 1 2.
  unfold paymentOf, set_employee. cbn [paymentHistory].
  unfold _transferConfidentialPayment, allow. cbn [paymentHistory].
  unfold set_payment at 1. cbn [paymentHistory].
  unfold update_employee, set_employee. cbn [currentPayPeriod].
  by rewrite lookup_insert_eq.
- by read_employee.
- by read_employee.
- by read_employee.
- unfold update_employee, set_employee, _transferConfidentialPayment, allow.
  cbn [acl config set_payment]. apply isAllowed_allow.
Qed.

End PayrollRuns.

(** ** Salary updates *)

Section SalaryUpdates.

Import CPS Scenario.

Lemma updateSalary_unfold (env : Env) (s : State) (employee : address)
    (newEncryptedSalary : externalEuint64) (inputProof : bytes) :
  updateSalary env s employee newEncryptedSalary inputProof =
  if hasRole PAYROLL_ADMIN_ROLE (msg_sender env) s then
    if isActive (employeeOf s employee) then
      let oldSalary := encryptedSalary (employeeOf s employee) in
      let newSalary := FHE.fromExternal newEncryptedSalary inputProof in
      let budget :=
        FHE.add (FHE.sub (encryptedTotalBudget (config s)) oldSalary)
                newSalary in
      Ok (allow newSalary employee
           (allowThis env newSalary
             (update_employee employee (set_salary newSalary)
               (set_budget budget s))))
    else Revert (RequireFailed "Employee not found")
  else Revert (AccessControlUnauthorizedAccount (msg_sender env)
                 PAYROLL_ADMIN_ROLE).
Proof.
unfold updateSalary, onlyRole, require.
destruct (hasRole _ _ s); [| done]. simpl.
destruct (isActive _); [| done]. simpl.
reflexivity.
Qed.

End SalaryUpdates.

(** ** Authorization and failures *)

Section Authorization.

Import CPS Scenario.

Lemma onlyRole_denied (role : bytes32) (env : Env) (s : State) :
  hasRole role (msg_sender env) s = false ->
  onlyRole role env s =
    Revert (AccessControlUnauthorizedAccount (msg_sender env) role).
Proof. unfold onlyRole. by intros ->. Qed.

Lemma onlyRole_granted (role : bytes32) (env : Env) (s : State) :
  hasRole role (msg_sender env) s = true -> onlyRole role env s = Ok tt.
Proof. unfold onlyRole. by intros ->. Qed.

Lemma onlyPayrollManager_denied (env : Env) (s : PT.State) :
  PT.isPayrollManager s (msg_sender env) = false ->
  PT.onlyPayrollManager env s = Revert (RequireFailed "Not a payroll manager").
Proof. unfold PT.onlyPayrollManager, require. by intros ->. Qed.

(** C5: a call whose sender lacks the role the function demands reverts
    with the authorization error of that role, for each function of the
    payroll contract and for the manager-gated functions of the token; a
    reverted call leaves the state as it was; a duplicate [addEmployee]
    reverts with "Employee already exists", and [updateSalary] and
    [distributeBonus] on an employee that is not active revert with
    "Employee not found". *)
Theorem unauthorized_calls_revert (env : Env) (s : State)
    (tenv : Env) (ts : PT.State) :
  (hasRole PAYROLL_ADMIN_ROLE (msg_sender env) s = false ->
   (forall e sal tax pf,
      addEmployee env s e sal tax pf =
        Revert (AccessControlUnauthorizedAccount (msg_sender env)
                  PAYROLL_ADMIN_ROLE)) /\
   processPayroll env s =
     Revert (AccessControlUnauthorizedAccount (msg_sender env)
               PAYROLL_ADMIN_ROLE) /\
   (forall e sal pf,
      updateSalary env s e sal pf =
        Revert (AccessControlUnauthorizedAccount (msg_sender env)
                  PAYROLL_ADMIN_ROLE))) /\
  (hasRole EMPLOYER_ROLE (msg_sender env) s = false ->
   forall e b pf,
     distributeBonus env s e b pf =
       Revert (AccessControlUnauthorizedAccount (msg_sender env)
                 EMPLOYER_ROLE)) /\
  (hasRole AUDITOR_ROLE (msg_sender env) s = false ->
   generateComplianceReport env s =
     Revert (AccessControlUnauthorizedAccount (msg_sender env) AUDITOR_ROLE)) /\
  (PT.isPayrollManager ts (msg_sender tenv) = false ->
   (forall e g t,
      PT.processPayrollPayment tenv ts e g t =
        Revert (RequireFailed "Not a payroll manager")) /\
   (forall es gs ts',
      PT.batchProcessPayroll tenv ts es gs ts' =
        Revert (RequireFailed "Not a payroll manager")) /\
   PT.remitTaxWithholdings tenv ts =
     Revert (RequireFailed "Not a payroll manager")) /\
  (forall c err, run env s c = Revert err -> transact env s c = s) /\
  (hasRole PAYROLL_ADMIN_ROLE (msg_sender env) s = true ->
   forall e sal tax pf,
     isActive (employeeOf s e) = true ->
     addEmployee env s e sal tax pf =
       Revert (RequireFailed "Employee already exists")) /\
  (hasRole PAYROLL_ADMIN_ROLE (msg_sender env) s = true ->
   forall e sal pf,
     isActive (employeeOf s e) = false ->
     updateSalary env s e sal pf = Revert (RequireFailed "Employee not found")) /\
  (hasRole EMPLOYER_ROLE (msg_sender env) s = true ->
   forall e b pf,
     isActive (employeeOf s e) = false ->
     distributeBonus env s e b pf = Revert (RequireFailed "Employee not found")).
Proof.
split_and!.
- intros H. split_and!; intros.
  + unfold addEmployee. by rewrite onlyRole_denied.
  + unfold processPayroll. by rewrite onlyRole_denied.
  + unfold updateSalary. by rewrite onlyRole_denied.
- intros H e b pf. unfold distributeBonus. by rewrite onlyRole_denied.
- intros H. unfold generateComplianceReport. by rewrite onlyRole_denied.
- intros H. split_and!; intros.
  + unfold PT.processPayrollPayment. by rewrite onlyPayrollManager_denied.
  + unfold PT.batchProcessPayroll. by rewrite onlyPayrollManager_denied.
  + unfold PT.remitTaxWithholdings. by rewrite onlyPayrollManager_denied.
- intros c err H. unfold transact. by rewrite H.
- intros H e sal tax pf Hact. unfold addEmployee.
  rewrite onlyRole_granted by done. by rewrite Hact.
- intros H e sal pf Hact. unfold updateSalary.
  rewrite onlyRole_granted by done. by rewrite Hact.
- intros H e b pf Hact. unfold distributeBonus.
  rewrite onlyRole_granted by done. by rewrite Hact.
Qed.

Lemma unauthorized_calls_revert_witness :
  addEmployee (by_ alice 60) (hired alice) bob (enc 5 1) (enc 6 1) [] =
    Revert (AccessControlUnauthorizedAccount alice PAYROLL_ADMIN_ROLE) /\
  processPayroll (by_ alice 60) (hired alice) =
    Revert (AccessControlUnauthorizedAccount alice PAYROLL_ADMIN_ROLE) /\
  updateSalary (by_ alice 60) (hired alice) alice (enc 5 1) [] =
    Revert (AccessControlUnauthorizedAccount alice PAYROLL_ADMIN_ROLE) /\
  distributeBonus (by_ alice 60) (hired alice) alice (enc 7 10) [] =
    Revert (AccessControlUnauthorizedAccount alice EMPLOYER_ROLE) /\
  generateComplianceReport (by_ alice 60) (hired alice) =
    Revert (AccessControlUnauthorizedAccount alice AUDITOR_ROLE) /\
  PT.processPayrollPayment (token_by alice 60) token_funded bob
      (FHE.Trivial 100) (FHE.Trivial 0) =
    Revert (RequireFailed "Not a payroll manager") /\
  PT.batchProcessPayroll (token_by alice 60) token_funded [bob]
      [FHE.Trivial 100] [FHE.Trivial 0] =
    Revert (RequireFailed "Not a payroll manager") /\
  PT.remitTaxWithholdings (token_by alice 60) token_funded =
    Revert (RequireFailed "Not a payroll manager") /\
  transact (by_ alice 60) (hired alice)
      (call_distributeBonus alice (enc 7 10) []) = hired alice /\
  addEmployee (by_ admin 60) (hired alice) alice (enc 5 1) (enc 6 1) [] =
    Revert (RequireFailed "Employee already exists") /\
  updateSalary (by_ admin 60) (hired alice) bob (enc 5 1) [] =
    Revert (RequireFailed "Employee not found") /\
  distributeBonus (by_ admin 60) (hired alice) bob (enc 7 10) [] =
    Revert (RequireFailed "Employee not found").
Proof.
destruct (unauthorized_calls_revert (by_ alice 60) (hired alice)
            (token_by alice 60) token_funded)
  as (Hadmin & Hemployer & Hauditor & Hmanager & Hsame & _).
destruct (unauthorized_calls_revert (by_ admin 60) (hired alice)
            (token_by alice 60) token_funded)
  as (_ & _ & _ & _ & _ & Hdup & Hsalary & Hbonus).
destruct (Hadmin eq_refl) as (Hadd & Hrun & Hupd).
destruct (Hmanager eq_refl) as (Hpay & Hbatch & Hremit).
split_and!.
- apply Hadd.
- apply Hrun.
- apply Hupd.
- apply (Hemployer eq_refl).
- apply (Hauditor eq_refl).
- apply Hpay.
- apply Hbatch.
- apply Hremit.
- apply (Hsame _ (AccessControlUnauthorizedAccount alice EMPLOYER_ROLE)).
  reflexivity.
- apply (Hdup eq_refl). reflexivity.
- apply (Hsalary eq_refl). reflexivity.
- apply (Hbonus eq_refl). reflexivity.
Defined.

End Authorization.

(** ** The event log *)

Section EventLog.

Import CPS Scenario.

(** What each function adds to the event log when it succeeds. *)
Lemma event_log_of_calls (env : Env) (s : State) :
  (forall e sal tax pf s',
     addEmployee env s e sal tax pf = Ok s' ->
     events s' = events s ++ [EmployeeAdded e (block_timestamp env)]) /\
  (forall s',
     processPayroll env s = Ok s' ->
     events s' = events s ++
       [PayrollProcessed (currentPayPeriod s + 1) (payroll_loop env s).2]) /\
  (forall e b pf s',
     distributeBonus env s e b pf = Ok s' ->
     events s' = events s ++ [BonusDistributed e (block_timestamp env)]) /\
  (forall s' h,
     generateComplianceReport env s = Ok (s', h) ->
     events s' = events s ++ [ComplianceReportGenerated (currentPayPeriod s) h]) /\
  (forall e sal pf s',
     updateSalary env s e sal pf = Ok s' -> events s' = events s).
Proof.
split_and!.
- intros e sal tax pf s'. unfold addEmployee, onlyRole, require, checked_incr.
  destruct (hasRole _ _ s); [| done]. simpl.
  destruct (isActive _); [done |]. simpl.
  destruct (_ <? _); [| done]. simpl. by intros [= <-].
- intros s'. rewrite processPayroll_unfold.
  destruct (hasRole _ _ s); [| done].
  destruct (_ <? _); [| done].
  intros [= <-].
  destruct (payroll_loop_frame env s) as (_ & Hp & _ & _ & He & _).
  cbn [emit events]. rewrite He, Hp. reflexivity.
- intros e b pf s'. unfold distributeBonus, onlyRole, require.
  destruct (hasRole _ _ s); [| done]. simpl.
  destruct (isActive _); [| done]. simpl. by intros [= <-].
- intros s' h. unfold generateComplianceReport, onlyRole.
  destruct (hasRole _ _ s); [| done]. simpl.
  destruct (report_totals s). by intros [= <- <-].
- intros e sal pf s'. rewrite updateSalary_unfold.
  destruct (hasRole _ _ s); [| done].
  destruct (isActive _); [| done]. by intros [= <-].
Qed.

End EventLog.

(** ** Employees stay active *)

Section ActiveEmployees.

Import CPS Scenario.

Lemma run_keeps_employees (env : Env) (s : State) (c : Call) (s' : State) :
  run env s c = Ok s' ->
  (forall a, isActive (employeeOf s a) = true ->
             isActive (employeeOf s' a) = true) /\
  totalEmployees s <= totalEmployees s'.
Proof.
destruct c as [e sal tax pf | | e b pf | | e sal pf | r a | r a | r a];
  cbn [run].
- unfold addEmployee, onlyRole, require, checked_incr.
  destruct (hasRole _ _ s); [| done]. simpl.
  destruct (isActive _); [done |]. simpl.
  destruct (_ <? _); [| done]. simpl. intros [= <-].
  split; [| simpl; lia].
  intros a Ha. unfold employeeOf. simpl.
  rewrite lookup_insert. by case_decide.
- rewrite processPayroll_unfold.
  destruct (hasRole _ _ s); [| done].
  destruct (_ <? _); [| done].
  intros [= <-].
  destruct (payroll_loop_frame env s) as (_ & _ & Ht & _ & _ & Ha & _).
  split.
  + intros a H. change (isActive (employeeOf (payroll_loop env s).1 a) = true).
    by rewrite Ha.
  + cbn [emit totalEmployees]. rewrite Ht. simpl. lia.
- unfold distributeBonus, onlyRole, require.
  destruct (hasRole _ _ s); [| done]. simpl.
  destruct (isActive _); [| done]. simpl. intros [= <-].
  split; [| simpl; lia].
  intros a Ha.
  change (isActive (employeeOf
            (update_employee e
               (fun e0 => set_bonus (FHE.add (encryptedBonus e0)
                                       (FHE.fromExternal b pf)) e0) s) a) = true).
  by rewrite isActive_update_employee.
- unfold generateComplianceReport, onlyRole.
  destruct (hasRole _ _ s); [| done]. simpl.
  destruct (report_totals s). simpl. intros [= <-]. split; [done | simpl; lia].
- rewrite updateSalary_unfold.
  destruct (hasRole _ _ s); [| done].
  destruct (isActive _); [| done]. intros [= <-].
  split; [| simpl; lia].
  intros a Ha. cbn zeta.
  rewrite employeeOf_allow. unfold allowThis. rewrite employeeOf_allow.
  by rewrite isActive_update_employee.
- unfold grantRole, onlyRole, _grantRole.
  destruct (hasRole (getRoleAdmin r) (msg_sender env) s); [| done]. simpl.
  destruct (hasRole r a s); intros [= <-]; split; (done || simpl; lia).
- unfold revokeRole, onlyRole, _revokeRole.
  destruct (hasRole (getRoleAdmin r) (msg_sender env) s); [| done]. simpl.
  destruct (hasRole r a s); intros [= <-]; split; (done || simpl; lia).
- unfold renounceRole, _revokeRole.
  case_bool_decide; [| done].
  destruct (hasRole r a s); intros [= <-]; split; (done || simpl; lia).
Qed.

End ActiveEmployees.

Section ActiveForever.

Import CPS Scenario.

Lemma transact_keeps_employees (env : Env) (s : State) (c : Call) :
  (forall a, isEmployee s a = true -> isEmployee (transact env s c) a = true) /\
  totalEmployees s <= totalEmployees (transact env s c).
Proof.
unfold transact, isEmployee.
destruct (run env s c) as [s' |] eqn:E; [| split; [done | lia]].
by apply (run_keeps_employees env s c s').
Qed.

Lemma later_keeps_employees (s s' : State) :
  later s s' ->
  (forall a, isEmployee s a = true -> isEmployee s' a = true) /\
  totalEmployees s <= totalEmployees s'.
Proof.
induction 1 as [| env c s' _ [IHa IHt]]; [split; [done | lia] |].
destruct (transact_keeps_employees env s' c) as [Ha Ht].
split; [| lia]. intros a H. by apply Ha, IHa.
Qed.

(** C10: once [addEmployee] has succeeded for an address, [isEmployee]
    answers true for it in every later state, whatever transactions
    follow; more generally no transaction turns an active employee
    inactive, and [totalEmployees] never decreases. *)
Theorem employees_stay_active (env : Env) (s : State) (employee : address)
    (encryptedSalary encryptedTaxRate : externalEuint64) (inputProof : bytes)
    (s1 s2 : State) :
  addEmployee env s employee encryptedSalary encryptedTaxRate inputProof = Ok s1 ->
  later s1 s2 ->
  isEmployee s1 employee = true /\
  isEmployee s2 employee = true /\
  (forall a, isEmployee s1 a = true -> isEmployee s2 a = true) /\
  totalEmployees s1 = totalEmployees s + 1 /\
  totalEmployees s1 <= totalEmployees s2.
Proof.
intros Hadd Hlater.
destruct (later_keeps_employees s1 s2 Hlater) as [Ha Ht].
assert (isEmployee s1 employee = true /\
        totalEmployees s1 = totalEmployees s + 1) as [H1 H2].
{ revert Hadd. unfold addEmployee, onlyRole, require, checked_incr.
  destruct (hasRole _ _ s); [| done]. simpl.
  destruct (isActive _); [done |]. simpl.
  destruct (_ <? _); [| done]. simpl. intros [= <-].
  split; [| done].
  unfold isEmployee, employeeOf. simpl. by rewrite lookup_insert_eq. }
split_and!; auto.
Qed.

Lemma employees_stay_active_witness :
  isEmployee (hired alice) alice = true /\
  isEmployee (paid alice) alice = true /\
  (forall a, isEmployee (hired alice) a = true ->
             isEmployee (paid alice) a = true) /\
  totalEmployees (hired alice) = totalEmployees deployed + 1 /\
  totalEmployees (hired alice) <= totalEmployees (paid alice).
Proof.
apply (employees_stay_active (by_ admin 50) deployed alice
         (enc 1 5000000) (enc 2 20) [] (hired alice) (paid alice)).
- reflexivity.
- apply (later_step (hired alice) (by_ admin 60) call_processPayroll).
  apply later_now.
Defined.

End ActiveForever.

(** ** PayrollToken: the inherited transfer *)

Section TokenStorage.

Import PT.

Lemma balanceOf_set_balance (a b : address) (h : euint64) (s : State) :
  balanceOf (set_balance a h s) b = if decide (a = b) then h else balanceOf s b.
Proof.
unfold balanceOf, set_balance; simpl.
rewrite lookup_insert. by case_decide.
Qed.

Lemma balanceOf_allow (h : euint64) (a b : address) (s : State) :
  balanceOf (allow h a s) b = balanceOf s b.
Proof. reflexivity. Qed.

Lemma balanceOf_emit (e : Event) (b : address) (s : State) :
  balanceOf (emit e s) b = balanceOf s b.
Proof. reflexivity. Qed.

Lemma balanceOf_set_withholdings (a b : address) (h : euint64) (s : State) :
  balanceOf (set_withholdings a h s) b = balanceOf s b.
Proof. reflexivity. Qed.

End TokenStorage.

(** Reads a balance through the writes that precede it. *)
Ltac read_balance :=
  unfold PT.allowThis;
  repeat first
    [ rewrite balanceOf_emit
    | rewrite balanceOf_allow
    | rewrite balanceOf_set_withholdings
    | rewrite balanceOf_set_balance
    | rewrite decide_True by done
    | rewrite decide_False by done ].

Section TokenTransfer.

Import PT.

(** A transfer between two distinct accounts, from an initialised balance. *)
Lemma update_transfer (env : Env) (s : State) (from to : address)
    (amount : euint64) :
  from <> 0 -> to <> 0 ->
  FHE.isInitialized (balanceOf s from) = true ->
  let bal := FHE.decrypt (balanceOf s from) in
  let transferred :=
    FHE.select (FHE.ge (balanceOf s from) amount) amount (FHE.asEuint64 0) in
  exists s1,
    _update env s from to amount = Ok (s1, transferred) /\
    FHE.decrypt transferred = moved (FHE.decrypt amount) bal /\
    events s1 = events s ++ [ConfidentialTransfer from to transferred] /\
    pendingWithholdings s1 = pendingWithholdings s /\
    taxAuthority s1 = taxAuthority s /\
    (from <> to ->
     FHE.decrypt (balanceOf s1 from) = bal - moved (FHE.decrypt amount) bal /\
     FHE.decrypt (balanceOf s1 to) =
       (FHE.decrypt (balanceOf s to) + moved (FHE.decrypt amount) bal)
       mod FHE.modulus).
Proof.
intros Hfrom Hto Hinit bal transferred.
unfold _update. rewrite !bool_decide_eq_false_2 by done.
rewrite Hinit. unfold tryDecrease. simpl mbind.
eexists. split; [reflexivity |].
assert (Hclear : FHE.decrypt transferred = moved (FHE.decrypt amount) bal).
{ subst transferred bal. unfold moved. simpl.
  rewrite !decrypt_operand. by destruct (_ <=? _). }
split; [exact Hclear |].
split; [reflexivity |]. split; [reflexivity |]. split; [reflexivity |].
intros Hne. assert (Hne' : to <> from) by congruence.
fold transferred. read_balance.
split.
- cbn [FHE.select FHE.decrypt FHE.ge]. rewrite decrypt_sub, !decrypt_operand.
  fold bal. unfold moved.
  pose proof (decrypt_range amount) as Ha.
  pose proof (decrypt_range (balanceOf s from)) as Hb. fold bal in Hb.
  destruct (FHE.decrypt amount <=? bal) eqn:E; simpl.
  + apply Z.leb_le in E. rewrite Z.mod_small; lia.
  + lia.
- rewrite decrypt_add, Hclear. reflexivity.
Qed.


Lemma withholdingsOf_set_withholdings (a : address) (h : euint64) (s : State) :
  withholdingsOf (set_withholdings a h s) a = h.
Proof. unfold withholdingsOf, set_withholdings; simpl. by rewrite lookup_insert_eq. Qed.

End TokenTransfer.

(** ** PayrollToken: payments and withholdings *)

Section TokenPayments.

Import PT Scenario.

(** With every FHE operation permitted, a payment that passes its
    guards moves all of the net pay when the two encrypted comparisons
    hold, that of [processPayrollPayment] and that of the inherited
    transfer, and nothing otherwise. *)
Lemma transfer_all_or_nothing (env : Env) (s : State) (employee : address)
    (grossPay taxAmount : euint64) :
  isPayrollManager s (msg_sender env) = true ->
  isSenderAllowed env s grossPay = true ->
  isSenderAllowed env s taxAmount = true ->
  FHE.isInitialized (balanceOf s (msg_sender env)) = true ->
  msg_sender env <> 0 -> employee <> 0 -> employee <> msg_sender env ->
  let balance := balanceOf s (msg_sender env) in
  let netPay := FHE.sub grossPay taxAmount in
  let canTransfer := FHE.le grossPay balance in
  let actualTransfer := FHE.select canTransfer netPay (FHE.asEuint64 0) in
  let transferred :=
    FHE.select (FHE.ge balance actualTransfer) actualTransfer (FHE.asEuint64 0) in
  let paid :=
    if (FHE.decrypt grossPay <=? FHE.decrypt balance)
       && (FHE.decrypt netPay <=? FHE.decrypt balance)
    then FHE.decrypt netPay else 0 in
  exists s',
    processPayrollPayment env s employee grossPay taxAmount = Ok s' /\
    ConfidentialTransfer (msg_sender env) employee transferred ∈ events s' /\
    FHE.decrypt transferred = paid /\
    FHE.decrypt (balanceOf s' employee) =
      (FHE.decrypt (balanceOf s employee) + paid) mod FHE.modulus /\
    FHE.decrypt (balanceOf s' (msg_sender env)) = FHE.decrypt balance - paid.
Proof.
intros Hmgr Hgross Htax Hinit Hsender Hemp Hne
       balance netPay canTransfer actualTransfer transferred paid.
unfold processPayrollPayment, onlyPayrollManager, require.
rewrite Hmgr, Hgross, Htax. simpl mbind.
unfold confidentialBalanceOf. fold balance netPay canTransfer actualTransfer.
destruct (update_transfer env s (msg_sender env) employee actualTransfer
            Hsender Hemp Hinit)
  as (s1 & Hupd & Hclear & Hev & _ & _ & Hbal).
fold balance in Hupd, Hclear, Hev, Hbal. fold transferred in Hupd, Hclear, Hev.
rewrite Hupd. simpl mbind. cbn [fst].
destruct (Hbal (not_eq_sym Hne)) as [Hfrom Hto].
assert (Hpaid : moved (FHE.decrypt actualTransfer) (FHE.decrypt balance) = paid).
{ subst paid actualTransfer canTransfer. unfold moved. simpl.
  rewrite !decrypt_operand. fold balance.
  pose proof (decrypt_range balance).
  destruct (FHE.decrypt grossPay <=? FHE.decrypt balance); simpl.
  - fold netPay. by destruct (FHE.decrypt netPay <=? FHE.decrypt balance).
  - rewrite Z.mod_0_l by (unfold FHE.modulus; lia).
    destruct (0 <=? FHE.decrypt balance) eqn:E; [done |].
    apply Z.leb_gt in E. lia. }
rewrite Hpaid in *.
eexists. split; [reflexivity |]. split_and!.
- cbn [emit events allow set_withholdings]. rewrite Hev.
  rewrite !elem_of_app, !list_elem_of_singleton. auto.
- exact Hclear.
- read_balance. exact Hto.
- read_balance. exact Hfrom.
Qed.


End TokenPayments.

(** ** Compliance reports *)

Section ComplianceReports.

Import CPS Scenario.

(** What a successful report does: it is called by an auditor, adds to the
    grants exactly one grant on each aggregate, both to the caller, logs
    one event, changes nothing else, and returns the hash of the period,
    the employee count and the block timestamp. *)
Lemma generateComplianceReport_effect (env : Env) (s s' : State) (h : bytes32) :
  generateComplianceReport env s = Ok (s', h) ->
  hasRole AUDITOR_ROLE (msg_sender env) s = true /\
  acl s' = ((report_totals s).2, msg_sender env) ::
           ((report_totals s).1, msg_sender env) :: acl s /\
  h = Keccak256Packed
        [currentPayPeriod s; totalEmployees s; block_timestamp env] /\
  events s' = events s ++ [ComplianceReportGenerated (currentPayPeriod s) h] /\
  employees s' = employees s /\
  paymentHistory s' = paymentHistory s /\
  config s' = config s.
Proof.
unfold generateComplianceReport, onlyRole.
destruct (hasRole _ _ s); [| done]. simpl.
destruct (report_totals s) as [totalPaid totalTax]. intros [= <- <-].
by split_and!.
Qed.


End ComplianceReports.

(** * Further properties of the payroll contract *)

Section PayrollLoop.

Import CPS Ledger.

Lemma employeeOf_active (s : State) (a : address) :
  isActive (employeeOf s a) = true ->
  exists e, employees s !! a = Some e /\ isActive e = true /\ employeeOf s a = e.
Proof.
unfold employeeOf. destruct (employees s !! a) as [e |]; simpl; [eauto | done].
Qed.

Lemma employeeOf_inactive (s : State) (a : address) :
  (forall b e, employees s !! b = Some e -> isActive e = true) ->
  isActive (employeeOf s a) = false -> employees s !! a = None.
Proof.
intros Hall. unfold employeeOf.
destruct (employees s !! a) as [e |] eqn:E; simpl; [| done].
rewrite (Hall a e E). done.
Qed.

(** One iteration either skips, or is [pay_once] on the record at the
    address the index helper returns. *)
Lemma processPayroll_iter_cases (env : Env) (s : State) (n i : Z) :
  (isActive (employeeOf s 0) = false /\
   processPayroll_iter env (s, n) i = (s, n)) \/
  (exists e, employees s !! (0 : address) = Some e /\ isActive e = true /\
             processPayroll_iter env (s, n) i = (pay_once env 0 e s, n + 1)).
Proof.
destruct (isActive (employeeOf s 0)) eqn:Hact.
- right. destruct (employeeOf_active s 0 Hact) as (e & He & Hae & Hee).
  exists e. split; [done |]. split; [done |].
  unfold processPayroll_iter.
  change (getEmployeeByIndex i) with 0. rewrite Hact. cbn [negb].
  f_equal.
  unfold update_employee, set_employee, set_payment, allow, pay_once, processed,
    _transferConfidentialPayment, netOf, taxOf, grossOf,
    set_lastPaymentTimestamp, set_bonus, set_YTDTax, set_YTDEarnings, employeeOf.
  cbn. rewrite He. cbn.
  repeat (rewrite lookup_insert_eq; cbn).
  by rewrite !insert_insert_eq.
- left. split; [done |]. unfold processPayroll_iter.
  change (getEmployeeByIndex i) with 0. by rewrite Hact.
Qed.

Lemma processPayroll_loop_inactive (env : Env) (l : list Z) (s : State) (n : Z) :
  isActive (employeeOf s 0) = false ->
  foldl (processPayroll_iter env) (s, n) l = (s, n).
Proof.
intros Hin. induction l as [| i l IH]; [done |]. cbn [foldl].
destruct (processPayroll_iter_cases env s n i) as [[_ ->] | (e & He & Hae & _)].
- exact IH.
- unfold employeeOf in Hin. rewrite He in Hin. simpl in Hin. congruence.
Qed.

Lemma decrypt_small (h : euint64) : FHE.decrypt h mod FHE.modulus = FHE.decrypt h.
Proof. apply Z.mod_small, decrypt_range. Qed.

Lemma mod_absorb (a b c m : Z) :
  ((a + b mod m) mod m + c) mod m = (a + b + c) mod m.
Proof.
rewrite Zplus_mod_idemp_l.
replace (a + b mod m + c) with (b mod m + (a + c)) by lia.
rewrite Zplus_mod_idemp_l. f_equal. lia.
Qed.

(** The loop over an active record at address 0: what it leaves alone and
    what the record has become once the loop ends. *)
Lemma processPayroll_loop_active (env : Env) (l : list Z) :
  forall (s : State) (n : Z) (e : EmployeeData),
  employees s !! (0 : address) = Some e -> isActive e = true ->
  exists e' s' new,
    foldl (processPayroll_iter env) (s, n) l = (s', n + Z.of_nat (length l)) /\
    employees s' = <[(0 : address) := e']> (employees s) /\
    isActive e' = true /\
    encryptedSalary e' = encryptedSalary e /\
    encryptedTaxRate e' = encryptedTaxRate e /\
    FHE.decrypt (encryptedYTDEarnings e') =
      (FHE.decrypt (encryptedYTDEarnings e)
       + Z.of_nat (length l) * FHE.decrypt (encryptedSalary e)
       + (if l is [] then 0 else FHE.decrypt (encryptedBonus e)))
      mod FHE.modulus /\
    (forall k, k <> (0, currentPayPeriod s) ->
               paymentHistory s' !! k = paymentHistory s !! k) /\
    acl s' = new ++ acl s /\
    _roles s' = _roles s /\ config s' = config s /\
    currentPayPeriod s' = currentPayPeriod s /\
    totalEmployees s' = totalEmployees s /\ events s' = events s.
Proof.
induction l as [| i l IH]; intros s n e He Hae.
- exists e, s, []. cbn [foldl length].
  split_and!; try done.
  + f_equal. lia.
  + by rewrite insert_id.
  + rewrite <- (decrypt_small (encryptedYTDEarnings e)) at 1. f_equal. lia.
- cbn [foldl].
  destruct (processPayroll_iter_cases env s n i)
    as [[Hin _] | (e0 & He0 & _ & ->)].
  { unfold employeeOf in Hin. rewrite He in Hin. simpl in Hin. congruence. }
  assert (e0 = e) as -> by congruence.
  set (s1 := pay_once env 0 e s).
  assert (He1 : employees s1 !! (0 : address) = Some (processed env e)).
  { unfold s1, pay_once. cbn [employees]. by rewrite lookup_insert_eq. }
  destruct (IH s1 (n + 1) (processed env e) He1 Hae)
    as (e' & s' & new & Hfold & Hemp & Hact & Hsal & Htax & Hytd
        & Hpay & Hacl & Hr & Hc & Hp & Ht & Hev).
  exists e', s', (new ++ [(netOf e, paymentToken (config s))]).
  split_and!.
  + rewrite Hfold. f_equal. cbn [length]. lia.
  + rewrite Hemp. unfold s1, pay_once. cbn [employees].
    by rewrite insert_insert_eq.
  + done.
  + by rewrite Hsal.
  + by rewrite Htax.
  + rewrite Hytd. cbn [processed encryptedYTDEarnings encryptedSalary
                         encryptedBonus length].
    unfold grossOf. rewrite !decrypt_add.
    assert (Hz : (if l is [] then 0 else FHE.decrypt (FHE.asEuint64 0)) = 0)
      by (by destruct l).
    rewrite Hz, Z.add_0_r, mod_absorb. f_equal. lia.
  + intros k Hk. rewrite Hpay by done.
    unfold s1, pay_once. cbn [paymentHistory]. by rewrite lookup_insert_ne.
  + rewrite Hacl. unfold s1, pay_once, FHE.allow. cbn [acl].
    by rewrite <- app_assoc.
  + by rewrite Hr.
  + by rewrite Hc.
  + by rewrite Hp.
  + by rewrite Ht.
  + by rewrite Hev.
Qed.

(** When the loop runs at least once over an active record, its last
    iteration is a [pay_once]. *)
Lemma processPayroll_loop_last (env : Env) (l : list Z) (s : State) (n : Z)
    (e : EmployeeData) :
  employees s !! (0 : address) = Some e -> isActive e = true -> l <> [] ->
  exists e1 s1,
    (foldl (processPayroll_iter env) (s, n) l).1 = pay_once env 0 e1 s1 /\
    currentPayPeriod s1 = currentPayPeriod s.
Proof.
intros He Hae Hne.
destruct l as [| i l] using rev_ind; [done |]. clear IHl Hne.
rewrite foldl_snoc.
destruct (processPayroll_loop_active env l s n e He Hae)
  as (e1 & s1 & new & Hfold & Hemp & Hact & _ & _ & _ & _ & _ & _ & _ & Hp & _).
rewrite Hfold.
destruct (processPayroll_iter_cases env s1 (n + Z.of_nat (length l)) i)
  as [[Hin _] | (e0 & He0 & _ & ->)].
- unfold employeeOf in Hin. rewrite Hemp, lookup_insert_eq in Hin.
  simpl in Hin. congruence.
- rewrite Hemp, lookup_insert_eq in He0. injection He0 as <-.
  by exists e1, s1.
Qed.

Lemma processPayroll_inv (env : Env) (s s' : State) :
  processPayroll env s = Ok s' ->
  s' = emit (PayrollProcessed (currentPayPeriod (payroll_loop env s).1)
                              (payroll_loop env s).2)
            (payroll_loop env s).1.
Proof.
rewrite processPayroll_unfold.
destruct (hasRole _ _ s); [| done].
destruct (currentPayPeriod s <? uint256_max); [| done].
by intros [= <-].
Qed.

Lemma length_indices (n : Z) : Z.of_nat (length (indices n)) = iterations n.
Proof. unfold indices, iterations. by rewrite length_fmap, length_seq. Qed.

Lemma indices_nonempty (n : Z) : 0 < n -> indices n <> [].
Proof.
intros Hn E. apply (f_equal length) in E.
unfold indices in E. rewrite length_fmap, length_seq in E. simpl in E. lia.
Qed.

(** X1: a payroll run only ever visits the record at address 0, the
    address [getEmployeeByIndex] returns.  Records and payment entries of
    every other address are the same after the run; when the record at
    address 0 is not active the run pays nobody, whatever the number of
    employees, and reports a count of 0; when it is active the count it
    reports is the number of iterations, not the number of distinct
    employees paid. *)
Theorem processPayroll_visits_one_address (env : Env) (s s' : State) :
  processPayroll env s = Ok s' ->
  (forall a : address, a <> 0 -> employees s' !! a = employees s !! a) /\
  (forall (a : address) q, a <> 0 ->
     paymentHistory s' !! (a, q) = paymentHistory s !! (a, q)) /\
  (isActive (employeeOf s 0) = false ->
     employees s' = employees s /\ paymentHistory s' = paymentHistory s /\
     acl s' = acl s /\
     events s' = events s ++ [PayrollProcessed (currentPayPeriod s + 1) 0]) /\
  (isActive (employeeOf s 0) = true ->
     events s' = events s ++
       [PayrollProcessed (currentPayPeriod s + 1)
                         (iterations (totalEmployees s))]).
Proof.
rewrite processPayroll_unfold.
destruct (hasRole _ _ s); [| done].
destruct (_ <? _); [| done].
intros [= <-]. unfold payroll_loop.
set (s0 := set_currentPayPeriod (currentPayPeriod s + 1) s).
destruct (isActive (employeeOf s 0)) eqn:Hact.
- destruct (employeeOf_active s 0 Hact) as (e & He & Hae & _).
  destruct (processPayroll_loop_active env (indices (totalEmployees s)) s0 0 e
              He Hae)
    as (e1 & s1 & new & Hfold & Hemp & _ & _ & _ & _ & Hpay & _ & _ & _ & Hp & _ & Hev).
  rewrite Hfold. cbn [fst snd emit employees paymentHistory acl events].
  split_and!.
  + intros a Ha. rewrite Hemp. by rewrite lookup_insert_ne.
  + intros a q Ha. apply Hpay. congruence.
  + done.
  + intros _. rewrite Hev, Hp, length_indices. cbn. by rewrite Z.add_0_l.
- rewrite (processPayroll_loop_inactive env _ s0 0 Hact).
  cbn [fst snd emit employees paymentHistory acl events].
  by split_and!.
Qed.

Lemma processPayroll_visits_one_address_witness :
  employees (Scenario.paid Scenario.alice) !! Scenario.alice =
    employees (Scenario.hired Scenario.alice) !! Scenario.alice /\
  employees (Scenario.paid Scenario.alice) =
    employees (Scenario.hired Scenario.alice) /\
  paymentHistory (Scenario.paid Scenario.alice) =
    paymentHistory (Scenario.hired Scenario.alice) /\
  acl (Scenario.paid Scenario.alice) = acl (Scenario.hired Scenario.alice) /\
  events (Scenario.paid Scenario.alice) =
    events (Scenario.hired Scenario.alice) ++ [PayrollProcessed (0 + 1) 0].
Proof.
assert (Hrun : processPayroll (Scenario.by_ Scenario.admin 60)
                 (Scenario.hired Scenario.alice) =
               Ok (Scenario.paid Scenario.alice))
  by (vm_compute; reflexivity).
assert (Hin : isActive (employeeOf (Scenario.hired Scenario.alice) 0) = false)
  by (vm_compute; reflexivity).
destruct (processPayroll_visits_one_address (Scenario.by_ Scenario.admin 60)
            (Scenario.hired Scenario.alice) (Scenario.paid Scenario.alice)
            Hrun) as (Hother & _ & Hskip & _).
destruct (Hskip Hin) as (He & Hp & Ha & Hev).
split_and!.
- apply Hother. unfold Scenario.alice. lia.
- exact He.
- exact Hp.
- exact Ha.
- exact Hev.
Defined.

End PayrollLoop.

(** ** Invariants of the reachable states *)

Section Invariants.

Import CPS Ledger.

Lemma salarySum_insert_fresh (m : gmap address EmployeeData) (a : address)
    (e : EmployeeData) :
  m !! a = None ->
  salarySum (<[a := e]> m) = salarySum m + FHE.decrypt (encryptedSalary e).
Proof.
intros H. unfold salarySum.
rewrite map_fold_insert_L; [done | intros; lia | done].
Qed.

Lemma salarySum_insert_same (m : gmap address EmployeeData) (a : address)
    (e0 e : EmployeeData) :
  m !! a = Some e0 ->
  salarySum (<[a := e]> m) =
  salarySum m - FHE.decrypt (encryptedSalary e0) + FHE.decrypt (encryptedSalary e).
Proof.
intros H. rewrite <- (insert_delete_id m a e0 H) at 2.
rewrite <- (insert_delete_eq m a e).
rewrite !salarySum_insert_fresh by apply lookup_delete_eq. lia.
Qed.

(** Replacing an active record by one with the same salary, the same
    year-to-date handles away from address 0, and the active flag set. *)
Lemma consistent_replace (s s' : State) (a : address) (e0 e : EmployeeData) :
  consistent s ->
  employees s !! a = Some e0 ->
  employees s' = <[a := e]> (employees s) ->
  isActive e = true ->
  encryptedSalary e = encryptedSalary e0 ->
  (a <> 0 -> encryptedYTDEarnings e = encryptedYTDEarnings e0 /\
             encryptedYTDTax e = encryptedYTDTax e0) ->
  config s' = config s ->
  totalEmployees s' = totalEmployees s ->
  currentPayPeriod s <= currentPayPeriod s' ->
  (forall k h, paymentHistory s' !! k = Some h ->
               paymentHistory s !! k = Some h \/
               k = (0, currentPayPeriod s') /\ 1 <= currentPayPeriod s') ->
  consistent s'.
Proof.
intros (Hall & Htot & Hbud & Hper & Hpay & Hytd) He0 Hemp Hact Hsal Hy Hc Ht Hp Hh.
unfold consistent. rewrite Hemp, Hc, Ht. split_and!.
- intros b eb. rewrite lookup_insert. case_decide; [by intros [= <-] | apply Hall].
- rewrite map_size_insert_Some by (by eexists). exact Htot.
- rewrite (salarySum_insert_same _ _ e0) by done. rewrite Hsal, Hbud.
  f_equal. lia.
- lia.
- intros b q h Hl. destruct (Hh _ _ Hl) as [Hold | [[= -> ->] Hge]].
  + destruct (Hpay _ _ _ Hold) as [-> ?]. split; [done | lia].
  + split; [done | lia].
- intros b eb Hb. rewrite lookup_insert. case_decide.
  + subst b. intros [= <-]. destruct (Hy Hb) as [-> ->]. by apply (Hytd a).
  + by apply Hytd.
Qed.

Lemma constructor_consistent (env : Env) (_paymentToken _treasury : address)
    (_payPeriodDays : Z) :
  consistent (constructor env _paymentToken _treasury _payPeriodDays).
Proof.
unfold consistent, constructor, _grantRole.
repeat (destruct (hasRole _ _ _)); cbn; split_and!; try done; lia.
Qed.

Lemma addEmployee_consistent (env : Env) (s s' : State) (employee : address)
    (sal tax : externalEuint64) (pf : bytes) :
  consistent s -> addEmployee env s employee sal tax pf = Ok s' -> consistent s'.
Proof.
intros Hs. pose proof Hs as (Hall & Htot & Hbud & Hper & Hpay & Hytd).
unfold addEmployee, onlyRole, require, checked_incr.
destruct (hasRole _ _ s); [| done]. cbn [mbind result_bind bind].
destruct (isActive (employeeOf s employee)) eqn:Hin; [done |].
cbn [negb mbind result_bind bind].
destruct (_ <? _); [| done]. cbn [mbind result_bind bind]. intros [= <-].
pose proof (employeeOf_inactive s employee Hall Hin) as Hnone.
unfold consistent.
cbn [emit set_totalEmployees allow allowThis set_budget set_employee employees
     totalEmployees config encryptedTotalBudget currentPayPeriod paymentHistory].
split_and!.
- intros b eb. rewrite lookup_insert. case_decide; [by intros [= <-] | apply Hall].
- rewrite map_size_insert_None by done. lia.
- rewrite salarySum_insert_fresh by done. rewrite decrypt_add, Hbud.
  cbn [encryptedSalary]. by rewrite Zplus_mod_idemp_l.
- done.
- done.
- intros b eb Hb. rewrite lookup_insert. case_decide.
  + by intros [= <-].
  + by apply Hytd.
Qed.

Lemma processPayroll_consistent (env : Env) (s s' : State) :
  consistent s -> processPayroll env s = Ok s' -> consistent s'.
Proof.
intros Hs Hrun. pose proof Hs as (Hall & Htot & Hbud & Hper & Hpay & Hytd).
apply processPayroll_inv in Hrun. subst s'. unfold payroll_loop.
set (s0 := set_currentPayPeriod (currentPayPeriod s + 1) s).
destruct (isActive (employeeOf s 0)) eqn:Hact.
- destruct (employeeOf_active s 0 Hact) as (e & He & Hae & _).
  destruct (processPayroll_loop_active env (indices (totalEmployees s)) s0 0 e
              He Hae)
    as (e1 & s1 & new & Hfold & Hemp & Hact1 & Hsal & _ & _ & Hh & _ & _ & Hc
        & Hp & Ht & _).
  rewrite Hfold. cbn [fst snd].
  apply (consistent_replace s _ 0 e e1 Hs He);
    cbn [emit currentPayPeriod paymentHistory employees config totalEmployees];
    try done.
  + rewrite Hp. cbn. lia.
  + intros k h Hl. rewrite Hp.
    change (currentPayPeriod s0) with (currentPayPeriod s + 1).
    destruct (decide (k = (0, currentPayPeriod s + 1))) as [-> | Hk].
    * right. split; [done | lia].
    * left. by rewrite <- Hh.
- rewrite (processPayroll_loop_inactive env _ s0 0 Hact). cbn [fst snd].
  unfold consistent. cbn. split_and!; try done; [lia |].
  intros a q h Hl. destruct (Hpay a q h Hl) as [-> ?]. split; [done | lia].
Qed.

Lemma distributeBonus_consistent (env : Env) (s s' : State) (employee : address)
    (b : externalEuint64) (pf : bytes) :
  consistent s -> distributeBonus env s employee b pf = Ok s' -> consistent s'.
Proof.
intros Hs. unfold distributeBonus, onlyRole, require.
destruct (hasRole _ _ s); [| done]. cbn [mbind result_bind bind].
destruct (isActive (employeeOf s employee)) eqn:Hact; [| done].
cbn [mbind result_bind bind]. intros [= <-].
destruct (employeeOf_active s employee Hact) as (e & He & Hae & Hee).
apply (consistent_replace s _ employee e
         (set_bonus (FHE.add (encryptedBonus e) (FHE.fromExternal b pf)) e) Hs He);
  try done.
- cbn [emit allowThis allow update_employee set_employee employees].
  by rewrite Hee.
- intros k h Hl. by left.
Qed.

Lemma updateSalary_consistent (env : Env) (s s' : State) (employee : address)
    (sal : externalEuint64) (pf : bytes) :
  consistent s -> updateSalary env s employee sal pf = Ok s' -> consistent s'.
Proof.
intros Hs. pose proof Hs as (Hall & Htot & Hbud & Hper & Hpay & Hytd).
rewrite updateSalary_unfold.
destruct (hasRole _ _ s); [| done].
destruct (isActive (employeeOf s employee)) eqn:Hact; [| done].
intros [= <-].
destruct (employeeOf_active s employee Hact) as (e & He & Hae & Hee).
rewrite Hee. unfold consistent.
cbn [allow allowThis update_employee set_employee set_budget employees
     totalEmployees config encryptedTotalBudget currentPayPeriod paymentHistory].
change (employeeOf (set_budget _ s) employee) with (employeeOf s employee).
rewrite Hee.
split_and!.
- intros b eb. rewrite lookup_insert. case_decide; [by intros [= <-] | apply Hall].
- by rewrite map_size_insert_Some by (by eexists).
- rewrite (salarySum_insert_same _ _ e) by done.
  rewrite decrypt_add, decrypt_sub, Hbud. cbn [set_salary encryptedSalary].
  rewrite Zminus_mod_idemp_l, Zplus_mod_idemp_l. done.
- done.
- done.
- intros b eb Hb. rewrite lookup_insert. case_decide.
  + subst b. intros [= <-]. cbn. by apply (Hytd employee).
  + by apply Hytd.
Qed.

Lemma run_consistent (env : Env) (s : State) (c : Call) (s' : State) :
  consistent s -> run env s c = Ok s' -> consistent s'.
Proof.
intros Hs.
destruct c as [e sal tax pf | | e b pf | | e sal pf | r a | r a | r a];
  cbn [run].
- by apply addEmployee_consistent.
- by apply processPayroll_consistent.
- by apply distributeBonus_consistent.
- unfold generateComplianceReport, onlyRole.
  destruct (hasRole _ _ s); [| done]. cbn [mbind result_bind bind].
  destruct (report_totals s). cbn [mbind result_bind bind snd fst].
  by intros [= <-].
- by apply updateSalary_consistent.
- unfold grantRole, onlyRole, _grantRole.
  destruct (hasRole (getRoleAdmin r) (msg_sender env) s); [| done].
  cbn [mbind result_bind bind].
  by destruct (hasRole r a s); intros [= <-].
- unfold revokeRole, onlyRole, _revokeRole.
  destruct (hasRole (getRoleAdmin r) (msg_sender env) s); [| done].
  cbn [mbind result_bind bind].
  by destruct (hasRole r a s); intros [= <-].
- unfold renounceRole, _revokeRole.
  case_bool_decide; [| done].
  by destruct (hasRole r a s); intros [= <-].
Qed.

Lemma later_consistent (s s' : State) :
  later s s' -> consistent s -> consistent s'.
Proof.
induction 1 as [| env c s' _ IH]; [done |]. intros Hs.
unfold transact. destruct (run env s' c) as [s2 |] eqn:E; [| by apply IH].
eapply run_consistent; [by apply IH | exact E].
Qed.

Lemma reachable_consistent (s : State) : reachable s -> consistent s.
Proof.
intros (env & tok & tre & days & Hl).
eapply later_consistent; [exact Hl | apply constructor_consistent].
Qed.

(** X3: in every reachable state the budget ciphertext decrypts to the sum
    of the stored salaries modulo 2^64, [totalEmployees] is the number of
    stored employee records, and every stored record is active. *)
Theorem budget_tracks_salaries (s : State) :
  reachable s ->
  FHE.decrypt (encryptedTotalBudget (config s)) =
    salarySum (employees s) mod FHE.modulus /\
  totalEmployees s = Z.of_nat (size (employees s)) /\
  (forall a, isEmployee s a = true <-> is_Some (employees s !! a)).
Proof.
intros Hr. destruct (reachable_consistent s Hr) as (Hall & Htot & Hbud & _).
split_and!; [done | done |].
intros a. unfold isEmployee, employeeOf. split.
- destruct (employees s !! a); [by eexists | done].
- intros [e He]. rewrite He. simpl. by apply (Hall a).
Qed.

Lemma budget_tracks_salaries_witness :
  FHE.decrypt (encryptedTotalBudget (config Scenario.two_staff_paid)) =
    salarySum (employees Scenario.two_staff_paid) mod FHE.modulus /\
  totalEmployees Scenario.two_staff_paid =
    Z.of_nat (size (employees Scenario.two_staff_paid)) /\
  (forall a, isEmployee Scenario.two_staff_paid a = true <->
             is_Some (employees Scenario.two_staff_paid !! a)).
Proof.
apply (budget_tracks_salaries Scenario.two_staff_paid).
exists (Scenario.by_ Scenario.admin 50), Scenario.tokenAddress,
       Scenario.admin, 14.
unfold Scenario.two_staff_paid, Scenario.after. cbn [foldl fst snd].
repeat apply later_step. apply later_now.
Defined.

(** X4: in every reachable state a payment record exists only for address
    0 and only under a period between 1 and [currentPayPeriod]; no payment
    is ever recorded for an employee at another address. *)
Theorem payments_only_for_address_zero (s : State) (a : address) (q : Z)
    (h : euint64) :
  reachable s ->
  paymentHistory s !! (a, q) = Some h ->
  a = 0 /\ 1 <= q <= currentPayPeriod s.
Proof.
intros Hr. destruct (reachable_consistent s Hr) as (_ & _ & _ & _ & Hpay & _).
apply Hpay.
Qed.

Lemma payments_only_for_address_zero_witness :
  (0 : address) = 0 /\ 1 <= 1 <= currentPayPeriod Scenario.two_staff_paid.
Proof.
apply (payments_only_for_address_zero Scenario.two_staff_paid 0 1
         (FHE.Sub
            (FHE.Add (FHE.Input 1 100) (FHE.Trivial 0))
            (FHE.Mul (FHE.Add (FHE.Input 1 100) (FHE.Trivial 0))
                     (FHE.Input 2 0)))).
- exists (Scenario.by_ Scenario.admin 50), Scenario.tokenAddress,
         Scenario.admin, 14.
  unfold Scenario.two_staff_paid, Scenario.after. cbn [foldl fst snd].
  repeat apply later_step. apply later_now.
- vm_compute. reflexivity.
Defined.

(** X5: in every reachable state an employee stored at an address other
    than 0 still has the year-to-date earnings and tax handles it was
    created with, encryptions of zero: payroll runs never accrue anything
    to it. *)
Theorem other_employees_never_accrue (s : State) (a : address) :
  reachable s -> a <> 0 -> isEmployee s a = true ->
  encryptedYTDEarnings (employeeOf s a) = FHE.asEuint64 0 /\
  encryptedYTDTax (employeeOf s a) = FHE.asEuint64 0 /\
  FHE.decrypt (encryptedYTDEarnings (employeeOf s a)) = 0 /\
  FHE.decrypt (encryptedYTDTax (employeeOf s a)) = 0.
Proof.
intros Hr Ha Hact.
destruct (reachable_consistent s Hr) as (_ & _ & _ & _ & _ & Hytd).
destruct (employeeOf_active s a Hact) as (e & He & _ & ->).
destruct (Hytd a e Ha He) as [-> ->]. by split_and!.
Qed.

Lemma other_employees_never_accrue_witness :
  encryptedYTDEarnings (employeeOf Scenario.two_staff_paid Scenario.alice) =
    FHE.asEuint64 0 /\
  encryptedYTDTax (employeeOf Scenario.two_staff_paid Scenario.alice) =
    FHE.asEuint64 0 /\
  FHE.decrypt
    (encryptedYTDEarnings (employeeOf Scenario.two_staff_paid Scenario.alice)) = 0 /\
  FHE.decrypt
    (encryptedYTDTax (employeeOf Scenario.two_staff_paid Scenario.alice)) = 0.
Proof.
apply (other_employees_never_accrue Scenario.two_staff_paid Scenario.alice).
- exists (Scenario.by_ Scenario.admin 50), Scenario.tokenAddress,
         Scenario.admin, 14.
  unfold Scenario.two_staff_paid, Scenario.after. cbn [foldl fst snd].
  repeat apply later_step. apply later_now.
- unfold Scenario.alice. lia.
- vm_compute. reflexivity.
Defined.

End Invariants.

(** ** Roles *)

Section Roles.

Import CPS.

Lemma hasRole_grant (env : Env) (role r : bytes32) (account a : address)
    (s : State) :
  hasRole r a (_grantRole env role account s) =
  if decide ((r, a) = (role, account)) then true else hasRole r a s.
Proof.
unfold _grantRole. destruct (hasRole role account s) eqn:E.
- case_decide as H; [| done]. by injection H as -> ->.
- unfold hasRole. cbn [emit set_roles _roles].
  case_decide as H.
  + apply bool_decide_eq_true. rewrite H. apply elem_of_cons. by left.
  + apply bool_decide_ext. rewrite elem_of_cons. naive_solver.
Qed.

Lemma hasRole_revoke (env : Env) (role r : bytes32) (account a : address)
    (s : State) :
  hasRole r a (_revokeRole env role account s) =
  if decide ((r, a) = (role, account)) then false else hasRole r a s.
Proof.
unfold _revokeRole. destruct (hasRole role account s) eqn:E.
- unfold hasRole. cbn [emit set_roles _roles].
  case_decide as H.
  + apply bool_decide_eq_false. rewrite H, list_elem_of_filter. naive_solver.
  + apply bool_decide_ext. rewrite list_elem_of_filter. naive_solver.
- case_decide as H; [| done]. by injection H as -> ->.
Qed.

(** X9: role administration.  A holder of the default admin role can grant
    any role to any account, after which the account holds it, and revoke
    it, after which the account does not, in both cases without changing
    who holds any other role; a caller without the default admin role can
    do neither.  An account can renounce a role of its own, and only of
    its own; once the caller has renounced the default admin role its
    attempts to grant roles revert. *)
Theorem role_administration (env : Env) (s : State) (role : bytes32)
    (account : address) :
  (hasRole DEFAULT_ADMIN_ROLE (msg_sender env) s = true ->
   (exists s1,
      grantRole env s role account = Ok s1 /\
      hasRole role account s1 = true /\
      forall r a, (r, a) <> (role, account) -> hasRole r a s1 = hasRole r a s) /\
   (exists s2,
      revokeRole env s role account = Ok s2 /\
      hasRole role account s2 = false /\
      forall r a, (r, a) <> (role, account) -> hasRole r a s2 = hasRole r a s)) /\
  (hasRole DEFAULT_ADMIN_ROLE (msg_sender env) s = false ->
   grantRole env s role account =
     Revert (AccessControlUnauthorizedAccount (msg_sender env)
               DEFAULT_ADMIN_ROLE) /\
   revokeRole env s role account =
     Revert (AccessControlUnauthorizedAccount (msg_sender env)
               DEFAULT_ADMIN_ROLE)) /\
  (exists s3,
     renounceRole env s role (msg_sender env) = Ok s3 /\
     hasRole role (msg_sender env) s3 = false /\
     (forall r a, (r, a) <> (role, msg_sender env) ->
                  hasRole r a s3 = hasRole r a s) /\
     (role = DEFAULT_ADMIN_ROLE ->
      forall r a, grantRole env s3 r a =
        Revert (AccessControlUnauthorizedAccount (msg_sender env)
                  DEFAULT_ADMIN_ROLE))) /\
  (account <> msg_sender env ->
   renounceRole env s role account = Revert AccessControlBadConfirmation).
Proof.
split_and!.
- intros Hadmin. split.
  + exists (_grantRole env role account s). split_and!.
    * unfold grantRole, onlyRole, getRoleAdmin. by rewrite Hadmin.
    * rewrite hasRole_grant. by rewrite decide_True.
    * intros r a Hne. rewrite hasRole_grant. by rewrite decide_False.
  + exists (_revokeRole env role account s). split_and!.
    * unfold revokeRole, onlyRole, getRoleAdmin. by rewrite Hadmin.
    * rewrite hasRole_revoke. by rewrite decide_True.
    * intros r a Hne. rewrite hasRole_revoke. by rewrite decide_False.
- intros Hnot. unfold grantRole, revokeRole, onlyRole, getRoleAdmin.
  by rewrite Hnot.
- exists (_revokeRole env role (msg_sender env) s). split_and!.
  + unfold renounceRole. by rewrite bool_decide_eq_true_2.
  + rewrite hasRole_revoke. by rewrite decide_True.
  + intros r a Hne. rewrite hasRole_revoke. by rewrite decide_False.
  + intros -> r a. unfold grantRole, onlyRole, getRoleAdmin.
    rewrite hasRole_revoke. by rewrite decide_True.
- intros Hne. unfold renounceRole. by rewrite bool_decide_eq_false_2.
Qed.

Lemma role_administration_witness :
  (exists s1,
     grantRole (Scenario.by_ Scenario.admin 50) Scenario.deployed
       AUDITOR_ROLE Scenario.auditor = Ok s1 /\
     hasRole AUDITOR_ROLE Scenario.auditor s1 = true /\
     forall r a, (r, a) <> (AUDITOR_ROLE, Scenario.auditor) ->
                 hasRole r a s1 = hasRole r a Scenario.deployed) /\
  (exists s2,
     revokeRole (Scenario.by_ Scenario.admin 50) Scenario.deployed
       AUDITOR_ROLE Scenario.auditor = Ok s2 /\
     hasRole AUDITOR_ROLE Scenario.auditor s2 = false /\
     forall r a, (r, a) <> (AUDITOR_ROLE, Scenario.auditor) ->
                 hasRole r a s2 = hasRole r a Scenario.deployed) /\
  grantRole (Scenario.by_ Scenario.alice 50) Scenario.deployed
    AUDITOR_ROLE Scenario.auditor =
    Revert (AccessControlUnauthorizedAccount Scenario.alice DEFAULT_ADMIN_ROLE) /\
  renounceRole (Scenario.by_ Scenario.admin 50) Scenario.deployed
    AUDITOR_ROLE Scenario.auditor = Revert AccessControlBadConfirmation.
Proof.
destruct (role_administration (Scenario.by_ Scenario.admin 50)
            Scenario.deployed AUDITOR_ROLE Scenario.auditor)
  as (Hadmin & _ & _ & Hbad).
destruct (role_administration (Scenario.by_ Scenario.alice 50)
            Scenario.deployed AUDITOR_ROLE Scenario.auditor)
  as (_ & Hnot & _ & _).
assert (H1 : hasRole DEFAULT_ADMIN_ROLE
               (msg_sender (Scenario.by_ Scenario.admin 50))
               Scenario.deployed = true) by (vm_compute; reflexivity).
assert (H2 : hasRole DEFAULT_ADMIN_ROLE
               (msg_sender (Scenario.by_ Scenario.alice 50))
               Scenario.deployed = false) by (vm_compute; reflexivity).
destruct (Hadmin H1) as [Hgrant Hrevoke].
destruct (Hnot H2) as [Hdenied _].
split_and!.
- exact Hgrant.
- exact Hrevoke.
- exact Hdenied.
- apply Hbad. unfold Scenario.auditor, Scenario.by_, Scenario.admin.
  cbn [msg_sender]. lia.
Defined.

End Roles.

(** ** Grants and events only grow *)

Section AppendOnly.

Import CPS Ledger.

(** X10: no transaction of the payroll contract removes a grant or an
    event: after any call, reverted or not, the access-control list is
    the old one with new grants in front and the event log is the old one
    with new events behind. *)
Theorem grants_and_events_only_grow (env : Env) (s : State) (c : Call) :
  exists newGrants newEvents,
    acl (transact env s c) = newGrants ++ acl s /\
    events (transact env s c) = events s ++ newEvents.
Proof.
unfold transact.
destruct (run env s c) as [s' |] eqn:E;
  [| exists [], []; by rewrite app_nil_r].
destruct c as [e sal tax pf | | e b pf | | e sal pf | r a | r a | r a];
  cbn [run] in E.
- revert E. unfold addEmployee, onlyRole, require, checked_incr.
  destruct (hasRole _ _ s); [| done]. cbn [mbind result_bind bind].
  destruct (isActive _); [done |]. cbn [negb mbind result_bind bind].
  destruct (_ <? _); [| done]. cbn [mbind result_bind bind]. intros [= <-].
  by eexists [_; _; _], [_].
- apply processPayroll_inv in E. subst s'. unfold payroll_loop.
  set (s0 := set_currentPayPeriod (currentPayPeriod s + 1) s).
  destruct (isActive (employeeOf s 0)) eqn:Hact.
  + destruct (employeeOf_active s 0 Hact) as (e & He & Hae & _).
    destruct (processPayroll_loop_active env (indices (totalEmployees s)) s0 0
                e He Hae)
      as (e1 & s1 & new & Hfold & _ & _ & _ & _ & _ & _ & Hacl & _ & _ & _ & _
          & Hev).
    rewrite Hfold. cbn [fst snd emit acl events]. rewrite Hacl, Hev.
    by eexists new, [_].
  + rewrite (processPayroll_loop_inactive env _ s0 0 Hact).
    by eexists [], [_].
- revert E. unfold distributeBonus, onlyRole, require.
  destruct (hasRole _ _ s); [| done]. cbn [mbind result_bind bind].
  destruct (isActive _); [| done]. cbn [mbind result_bind bind]. intros [= <-].
  by eexists [_], [_].
- revert E. unfold generateComplianceReport, onlyRole.
  destruct (hasRole _ _ s); [| done]. cbn [mbind result_bind bind].
  destruct (report_totals s). cbn [mbind result_bind bind fst]. intros [= <-].
  by eexists [_; _], [_].
- revert E. rewrite updateSalary_unfold.
  destruct (hasRole _ _ s); [| done].
  destruct (isActive _); [| done]. intros [= <-].
  eexists [_; _], []. by rewrite app_nil_r.
- revert E. unfold grantRole, onlyRole, _grantRole.
  destruct (hasRole (getRoleAdmin r) (msg_sender env) s); [| done].
  cbn [mbind result_bind bind].
  destruct (hasRole r a s); intros [= <-].
  + exists [], []. by rewrite app_nil_r.
  + by eexists [], [_].
- revert E. unfold revokeRole, onlyRole, _revokeRole.
  destruct (hasRole (getRoleAdmin r) (msg_sender env) s); [| done].
  cbn [mbind result_bind bind].
  destruct (hasRole r a s); intros [= <-].
  + by eexists [], [_].
  + exists [], []. by rewrite app_nil_r.
- revert E. unfold renounceRole, _revokeRole.
  case_bool_decide; [| done].
  destruct (hasRole r a s); intros [= <-].
  + by eexists [], [_].
  + exists [], []. by rewrite app_nil_r.
Qed.

End AppendOnly.

(** ** What a compliance report aggregates *)

Section ReportAggregates.

Import CPS Ledger.


End ReportAggregates.

(** * Further properties of the token *)

Section TokenSupply.

Import PT.

Lemma balanceOf_set_totalSupply (h : euint64) (b : address) (s : State) :
  balanceOf (set_totalSupply h s) b = balanceOf s b.
Proof. reflexivity. Qed.

Lemma balanceOf_set_payrollManager (a b : address) (v : bool) (s : State) :
  balanceOf (set_payrollManager a v s) b = balanceOf s b.
Proof. reflexivity. Qed.

End TokenSupply.

(** Reads a balance through every kind of write. *)
Ltac read_balances :=
  repeat first
    [ rewrite balanceOf_set_totalSupply
    | rewrite balanceOf_set_payrollManager
    | progress read_balance ].

Section TokenFrames.

Import PT.

(** What a transfer that returns has checked and left alone. *)
Lemma update_inv (env : Env) (s : State) (from to : address) (amount : euint64)
    (s1 : State) (h : euint64) :
  _update env s from to amount = Ok (s1, h) ->
  pendingWithholdings s1 = pendingWithholdings s /\
  taxAuthority s1 = taxAuthority s /\
  payrollManagers s1 = payrollManagers s /\
  _owner s1 = _owner s /\
  (from <> 0 -> FHE.isInitialized (balanceOf s from) = true) /\
  (forall a, a <> from -> a <> to -> balanceOf s1 a = balanceOf s a) /\
  (from <> 0 -> to <> 0 -> _totalSupply s1 = _totalSupply s).
Proof.
unfold _update.
destruct (bool_decide (from = 0)) eqn:Efrom.
- apply bool_decide_eq_true in Efrom.
  destruct (tryIncrease (_totalSupply s) amount) as [success ptr].
  cbn [mbind result_bind bind].
  destruct (bool_decide (to = 0)) eqn:Eto; intros [= <- <-];
    (split_and!; try done; try (intros; congruence));
    intros a Ha1 Ha2; read_balances; reflexivity.
- apply bool_decide_eq_false in Efrom.
  destruct (FHE.isInitialized (balanceOf s from)) eqn:Hinit; [| done].
  unfold tryDecrease. cbn [mbind result_bind bind].
  destruct (bool_decide (to = 0)) eqn:Eto; intros [= <- <-].
  + apply bool_decide_eq_true in Eto.
    split_and!; try done; try (intros; congruence).
    intros a Ha1 Ha2. read_balances. reflexivity.
  + split_and!; try done.
    intros a Ha1 Ha2.
    assert (from <> a) by congruence. assert (to <> a) by congruence.
    read_balances. reflexivity.
Qed.

(** A transfer from an account to itself leaves its clear balance as it
    was. *)
Lemma update_self (env : Env) (s : State) (a : address) (amount : euint64)
    (s1 : State) (h : euint64) :
  a <> 0 ->
  _update env s a a amount = Ok (s1, h) ->
  FHE.decrypt (balanceOf s1 a) = FHE.decrypt (balanceOf s a).
Proof.
intros Ha. unfold _update. rewrite !bool_decide_eq_false_2 by done.
destruct (FHE.isInitialized (balanceOf s a)) eqn:Hinit; [| done].
unfold tryDecrease. cbn [mbind result_bind bind]. intros [= <- <-].
read_balance.
rewrite decrypt_add. cbn [FHE.select FHE.decrypt FHE.ge].
rewrite decrypt_sub, !decrypt_operand.
pose proof (decrypt_range amount) as Hr.
pose proof (decrypt_range (balanceOf s a)) as Hb.
destruct (FHE.decrypt amount <=? FHE.decrypt (balanceOf s a)) eqn:E; simpl.
- apply Z.leb_le in E.
  rewrite (Z.mod_small (_ - _)) by lia.
  replace (_ - _ + _) with (FHE.decrypt (balanceOf s a)) by lia.
  by apply Z.mod_small.
- rewrite (Z.mod_small 0) by (unfold FHE.modulus; lia).
  rewrite Z.add_0_r. by apply Z.mod_small.
Qed.

Lemma processPayrollPayment_inv (env : Env) (s : State) (employee : address)
    (grossPay taxAmount : euint64) (s' : State) :
  processPayrollPayment env s employee grossPay taxAmount = Ok s' ->
  exists s1 transferred,
    isPayrollManager s (msg_sender env) = true /\
    isSenderAllowed env s grossPay = true /\
    isSenderAllowed env s taxAmount = true /\
    _update env s (msg_sender env) employee
      (FHE.select (FHE.le grossPay (balanceOf s (msg_sender env)))
                  (FHE.sub grossPay taxAmount) (FHE.asEuint64 0)) =
      Ok (s1, transferred) /\
    s' = emit (TaxWithheld employee (block_timestamp env))
           (allow (balanceOf s1 employee) employee
              (set_withholdings (taxAuthority s1)
                 (FHE.add (withholdingsOf s1 (taxAuthority s1)) taxAmount) s1)).
Proof.
unfold processPayrollPayment, onlyPayrollManager, require, confidentialBalanceOf.
destruct (isPayrollManager s (msg_sender env)); [| done].
cbn [mbind result_bind bind].
destruct (isSenderAllowed env s grossPay); [| done].
cbn [mbind result_bind bind].
destruct (isSenderAllowed env s taxAmount); [| done].
cbn [mbind result_bind bind].
destruct (_update _ _ _ _ _) as [[s1 transferred] |]; [| done].
cbn [mbind result_bind bind fst]. intros [= <-].
by exists s1, transferred.
Qed.

End TokenFrames.

(** ** Deployment and managers of the token *)

Section TokenAdministration.

Import PT.

(** X12: deploying the token from a non-zero address succeeds.  The
    deployer becomes the owner and the only payroll manager, the tax
    authority is the one passed in, the whole initial supply (modulo
    2^64) is the deployer's balance and the total supply, every other
    balance and every pending withholding is unset, and the deployer may
    decrypt its balance. *)
Theorem token_constructor_spec (env : Env) (initialSupply : Z)
    (_taxAuthority : address) :
  msg_sender env <> 0 ->
  exists s,
    constructor env initialSupply _taxAuthority = Ok s /\
    _owner s = msg_sender env /\
    (forall a, isPayrollManager s a = bool_decide (a = msg_sender env)) /\
    taxAuthority s = _taxAuthority /\
    FHE.decrypt (balanceOf s (msg_sender env)) = initialSupply mod FHE.modulus /\
    FHE.decrypt (_totalSupply s) = initialSupply mod FHE.modulus /\
    (forall a, a <> msg_sender env -> balanceOf s a = FHE.Null) /\
    (forall a, withholdingsOf s a = FHE.Null) /\
    FHE.isAllowed (balanceOf s (msg_sender env)) (msg_sender env) (acl s) = true.
Proof.
intros Hsender.
unfold constructor, _mint, _update.
rewrite (bool_decide_eq_false_2 (msg_sender env = 0)) by done.
rewrite (bool_decide_eq_true_2 (0 = 0)) by done.
unfold tryIncrease. cbn [FHE.isInitialized _totalSupply].
cbn [mbind result_bind bind fst].
eexists. split; [reflexivity |]. split_and!.
- reflexivity.
- intros a. unfold isPayrollManager. cbn [set_payrollManager payrollManagers].
  rewrite lookup_insert. case_decide; case_bool_decide; try done; congruence.
- reflexivity.
- unfold balanceOf. cbn [emit allow allowThis set_balance set_totalSupply
                           set_payrollManager _balances].
  rewrite lookup_insert_eq. cbn [default id].
  rewrite decrypt_add. cbn [FHE.select FHE.decrypt FHE.asEuint64].
  rewrite lookup_empty. cbn [default FHE.decrypt].
  change (1 mod FHE.modulus =? 0) with false. cbn iota.
  rewrite Z.add_0_l. apply Z.mod_mod. unfold FHE.modulus. lia.
- reflexivity.
- intros a Ha. unfold balanceOf. cbn.
  rewrite lookup_insert_ne by done. by rewrite lookup_empty.
- intros a. unfold withholdingsOf. cbn. by rewrite lookup_empty.
- unfold balanceOf. cbn [emit allow allowThis set_balance set_totalSupply
                           set_payrollManager _balances acl].
  rewrite lookup_insert_eq. cbn [default id].
  do 2 apply isAllowed_mono. apply isAllowed_allow.
Qed.

Lemma token_constructor_spec_witness :
  exists s,
    constructor (Scenario.token_by Scenario.admin 40) 50 Scenario.taxOffice = Ok s /\
    _owner s = msg_sender (Scenario.token_by Scenario.admin 40) /\
    (forall a, isPayrollManager s a =
               bool_decide (a = msg_sender (Scenario.token_by Scenario.admin 40))) /\
    taxAuthority s = Scenario.taxOffice /\
    FHE.decrypt (balanceOf s (msg_sender (Scenario.token_by Scenario.admin 40))) =
      50 mod FHE.modulus /\
    FHE.decrypt (_totalSupply s) = 50 mod FHE.modulus /\
    (forall a, a <> msg_sender (Scenario.token_by Scenario.admin 40) ->
               balanceOf s a = FHE.Null) /\
    (forall a, withholdingsOf s a = FHE.Null) /\
    FHE.isAllowed
      (balanceOf s (msg_sender (Scenario.token_by Scenario.admin 40)))
      (msg_sender (Scenario.token_by Scenario.admin 40)) (acl s) = true.
Proof.
apply (token_constructor_spec (Scenario.token_by Scenario.admin 40) 50
         Scenario.taxOffice).
unfold Scenario.token_by, Scenario.admin. cbn [msg_sender]. lia.
Defined.

(** X13: managing payroll managers.  The owner can add a manager, after
    which the address is a manager, and remove it, after which it is not
    and its payments revert; neither call changes whether any other
    address is a manager, nor any balance or withholding.  A caller that
    is not the owner can do neither. *)
Theorem manager_administration (env : Env) (s : State) (manager : address) :
  (_owner s = msg_sender env ->
   exists s1 s2,
     addPayrollManager env s manager = Ok s1 /\
     isPayrollManager s1 manager = true /\
     (forall a, a <> manager -> isPayrollManager s1 a = isPayrollManager s a) /\
     _balances s1 = _balances s /\
     pendingWithholdings s1 = pendingWithholdings s /\
     events s1 = events s ++ [PayrollManagerAdded manager] /\
     removePayrollManager env s1 manager = Ok s2 /\
     isPayrollManager s2 manager = false /\
     (forall a, a <> manager -> isPayrollManager s2 a = isPayrollManager s a) /\
     _balances s2 = _balances s /\
     (forall env' employee g t,
        msg_sender env' = manager ->
        processPayrollPayment env' s2 employee g t =
          Revert (RequireFailed "Not a payroll manager"))) /\
  (_owner s <> msg_sender env ->
   addPayrollManager env s manager =
     Revert (OwnableUnauthorizedAccount (msg_sender env)) /\
   removePayrollManager env s manager =
     Revert (OwnableUnauthorizedAccount (msg_sender env))).
Proof.
split.
- intros Howner.
  exists (emit (PayrollManagerAdded manager) (set_payrollManager manager true s)).
  eexists.
  assert (Hadd : addPayrollManager env s manager =
            Ok (emit (PayrollManagerAdded manager)
                     (set_payrollManager manager true s))).
  { unfold addPayrollManager, onlyOwner. by rewrite bool_decide_eq_true_2. }
  split; [exact Hadd |]. split_and!.
  + unfold isPayrollManager. cbn [emit set_payrollManager payrollManagers].
    by rewrite lookup_insert_eq.
  + intros a Ha. unfold isPayrollManager.
    cbn [emit set_payrollManager payrollManagers].
    by rewrite lookup_insert_ne.
  + reflexivity.
  + reflexivity.
  + reflexivity.
  + unfold removePayrollManager, onlyOwner.
    cbn [emit set_payrollManager _owner].
    rewrite bool_decide_eq_true_2 by done. reflexivity.
  + unfold isPayrollManager. cbn [emit set_payrollManager payrollManagers].
    by rewrite lookup_insert_eq.
  + intros a Ha. unfold isPayrollManager.
    cbn [emit set_payrollManager payrollManagers].
    by rewrite !lookup_insert_ne.
  + reflexivity.
  + intros env' employee g t Hm.
    unfold processPayrollPayment, onlyPayrollManager, require, isPayrollManager.
    cbn [emit set_payrollManager payrollManagers]. rewrite Hm.
    by rewrite lookup_insert_eq.
- intros Hnot. unfold addPayrollManager, removePayrollManager, onlyOwner.
  by rewrite bool_decide_eq_false_2.
Qed.

Lemma manager_administration_witness :
  (exists s1 s2,
     addPayrollManager (Scenario.token_by Scenario.admin 50)
       Scenario.token_funded Scenario.employer = Ok s1 /\
     isPayrollManager s1 Scenario.employer = true /\
     (forall a, a <> Scenario.employer ->
                isPayrollManager s1 a = isPayrollManager Scenario.token_funded a) /\
     _balances s1 = _balances Scenario.token_funded /\
     pendingWithholdings s1 = pendingWithholdings Scenario.token_funded /\
     events s1 = events Scenario.token_funded ++
                 [PayrollManagerAdded Scenario.employer] /\
     removePayrollManager (Scenario.token_by Scenario.admin 50) s1
       Scenario.employer = Ok s2 /\
     isPayrollManager s2 Scenario.employer = false /\
     (forall a, a <> Scenario.employer ->
                isPayrollManager s2 a = isPayrollManager Scenario.token_funded a) /\
     _balances s2 = _balances Scenario.token_funded /\
     (forall env' employee g t,
        msg_sender env' = Scenario.employer ->
        processPayrollPayment env' s2 employee g t =
          Revert (RequireFailed "Not a payroll manager"))) /\
  addPayrollManager (Scenario.token_by Scenario.alice 50)
    Scenario.token_funded Scenario.employer =
    Revert (OwnableUnauthorizedAccount Scenario.alice).
Proof.
destruct (manager_administration (Scenario.token_by Scenario.admin 50)
            Scenario.token_funded Scenario.employer) as [Howner _].
destruct (manager_administration (Scenario.token_by Scenario.alice 50)
            Scenario.token_funded Scenario.employer) as [_ Hother].
split.
- apply Howner. vm_compute. reflexivity.
- apply Hother. vm_compute. discriminate.
Defined.



End TokenAdministration.

(** ** Remittance, batches and conservation *)

Section TokenSettlement.

Import PT Ledger.

Lemma processPayrollPayment_withholdings (env : Env) (s : State)
    (employee : address) (grossPay taxAmount : euint64) (s' : State) :
  processPayrollPayment env s employee grossPay taxAmount = Ok s' ->
  taxAuthority s' = taxAuthority s /\
  withholdingsOf s' (taxAuthority s) =
    FHE.add (withholdingsOf s (taxAuthority s)) taxAmount.
Proof.
intros Hrun.
destruct (processPayrollPayment_inv _ _ _ _ _ _ Hrun)
  as (s1 & h & _ & _ & _ & Hupd & ->).
destruct (update_inv _ _ _ _ _ _ _ Hupd) as (Hpend & Hauth & _).
cbn [emit allow set_withholdings taxAuthority]. split; [exact Hauth |].
rewrite Hauth.
change (withholdingsOf
          (set_withholdings (taxAuthority s)
             (FHE.add (withholdingsOf s1 (taxAuthority s)) taxAmount) s1)
          (taxAuthority s) =
        FHE.add (withholdingsOf s (taxAuthority s)) taxAmount).
rewrite withholdingsOf_set_withholdings. unfold withholdingsOf.
by rewrite Hpend.
Qed.

Lemma batch_loop_withholdings (env : Env) (employees : list address) :
  forall (grossPayments taxAmounts : list euint64) (s s' : State),
  length employees = length grossPayments ->
  length employees = length taxAmounts ->
  batch_loop env s employees grossPayments taxAmounts = Ok s' ->
  taxAuthority s' = taxAuthority s /\
  FHE.decrypt (withholdingsOf s' (taxAuthority s)) =
    (FHE.decrypt (withholdingsOf s (taxAuthority s)) + taxTotal taxAmounts)
    mod FHE.modulus.
Proof.
induction employees as [| e es IH]; intros [| g gs] [| t ts] s s' Hg Ht;
  try discriminate.
- cbn [batch_loop taxTotal foldr]. intros [= <-]. split; [done |].
  by rewrite Z.add_0_r, decrypt_small.
- cbn [batch_loop].
  destruct (processPayrollPayment env s e g t) as [s1 |] eqn:E; [| done].
  cbn [mbind result_bind bind]. intros Hrest.
  destruct (processPayrollPayment_withholdings _ _ _ _ _ _ E) as [Hauth Hw].
  destruct (IH gs ts s1 s') as [Hauth' Hw'];
    [by injection Hg | by injection Ht | done |].
  split; [congruence |].
  rewrite <- Hauth, Hw', Hauth, Hw, decrypt_add.
  cbn [taxTotal foldr]. rewrite Zplus_mod_idemp_l. f_equal.
  fold (taxTotal ts). lia.
Qed.

(** X16: [batchProcessPayroll].  With arrays of different lengths the
    call reverts with "Array length mismatch"; with empty arrays it
    succeeds and changes nothing; and whenever it succeeds, the arrays had
    equal lengths and the withholdings pending for the tax authority have
    grown, in clear and modulo 2^64, by the sum of all the tax amounts of
    the batch. *)
Theorem batch_accumulates_taxes (env : Env) (s : State)
    (employees : list address) (grossPayments taxAmounts : list euint64) :
  (isPayrollManager s (msg_sender env) = true ->
   (length employees <> length grossPayments \/
    length employees <> length taxAmounts ->
    batchProcessPayroll env s employees grossPayments taxAmounts =
      Revert (RequireFailed "Array length mismatch")) /\
   batchProcessPayroll env s [] [] [] = Ok s) /\
  (forall s',
     batchProcessPayroll env s employees grossPayments taxAmounts = Ok s' ->
     length employees = length grossPayments /\
     length employees = length taxAmounts /\
     taxAuthority s' = taxAuthority s /\
     FHE.decrypt (withholdingsOf s' (taxAuthority s)) =
       (FHE.decrypt (withholdingsOf s (taxAuthority s)) + taxTotal taxAmounts)
       mod FHE.modulus).
Proof.
split.
- intros Hmgr. split.
  + intros Hlen. unfold batchProcessPayroll, onlyPayrollManager, require.
    rewrite Hmgr. cbn [mbind result_bind bind].
    destruct Hlen as [H | H].
    * by rewrite (bool_decide_eq_false_2 _ H).
    * rewrite (bool_decide_eq_false_2 _ H). by rewrite andb_false_r.
  + unfold batchProcessPayroll, onlyPayrollManager, require.
    by rewrite Hmgr.
- intros s'. unfold batchProcessPayroll, onlyPayrollManager, require.
  destruct (isPayrollManager s (msg_sender env)); [| done].
  cbn [mbind result_bind bind].
  case_bool_decide as Hg; [| done].
  case_bool_decide as Ht; [| done].
  cbn [andb mbind result_bind bind]. intros Hloop.
  destruct (batch_loop_withholdings env employees grossPayments taxAmounts
              s s' Hg Ht Hloop) as [Hauth Hw].
  by split_and!.
Qed.

Lemma batch_accumulates_taxes_witness :
  batchProcessPayroll (Scenario.token_by Scenario.admin 60)
    Scenario.token_funded [Scenario.bob] [] [FHE.Trivial 0] =
    Revert (RequireFailed "Array length mismatch") /\
  batchProcessPayroll (Scenario.token_by Scenario.admin 60)
    Scenario.token_funded [] [] [] = Ok Scenario.token_funded /\
  let s' :=
    Scenario.token_after
      (batchProcessPayroll (Scenario.token_by Scenario.admin 60)
         Scenario.token_funded [Scenario.bob; Scenario.bob]
         [FHE.Trivial 100; FHE.Trivial 30] [FHE.Trivial 30; FHE.Trivial 0]) in
  length [Scenario.bob; Scenario.bob] =
    length [FHE.Trivial 100; FHE.Trivial 30] /\
  length [Scenario.bob; Scenario.bob] =
    length [FHE.Trivial 30; FHE.Trivial 0] /\
  taxAuthority s' = taxAuthority Scenario.token_funded /\
  FHE.decrypt (withholdingsOf s' (taxAuthority Scenario.token_funded)) =
    (FHE.decrypt (withholdingsOf Scenario.token_funded
                    (taxAuthority Scenario.token_funded))
     + taxTotal [FHE.Trivial 30; FHE.Trivial 0]) mod FHE.modulus.
Proof.
destruct (batch_accumulates_taxes (Scenario.token_by Scenario.admin 60)
            Scenario.token_funded [Scenario.bob] [] [FHE.Trivial 0])
  as [Hguard _].
destruct (batch_accumulates_taxes (Scenario.token_by Scenario.admin 60)
            Scenario.token_funded [Scenario.bob; Scenario.bob]
            [FHE.Trivial 100; FHE.Trivial 30] [FHE.Trivial 30; FHE.Trivial 0])
  as [_ Hsum].
assert (Hm : isPayrollManager Scenario.token_funded
               (msg_sender (Scenario.token_by Scenario.admin 60)) = true)
  by (vm_compute; reflexivity).
destruct (Hguard Hm) as [Hmismatch Hempty].
split_and!.
- apply Hmismatch. left. cbn. lia.
- exact Hempty.
- apply Hsum. vm_compute. reflexivity.
Defined.

(** X17: a payment creates and destroys no tokens.  When
    [processPayrollPayment] succeeds between non-zero addresses, the
    balance of every third party, the total supply, the owner and the set
    of managers are unchanged; the clear balances of caller and employee
    add up, modulo 2^64, to what they added up to before; and a manager
    paying itself leaves its clear balance unchanged. *)
Theorem payment_conserves_tokens (env : Env) (s : State) (employee : address)
    (grossPay taxAmount : euint64) (s' : State) :
  processPayrollPayment env s employee grossPay taxAmount = Ok s' ->
  msg_sender env <> 0 -> employee <> 0 ->
  (forall a, a <> msg_sender env -> a <> employee ->
             balanceOf s' a = balanceOf s a) /\
  _totalSupply s' = _totalSupply s /\
  payrollManagers s' = payrollManagers s /\
  _owner s' = _owner s /\
  (employee = msg_sender env ->
   FHE.decrypt (balanceOf s' (msg_sender env)) =
   FHE.decrypt (balanceOf s (msg_sender env))) /\
  (employee <> msg_sender env ->
   (FHE.decrypt (balanceOf s' (msg_sender env))
    + FHE.decrypt (balanceOf s' employee)) mod FHE.modulus =
   (FHE.decrypt (balanceOf s (msg_sender env))
    + FHE.decrypt (balanceOf s employee)) mod FHE.modulus).
Proof.
intros Hrun Hsender Hemp.
destruct (processPayrollPayment_inv _ _ _ _ _ _ Hrun)
  as (s1 & h & _ & _ & _ & Hupd & ->).
destruct (update_inv _ _ _ _ _ _ _ Hupd)
  as (_ & _ & Hmgr & Howner & Hinit & Hothers & Hsupply).
split_and!.
- intros a Ha1 Ha2. read_balance. by apply Hothers.
- cbn [emit allow set_withholdings _totalSupply]. by apply Hsupply.
- exact Hmgr.
- exact Howner.
- intros ->. read_balance.
  by apply (update_self env s (msg_sender env) _ s1 h Hsender Hupd).
- intros Hne. read_balance.
  destruct (update_transfer env s (msg_sender env) employee
              (FHE.select (FHE.le grossPay (balanceOf s (msg_sender env)))
                 (FHE.sub grossPay taxAmount) (FHE.asEuint64 0))
              Hsender Hemp (Hinit Hsender))
    as (s2 & Hupd2 & _ & _ & _ & _ & Hbal).
  rewrite Hupd in Hupd2. injection Hupd2 as <- _.
  destruct (Hbal (not_eq_sym Hne)) as [-> ->].
  rewrite Zplus_mod_idemp_r. f_equal. lia.
Qed.

Lemma payment_conserves_tokens_witness :
  (forall a, a <> msg_sender (Scenario.token_by Scenario.admin 60) ->
             a <> Scenario.bob ->
             balanceOf Scenario.token_short_payment a =
             balanceOf Scenario.token_funded a) /\
  _totalSupply Scenario.token_short_payment =
    _totalSupply Scenario.token_funded /\
  payrollManagers Scenario.token_short_payment =
    payrollManagers Scenario.token_funded /\
  _owner Scenario.token_short_payment = _owner Scenario.token_funded /\
  (FHE.decrypt (balanceOf Scenario.token_short_payment
                  (msg_sender (Scenario.token_by Scenario.admin 60)))
   + FHE.decrypt (balanceOf Scenario.token_short_payment Scenario.bob))
  mod FHE.modulus =
  (FHE.decrypt (balanceOf Scenario.token_funded
                  (msg_sender (Scenario.token_by Scenario.admin 60)))
   + FHE.decrypt (balanceOf Scenario.token_funded Scenario.bob))
  mod FHE.modulus.
Proof.
destruct (payment_conserves_tokens (Scenario.token_by Scenario.admin 60)
            Scenario.token_funded Scenario.bob (FHE.Trivial 100)
            (FHE.Trivial 0) Scenario.token_short_payment)
  as (Hothers & Hsupply & Hmgr & Howner & _ & Hsum).
- vm_compute. reflexivity.
- vm_compute. discriminate.
- vm_compute. discriminate.
- split_and!;
    [exact Hothers | exact Hsupply | exact Hmgr | exact Howner
    | apply Hsum; vm_compute; discriminate].
Defined.

End TokenSettlement.

(** ** The pay-period counter *)

Section PayPeriodCounter.

Import CPS Ledger.

Lemma processPayroll_opens_new_period_aux (env : Env) (s s' : State) :
  processPayroll env s = Ok s' ->
  currentPayPeriod s' = currentPayPeriod s + 1 /\
  totalEmployees s' = totalEmployees s.
Proof.
intros Hrun. apply processPayroll_inv in Hrun. subst s'.
destruct (payroll_loop_frame env s) as (_ & Hp & Ht & _).
split; [exact Hp | exact Ht].
Qed.

(** X18: only a successful [processPayroll] moves the pay period, and it
    moves it by exactly one; every other transaction, and every reverted
    one, leaves [getCurrentPayPeriod] as it was. *)
Theorem pay_period_counts_payroll_runs (env : Env) (s : State) (c : Call) :
  getCurrentPayPeriod (transact env s c) =
  match c, run env s c with
  | call_processPayroll, Ok _ => getCurrentPayPeriod s + 1
  | _, _ => getCurrentPayPeriod s
  end.
Proof.
unfold transact, getCurrentPayPeriod.
destruct c as [e sal tax pf | | e b pf | | e sal pf | r a | r a | r a];
  destruct (run env s _) as [s' |] eqn:E; try reflexivity; cbn [run] in E.
- revert E. unfold addEmployee, onlyRole, require, checked_incr.
  destruct (hasRole _ _ s); [| done]. cbn [mbind result_bind bind].
  destruct (isActive _); [done |]. cbn [negb mbind result_bind bind].
  destruct (_ <? _); [| done]. cbn [mbind result_bind bind].
  by intros [= <-].
- by destruct (processPayroll_opens_new_period_aux env s s' E) as [-> _].
- revert E. unfold distributeBonus, onlyRole, require.
  destruct (hasRole _ _ s); [| done]. cbn [mbind result_bind bind].
  destruct (isActive _); [| done]. cbn [mbind result_bind bind].
  by intros [= <-].
- revert E. unfold generateComplianceReport, onlyRole.
  destruct (hasRole _ _ s); [| done]. cbn [mbind result_bind bind].
  destruct (report_totals s). cbn [mbind result_bind bind fst].
  by intros [= <-].
- revert E. rewrite updateSalary_unfold.
  destruct (hasRole _ _ s); [| done].
  destruct (isActive _); [| done]. by intros [= <-].
- revert E. unfold grantRole, onlyRole, _grantRole.
  destruct (hasRole (getRoleAdmin r) (msg_sender env) s); [| done].
  cbn [mbind result_bind bind].
  by destruct (hasRole r a s); intros [= <-].
- revert E. unfold revokeRole, onlyRole, _revokeRole.
  destruct (hasRole (getRoleAdmin r) (msg_sender env) s); [| done].
  cbn [mbind result_bind bind].
  by destruct (hasRole r a s); intros [= <-].
- revert E. unfold renounceRole, _revokeRole.
  case_bool_decide; [| done].
  by destruct (hasRole r a s); intros [= <-].
Qed.

End PayPeriodCounter.

(** * The runtime refines the permission-free model *)

Section RuntimeFacts.

Context {S : Type}.
Variable grants : S -> FHE.ACL.
Variable grant : euint64 -> address -> S -> S.
Variable self : address.

Implicit Types m : Runtime.Machine S.

Lemma bind_Ok {A B} (c : Runtime.M S A) (k : A -> Runtime.M S B) m r :
  (c ≫= k) m = Ok r ->
  exists a m1, c m = Ok (a, m1) /\ k a m1 = Ok r.
Proof.
  unfold mbind, Runtime.M_bind.
  destruct (c m) as [[a m1]|e]; [eauto | discriminate].
Qed.

Lemma ret_Ok {A} (a b : A) m m' :
  (mret a : Runtime.M S A) m = Ok (b, m') -> b = a /\ m' = m.
Proof. intros H. injection H as -> ->. done. Qed.

Lemma read_Ok {A} (f : S -> A) m a m' :
  Runtime.read f m = Ok (a, m') -> a = f (Runtime.store m) /\ m' = m.
Proof. intros H. injection H as <- <-. done. Qed.

Lemma write_Ok (f : S -> S) m u m' :
  Runtime.write f m = Ok (u, m') ->
  m' = {| Runtime.store := f (Runtime.store m);
          Runtime.transient := Runtime.transient m |}.
Proof. intros H. injection H as <-. done. Qed.

Lemma lift_Ok {A} (r : result A) m a m' :
  Runtime.lift r m = Ok (a, m') -> r = Ok a /\ m' = m.
Proof. destruct r; [|discriminate]. intros H. injection H as <- <-. done. Qed.

Lemma guard_Ok (g : S -> result unit) m u m' :
  Runtime.guard g m = Ok (u, m') -> g (Runtime.store m) = Ok tt /\ m' = m.
Proof.
  unfold Runtime.guard. intros H. apply lift_Ok in H as [H ->].
  destruct u. done.
Qed.

Lemma plain_Ok (f : S -> result S) m u m' :
  Runtime.plain f m = Ok (u, m') ->
  exists s, f (Runtime.store m) = Ok s /\
    m' = {| Runtime.store := s; Runtime.transient := Runtime.transient m |}.
Proof.
  unfold Runtime.plain. destruct (f (Runtime.store m)) as [s|]; [|discriminate].
  intros H. injection H as <-. eauto.
Qed.

Lemma produced_Ok (h : euint64) m r m' :
  Runtime.produced self h m = Ok (r, m') ->
  r = h /\
  m' = {| Runtime.store := Runtime.store m;
          Runtime.transient := (h, self) :: Runtime.transient m |}.
Proof. intros H. injection H as <- <-. done. Qed.

Lemma operand_Ok (h : euint64) m r m' :
  Runtime.operand self h m = Ok (r, m') ->
  r = FHE.operand h /\ Runtime.store m' = Runtime.store m.
Proof.
  unfold Runtime.operand, FHE.operand.
  destruct (FHE.isInitialized h); intros H; injection H as <- <-; done.
Qed.

Lemma check_Ok (h : euint64) m u m' :
  Runtime.check grants self h m = Ok (u, m') ->
  Runtime.isAllowed grants h self m = true /\ m' = m.
Proof.
  unfold Runtime.check.
  destruct (Runtime.isAllowed grants h self m); [|discriminate].
  intros H. injection H as <-. done.
Qed.

Lemma binary_Ok (op : euint64 -> euint64 -> euint64) (a b : euint64) m r m' :
  Runtime.binary grants self op a b m = Ok (r, m') ->
  r = op (FHE.operand a) (FHE.operand b) /\
  exists T, m' = {| Runtime.store := Runtime.store m;
                    Runtime.transient := T |}.
Proof.
  unfold Runtime.binary. intros H.
  apply bind_Ok in H as (a' & m1 & Ha & H).
  apply bind_Ok in H as (b' & m2 & Hb & H).
  apply bind_Ok in H as (? & m3 & Hca & H).
  apply bind_Ok in H as (? & m4 & Hcb & H).
  apply operand_Ok in Ha as [-> Hm1], Hb as [-> Hm2].
  apply check_Ok in Hca as [_ ->], Hcb as [_ ->].
  apply produced_Ok in H as [-> ->].
  split; [done|]. rewrite Hm2, Hm1. eauto.
Qed.

Lemma select_Ok (c a b : euint64) m r m' :
  Runtime.select grants self c a b m = Ok (r, m') ->
  r = FHE.select c a b /\
  exists T, m' = {| Runtime.store := Runtime.store m;
                    Runtime.transient := T |}.
Proof.
  unfold Runtime.select. intros H.
  apply bind_Ok in H as (? & m1 & H1 & H).
  apply bind_Ok in H as (? & m2 & H2 & H).
  apply bind_Ok in H as (? & m3 & H3 & H).
  apply check_Ok in H1 as [_ ->], H2 as [_ ->], H3 as [_ ->].
  apply produced_Ok in H as [-> ->]. eauto.
Qed.

Lemma allow_Ok (h : euint64) (account : address) m u m' :
  Runtime.allow grants grant self h account m = Ok (u, m') ->
  Runtime.isAllowed grants h self m = true /\
  m' = {| Runtime.store := grant h account (Runtime.store m);
          Runtime.transient := Runtime.transient m |}.
Proof.
  unfold Runtime.allow.
  destruct (Runtime.isAllowed grants h self m); [|discriminate].
  intros H. injection H as <-. done.
Qed.

End RuntimeFacts.

(** One step of the inversion of a successful run. *)
Ltac run_step H :=
  let a := fresh "a" in
  let m := fresh "m" in
  let E := fresh "E" in
  apply bind_Ok in H as (a & m & E & H);
  first
    [ apply read_Ok in E as [-> ->]
    | apply write_Ok in E as ->
    | apply lift_Ok in E as [E ->]
    | apply guard_Ok in E as [E ->]
    | apply produced_Ok in E as [-> ->]
    | apply binary_Ok in E as [-> [? ->]]
    | apply select_Ok in E as [-> [? ->]]
    | apply allow_Ok in E as [E ->]
    | idtac ];
  cbn [Runtime.store Runtime.transient] in *.

(** Closes a refinement goal once the run is inverted. *)
Ltac run_done :=
  cbn [Runtime.store Runtime.transient];
  unfold FHE.add, FHE.sub, FHE.mul, CPS.allowThis;
  repeat match goal with
         | E : _ = Ok _ |- _ => rewrite E; clear E
         end;
  try reflexivity.

Section PayrollRefinement.

Import ConfidentialPayrollSystem.

Lemma addEmployee_refines env employee sal tax pf (m : PR.Machine) u m' :
  PR.addEmployee env employee sal tax pf m = Ok (u, m') ->
  CPS.addEmployee env (Runtime.store m) employee sal tax pf =
    Ok (Runtime.store m').
Proof.
  unfold PR.addEmployee, PR.onlyRole, PR.fromExternal, PR.asEuint64, PR.add,
    PR.allowThis, PR.allow, Runtime.asEuint64, Runtime.fromExternal,
    Runtime.add.
  intros H. repeat run_step H.
  apply write_Ok in H as ->.
  unfold CPS.addEmployee. run_done.
Qed.

Lemma distributeBonus_refines env employee b pf (m : PR.Machine) u m' :
  PR.distributeBonus env employee b pf m = Ok (u, m') ->
  CPS.distributeBonus env (Runtime.store m) employee b pf =
    Ok (Runtime.store m').
Proof.
  unfold PR.distributeBonus, PR.onlyRole, PR.fromExternal, PR.add,
    PR.allowThis, PR.allow, Runtime.fromExternal, Runtime.add.
  intros H. repeat run_step H.
  apply write_Ok in H as ->.
  unfold CPS.distributeBonus. run_done.
Qed.

Lemma updateSalary_refines env employee sal pf (m : PR.Machine) u m' :
  PR.updateSalary env employee sal pf m = Ok (u, m') ->
  CPS.updateSalary env (Runtime.store m) employee sal pf =
    Ok (Runtime.store m').
Proof.
  unfold PR.updateSalary, PR.onlyRole, PR.fromExternal, PR.add, PR.sub,
    PR.allowThis, PR.allow, Runtime.fromExternal, Runtime.add, Runtime.sub.
  intros H. repeat run_step H.
  apply allow_Ok in H as [_ ->].
  unfold CPS.updateSalary. run_done.
Qed.

Lemma processPayroll_iter_refines env n i (m : PR.Machine) n' m' :
  PR.processPayroll_iter env n i m = Ok (n', m') ->
  CPS.processPayroll_iter env (Runtime.store m, n) i =
    (Runtime.store m', n').
Proof.
  unfold PR.processPayroll_iter, PR._transferConfidentialPayment,
    PR.asEuint64, PR.add, PR.sub, PR.mul, PR.allow, Runtime.asEuint64,
    Runtime.add, Runtime.sub, Runtime.mul.
  cbv zeta. intros H. run_step H.
  unfold CPS.processPayroll_iter. cbv zeta.
  destruct (negb (isActive (employeeOf (Runtime.store m) (getEmployeeByIndex i)))).
  { apply ret_Ok in H as [-> ->]. done. }
  repeat run_step H.
  apply ret_Ok in H as [-> ->].
  reflexivity.
Qed.

Lemma payroll_foldM_refines env l : forall n (m : PR.Machine) n' m',
  Runtime.foldM (PR.processPayroll_iter env) n l m = Ok (n', m') ->
  foldl (CPS.processPayroll_iter env) (Runtime.store m, n) l =
    (Runtime.store m', n').
Proof.
  induction l as [|i l IH]; intros n m n' m' H.
  - apply ret_Ok in H as [-> ->]. done.
  - cbn [Runtime.foldM] in H.
    apply bind_Ok in H as (n1 & m1 & E & H).
    apply processPayroll_iter_refines in E.
    cbn [foldl]. rewrite E. by apply IH.
Qed.

Lemma processPayroll_refines env (m : PR.Machine) u m' :
  PR.processPayroll env m = Ok (u, m') ->
  CPS.processPayroll env (Runtime.store m) = Ok (Runtime.store m').
Proof.
  unfold PR.processPayroll, PR.onlyRole.
  intros H. repeat run_step H.
  apply write_Ok in H as ->.
  match goal with
  | F : Runtime.foldM _ _ _ _ = _ |- _ =>
      apply payroll_foldM_refines in F; cbn [Runtime.store] in F
  end.
  unfold CPS.processPayroll. rewrite E, E0.
  cbn [mbind result_bind bind].
  cbn [totalEmployees set_currentPayPeriod] in E1 |- *.
  rewrite E1. reflexivity.
Qed.

Lemma report_iter_refines env acc i (m : PR.Machine) acc' m' :
  PR.report_iter env acc i m = Ok (acc', m') ->
  acc' = CPS.report_iter (Runtime.store m) acc i /\
  Runtime.store m' = Runtime.store m.
Proof.
  unfold PR.report_iter, PR.add, Runtime.add. cbv zeta.
  intros H. run_step H.
  unfold CPS.report_iter. cbv zeta. destruct acc as [p t].
  destruct (isActive (employeeOf (Runtime.store m) (getEmployeeByIndex i))).
  - repeat run_step H. apply ret_Ok in H as [-> ->]. done.
  - apply ret_Ok in H as [-> ->]. done.
Qed.

Lemma report_foldM_refines env l : forall acc (m : PR.Machine) acc' m',
  Runtime.foldM (PR.report_iter env) acc l m = Ok (acc', m') ->
  acc' = foldl (CPS.report_iter (Runtime.store m)) acc l /\
  Runtime.store m' = Runtime.store m.
Proof.
  induction l as [|i l IH]; intros acc m acc' m' H.
  - apply ret_Ok in H as [-> ->]. done.
  - cbn [Runtime.foldM] in H.
    apply bind_Ok in H as (a1 & m1 & E & H).
    apply report_iter_refines in E as [-> Hs].
    apply IH in H as [-> ->]. rewrite Hs. done.
Qed.

Lemma generateComplianceReport_refines env (m : PR.Machine) h m' :
  PR.generateComplianceReport env m = Ok (h, m') ->
  CPS.generateComplianceReport env (Runtime.store m) =
    Ok (Runtime.store m', h).
Proof.
  unfold PR.generateComplianceReport, PR.onlyRole, PR.asEuint64, PR.allow,
    Runtime.asEuint64.
  cbv zeta. intros H. repeat run_step H.
  apply ret_Ok in H as [-> ->].
  match goal with
  | F : Runtime.foldM _ _ _ _ = _ |- _ =>
      apply report_foldM_refines in F as [-> Hs]
  end.
  cbn [Runtime.store] in *.
  unfold CPS.generateComplianceReport, CPS.report_totals.
  rewrite E. cbn [mbind result_bind bind].
  destruct (foldl _ _ _) as [p t]. rewrite Hs. reflexivity.
Qed.

Lemma run_refines env c (m : PR.Machine) u m' :
  PR.run env c m = Ok (u, m') ->
  CPS.run env (Runtime.store m) c = Ok (Runtime.store m').
Proof.
  destruct c; cbn [PR.run CPS.run]; intros H.
  - by apply addEmployee_refines in H.
  - by apply processPayroll_refines in H.
  - by apply distributeBonus_refines in H.
  - apply bind_Ok in H as (h & m1 & E & H).
    apply ret_Ok in H as [_ ->].
    apply generateComplianceReport_refines in E. by rewrite E.
  - by apply updateSalary_refines in H.
  - apply plain_Ok in H as (s & E & ->). done.
  - apply plain_Ok in H as (s & E & ->). done.
  - apply plain_Ok in H as (s & E & ->). done.
Qed.

Lemma outcome_refines env s c s' :
  PR.outcome env s c = Ok s' -> CPS.run env s c = Ok s'.
Proof.
  unfold PR.outcome.
  destruct (PR.run env c (PR.begin s)) as [[u m]|] eqn:E; [|discriminate].
  intros H. injection H as <-. by apply run_refines in E.
Qed.

(** A transaction of the runtime is a transaction of the permission-free
    model, or changes nothing. *)
Lemma transact_refines env s c :
  PR.transact env s c = CPS.transact env s c \/ PR.transact env s c = s.
Proof.
  unfold PR.transact.
  destruct (PR.outcome env s c) as [s'|] eqn:E; [|by right].
  left. apply outcome_refines in E. unfold CPS.transact. by rewrite E.
Qed.

Lemma later_refines self s s' : PR.later self s s' -> CPS.later s s'.
Proof.
  induction 1 as [|env c s' _ IH _ _]; [constructor|].
  destruct (transact_refines env s' c) as [-> | ->]; [by constructor | done].
Qed.

Lemma reachable_refines self s : PR.reachable self s -> CPS.reachable s.
Proof.
  intros (env & t & tr & d & H). exists env, t, tr, d.
  by eapply later_refines.
Qed.

End PayrollRefinement.

(** * What the runtime accepts *)

Section Evaluation.

Context {S : Type}.
Variable grants : S -> FHE.ACL.
Variable grant : euint64 -> address -> S -> S.
Variable self : address.

Implicit Types m : Runtime.Machine S.

(** An operation on two assigned operands. *)
Lemma binary_assigned (op : euint64 -> euint64 -> euint64) (a b : euint64) m :
  FHE.isInitialized a = true -> FHE.isInitialized b = true ->
  Runtime.binary grants self op a b m =
  if Runtime.isAllowed grants a self m then
    if Runtime.isAllowed grants b self m then
      Ok (op a b, {| Runtime.store := Runtime.store m;
                     Runtime.transient := (op a b, self) :: Runtime.transient m |})
    else Revert (ACLNotAllowed b self)
  else Revert (ACLNotAllowed a self).
Proof.
  intros Ha Hb. unfold Runtime.binary, Runtime.operand. rewrite Ha, Hb.
  unfold mbind, Runtime.M_bind, mret, Runtime.M_ret, Runtime.check.
  destruct (Runtime.isAllowed grants a self m); [|done].
  destruct (Runtime.isAllowed grants b self m); done.
Qed.

Lemma isAllowed_begin (h : euint64) (account : address) (s : S) :
  Runtime.isAllowed grants h account
    {| Runtime.store := s; Runtime.transient := [] |} =
  FHE.isAllowed h account (grants s).
Proof.
  unfold Runtime.isAllowed. cbn. unfold FHE.isAllowed at 2.
  rewrite bool_decide_eq_false_2 by apply not_elem_of_nil.
  apply orb_false_r.
Qed.

End Evaluation.

Section Permitted.

Context {S : Type}.
Variable grants : S -> FHE.ACL.
Variable grant : euint64 -> address -> S -> S.
Variable self : address.

Implicit Types m : Runtime.Machine S.

Lemma isAllowed_transient (h : euint64) (a : address) m :
  (h, a) ∈ Runtime.transient m -> Runtime.isAllowed grants h a m = true.
Proof.
  intros Hin. unfold Runtime.isAllowed, FHE.isAllowed.
  rewrite (bool_decide_eq_true_2 _ Hin). apply orb_true_r.
Qed.

Lemma isAllowed_persistent (h : euint64) (a : address) m :
  (h, a) ∈ grants (Runtime.store m) -> Runtime.isAllowed grants h a m = true.
Proof.
  intros Hin. unfold Runtime.isAllowed, FHE.isAllowed.
  by rewrite (bool_decide_eq_true_2 _ Hin).
Qed.

Lemma isAllowed_neither (h : euint64) (a : address) m :
  (h, a) ∉ grants (Runtime.store m) -> (h, a) ∉ Runtime.transient m ->
  Runtime.isAllowed grants h a m = false.
Proof.
  intros H1 H2. unfold Runtime.isAllowed, FHE.isAllowed.
  by rewrite !bool_decide_eq_false_2.
Qed.

Lemma allow_permitted (h : euint64) (account : address) m :
  Runtime.isAllowed grants h self m = true ->
  Runtime.allow grants grant self h account m =
    Ok (tt, {| Runtime.store := grant h account (Runtime.store m);
               Runtime.transient := Runtime.transient m |}).
Proof. intros H. unfold Runtime.allow. by rewrite H. Qed.

Lemma binary_permitted (op : euint64 -> euint64 -> euint64) (a b : euint64) m :
  FHE.isInitialized a = true -> FHE.isInitialized b = true ->
  Runtime.isAllowed grants a self m = true ->
  Runtime.isAllowed grants b self m = true ->
  Runtime.binary grants self op a b m =
    Ok (op a b, {| Runtime.store := Runtime.store m;
                   Runtime.transient := (op a b, self) :: Runtime.transient m |}).
Proof. intros Ha Hb Ha' Hb'. rewrite binary_assigned by done. by rewrite Ha', Hb'. Qed.

(** How a run proceeds through its first step. *)
Lemma bind_read {A B} (f : S -> A) (k : A -> Runtime.M S B) m :
  (Runtime.read f ≫= k) m = k (f (Runtime.store m)) m.
Proof. reflexivity. Qed.

Lemma bind_write {B} (f : S -> S) (k : unit -> Runtime.M S B) m :
  (Runtime.write f ≫= k) m =
  k tt {| Runtime.store := f (Runtime.store m);
          Runtime.transient := Runtime.transient m |}.
Proof. reflexivity. Qed.

Lemma bind_lift {A B} (r : result A) (k : A -> Runtime.M S B) m :
  (Runtime.lift r ≫= k) m =
  match r with Ok a => k a m | Revert e => Revert e end.
Proof. by destruct r. Qed.

Lemma bind_guard {B} (g : S -> result unit) (k : unit -> Runtime.M S B) m :
  (Runtime.guard g ≫= k) m =
  match g (Runtime.store m) with Ok a => k a m | Revert e => Revert e end.
Proof.
  unfold Runtime.guard, mbind, Runtime.M_bind, Runtime.lift.
  by destruct (g (Runtime.store m)).
Qed.

Lemma bind_produced {B} (h : euint64) (k : euint64 -> Runtime.M S B) m :
  (Runtime.produced self h ≫= k) m =
  k h {| Runtime.store := Runtime.store m;
         Runtime.transient := (h, self) :: Runtime.transient m |}.
Proof. reflexivity. Qed.

Lemma bind_ret {A B} (a : A) (k : A -> Runtime.M S B) m :
  (mret a ≫= k) m = k a m.
Proof. reflexivity. Qed.

Lemma bind_check {B} (h : euint64) (k : unit -> Runtime.M S B) m :
  (Runtime.check grants self h ≫= k) m =
  if Runtime.isAllowed grants h self m then k tt m
  else Revert (ACLNotAllowed h self).
Proof.
  unfold Runtime.check, mbind, Runtime.M_bind.
  by destruct (Runtime.isAllowed grants h self m).
Qed.

Lemma bind_eq {A B} (c : Runtime.M S A) (k : A -> Runtime.M S B) m a m1 :
  c m = Ok (a, m1) -> (c ≫= k) m = k a m1.
Proof. intros H. unfold mbind, Runtime.M_bind. by rewrite H. Qed.

Lemma bind_revert {A B} (c : Runtime.M S A) (k : A -> Runtime.M S B) m e :
  c m = Revert e -> (c ≫= k) m = Revert e.
Proof. intros H. unfold mbind, Runtime.M_bind. by rewrite H. Qed.

End Permitted.

(** Proves that a handle is allowed by a grant of the transaction. *)
Ltac by_transient :=
  solve [ apply isAllowed_transient; cbn [Runtime.transient Runtime.store];
          unfold FHE.allow; rewrite ?elem_of_cons; auto 10 ].

Ltac by_elem :=
  solve [ cbn [Runtime.transient Runtime.store]; unfold FHE.allow;
          rewrite ?elem_of_cons; auto 10 ].

(** Runs the steps that cannot be refused. *)
Ltac run_on :=
  repeat (first [ rewrite bind_read | rewrite bind_write
                | rewrite bind_produced ];
          cbn [Runtime.store Runtime.transient]).

Section Dormancy.

Import ConfidentialPayrollSystem.

Lemma dormant_no_grant self s h :
  PR.dormant self s -> (forall id v, h <> FHE.Input id v) ->
  FHE.isAllowed h self (acl s) = false.
Proof.
  intros (Hacl & _) Hh. apply bool_decide_eq_false_2.
  intros Hin. destruct (Hacl h Hin) as (id & v & ->). by eapply Hh.
Qed.

Lemma dormant_record self s a :
  PR.dormant self s -> isActive (employeeOf s a) = true ->
  FHE.isInitialized (encryptedSalary (employeeOf s a)) = true /\
  FHE.isAllowed (encryptedSalary (employeeOf s a)) self (acl s) = true /\
  encryptedBonus (employeeOf s a) = FHE.asEuint64 0 /\
  encryptedYTDEarnings (employeeOf s a) = FHE.asEuint64 0 /\
  encryptedYTDTax (employeeOf s a) = FHE.asEuint64 0.
Proof.
  intros (_ & Hrec & _) Hact. unfold employeeOf in *.
  destruct (employees s !! a) as [e|] eqn:E; [|done]. simpl.
  destruct (Hrec a e E) as ((id & v & Hs) & _ & Hin & Hb & Hy & Ht).
  split_and!; try done.
  - by rewrite Hs.
  - by apply bool_decide_eq_true_2.
Qed.

Lemma dormant_budget self s :
  PR.dormant self s ->
  FHE.isInitialized (encryptedTotalBudget (config s)) = true /\
  forall id v, encryptedTotalBudget (config s) <> FHE.Input id v.
Proof.
  intros (_ & _ & _ & [[-> _] | (a & e & x & y & _ & ->)]); done.
Qed.

Lemma dormant_constructor self env token treasury days :
  PR.dormant self (constructor env token treasury days).
Proof.
  unfold constructor, _grantRole, hasRole. cbn.
  repeat (case_bool_decide; cbn);
    (split_and!; [|done|done|by left]);
    intros h Hh; by apply elem_of_nil in Hh.
Qed.

(** A payroll run over an active record at address 0 is refused: the
    stored bonus is an encryption of 0 the contract holds no grant on. *)
Lemma processPayroll_iter_refused env n i (m : PR.Machine) :
  isActive (employeeOf (Runtime.store m) 0) = true ->
  FHE.isInitialized (encryptedSalary (employeeOf (Runtime.store m) 0)) = true ->
  Runtime.isAllowed acl (encryptedSalary (employeeOf (Runtime.store m) 0))
    (this env) m = true ->
  encryptedBonus (employeeOf (Runtime.store m) 0) = FHE.asEuint64 0 ->
  Runtime.isAllowed acl (FHE.asEuint64 0) (this env) m = false ->
  PR.processPayroll_iter env n i m =
    Revert (ACLNotAllowed (FHE.asEuint64 0) (this env)).
Proof.
  intros Hact Hsal Hgrant Hbonus Hno.
  unfold PR.processPayroll_iter. change (getEmployeeByIndex i) with 0.
  cbv zeta. unfold mbind at 1, Runtime.M_bind, Runtime.read.
  rewrite Hact. cbn [negb].
  unfold mbind at 1. unfold PR.add, Runtime.add.
  rewrite binary_assigned by (done || by rewrite Hbonus).
  by rewrite Hbonus, Hno, Hgrant.
Qed.

Lemma processPayroll_iter_skips env n i (m : PR.Machine) :
  isActive (employeeOf (Runtime.store m) 0) = false ->
  PR.processPayroll_iter env n i m = Ok (n, m).
Proof.
  intros Hact. unfold PR.processPayroll_iter.
  change (getEmployeeByIndex i) with 0.
  cbv zeta. unfold mbind at 1, Runtime.M_bind, Runtime.read.
  by rewrite Hact.
Qed.

Lemma payroll_foldM_skips env l n (m : PR.Machine) :
  isActive (employeeOf (Runtime.store m) 0) = false ->
  Runtime.foldM (PR.processPayroll_iter env) n l m = Ok (n, m).
Proof.
  intros Hact. induction l as [|i l IH]; [done|].
  cbn [Runtime.foldM]. unfold mbind, Runtime.M_bind.
  by rewrite processPayroll_iter_skips.
Qed.

Lemma payroll_foldM_refused env l n (m : PR.Machine) :
  l <> [] ->
  isActive (employeeOf (Runtime.store m) 0) = true ->
  FHE.isInitialized (encryptedSalary (employeeOf (Runtime.store m) 0)) = true ->
  Runtime.isAllowed acl (encryptedSalary (employeeOf (Runtime.store m) 0))
    (this env) m = true ->
  encryptedBonus (employeeOf (Runtime.store m) 0) = FHE.asEuint64 0 ->
  Runtime.isAllowed acl (FHE.asEuint64 0) (this env) m = false ->
  Runtime.foldM (PR.processPayroll_iter env) n l m =
    Revert (ACLNotAllowed (FHE.asEuint64 0) (this env)).
Proof.
  intros Hl Hact Hsal Hgrant Hb Hno. destruct l as [|i l]; [done|].
  cbn [Runtime.foldM]. unfold mbind, Runtime.M_bind.
  by rewrite processPayroll_iter_refused.
Qed.

Lemma isAllowed_store {S} (grants : S -> FHE.ACL) h a (m m' : Runtime.Machine S) :
  grants (Runtime.store m') = grants (Runtime.store m) ->
  Runtime.transient m' = Runtime.transient m ->
  Runtime.isAllowed grants h a m' = Runtime.isAllowed grants h a m.
Proof. unfold Runtime.isAllowed. by intros -> ->. Qed.

(** A payroll run on a dormant contract, spelled out. *)
Lemma processPayroll_outcome self env s :
  PR.dormant self s -> this env = self ->
  PR.outcome env s call_processPayroll =
  if hasRole PAYROLL_ADMIN_ROLE (msg_sender env) s then
    if currentPayPeriod s <? uint256_max then
      if isActive (employeeOf s 0) && bool_decide (0 < totalEmployees s) then
        Revert (ACLNotAllowed (FHE.asEuint64 0) self)
      else
        Ok (emit (PayrollProcessed (currentPayPeriod s + 1) 0)
                 (set_currentPayPeriod (currentPayPeriod s + 1) s))
    else Revert PanicOverflow
  else Revert (AccessControlUnauthorizedAccount (msg_sender env)
                 PAYROLL_ADMIN_ROLE).
Proof.
  intros Hd Hself. unfold PR.outcome. cbn [PR.run].
  unfold PR.processPayroll, PR.onlyRole, Runtime.guard, Runtime.lift,
    Runtime.read, Runtime.write, PR.begin,
    ConfidentialPayrollSystem.onlyRole, checked_incr.
  unfold mbind at 1 2 3 4 5, Runtime.M_bind.
  cbn [Runtime.store Runtime.transient].
  destruct (hasRole _ _ s); [|done]. cbv beta iota.
  cbn [Runtime.store Runtime.transient].
  destruct (currentPayPeriod s <? uint256_max); [|done]. cbv beta iota.
  cbn [Runtime.store Runtime.transient totalEmployees set_currentPayPeriod].
  set (m := {| Runtime.store := set_currentPayPeriod (currentPayPeriod s + 1) s;
               Runtime.transient := [] |}).
  unfold mbind, Runtime.M_bind.
  destruct (isActive (employeeOf s 0)) eqn:Hact; cbn [andb].
  - case_bool_decide as Hn.
    + destruct (dormant_record self s 0 Hd Hact) as (Hsal & Hgr & Hb & _).
      rewrite (payroll_foldM_refused env _ 0 m); [by rewrite Hself|..];
        try done.
      * by apply indices_nonempty.
      * subst m. rewrite isAllowed_begin. by rewrite Hself.
      * subst m. rewrite isAllowed_begin, Hself.
        by apply (dormant_no_grant self s).
    + unfold indices. replace (Z.to_nat (totalEmployees s)) with 0%nat by lia.
      done.
  - by rewrite (payroll_foldM_skips env _ 0 m).
Qed.

(** [distributeBonus] is refused for every employee: the stored bonus is
    an encryption of 0 the contract holds no grant on. *)
Lemma distributeBonus_refused self env s employee b pf :
  PR.dormant self s -> this env = self ->
  hasRole EMPLOYER_ROLE (msg_sender env) s = true ->
  isActive (employeeOf s employee) = true ->
  PR.outcome env s (call_distributeBonus employee b pf) =
    Revert (ACLNotAllowed (FHE.asEuint64 0) self).
Proof.
  intros Hd Hself Hrole Hact.
  destruct (dormant_record self s employee Hd Hact) as (_ & _ & Hb & _).
  unfold PR.outcome. cbn [PR.run].
  unfold PR.distributeBonus, PR.onlyRole, PR.fromExternal, PR.add,
    Runtime.fromExternal, Runtime.add, Runtime.guard, Runtime.produced,
    Runtime.allowTransient, Runtime.read, Runtime.lift, PR.begin,
    ConfidentialPayrollSystem.onlyRole, require.
  unfold mbind, Runtime.M_bind, mret, Runtime.M_ret.
  cbn [Runtime.store Runtime.transient]. rewrite Hrole. cbv beta iota.
  cbn [Runtime.store Runtime.transient]. rewrite Hact. cbv beta iota.
  cbn [Runtime.store Runtime.transient]. rewrite Hb.
  rewrite binary_assigned by done.
  unfold Runtime.isAllowed. cbn [Runtime.store Runtime.transient].
  rewrite Hself, (dormant_no_grant self s (FHE.asEuint64 0) Hd) by done.
  unfold FHE.isAllowed, FHE.allow, FHE.fromExternal.
  rewrite bool_decide_eq_false_2; [done|].
  rewrite list_elem_of_singleton. done.
Qed.

(** [updateSalary] is refused for every employee: the budget is stored
    with no grant to the contract. *)
Lemma updateSalary_refused self env s employee sal pf :
  PR.dormant self s -> this env = self ->
  hasRole PAYROLL_ADMIN_ROLE (msg_sender env) s = true ->
  isActive (employeeOf s employee) = true ->
  PR.outcome env s (call_updateSalary employee sal pf) =
    Revert (ACLNotAllowed (encryptedTotalBudget (config s)) self).
Proof.
  intros Hd Hself Hrole Hact.
  destruct (dormant_record self s employee Hd Hact) as (Hsal & _).
  destruct (dormant_budget self s Hd) as [Hinit Hform].
  unfold PR.outcome. cbn [PR.run].
  unfold PR.updateSalary, PR.onlyRole, PR.fromExternal, PR.sub,
    Runtime.fromExternal, Runtime.sub, Runtime.guard, Runtime.produced,
    Runtime.allowTransient, Runtime.read, Runtime.lift, PR.begin,
    ConfidentialPayrollSystem.onlyRole, require.
  unfold mbind, Runtime.M_bind, mret, Runtime.M_ret.
  cbn [Runtime.store Runtime.transient]. rewrite Hrole. cbv beta iota.
  cbn [Runtime.store Runtime.transient]. rewrite Hact. cbv beta iota.
  cbn [Runtime.store Runtime.transient].
  rewrite binary_assigned by done.
  unfold Runtime.isAllowed. cbn [Runtime.store Runtime.transient].
  rewrite Hself, (dormant_no_grant self s _ Hd) by done.
  unfold FHE.isAllowed, FHE.allow, FHE.fromExternal.
  rewrite bool_decide_eq_false_2; [done|].
  rewrite list_elem_of_singleton. intros [= E]. by eapply Hform.
Qed.

(** On the contract as deployed, the first [addEmployee] is accepted:
    the budget is the encryption of 0 the call itself produces for the
    new record, and does what the permission-free model says. *)
Lemma addEmployee_first env s employee sal tax pf :
  encryptedTotalBudget (config s) = FHE.asEuint64 0 ->
  PR.outcome env s (call_addEmployee employee sal tax pf) =
  CPS.addEmployee env s employee sal tax pf.
Proof.
  intros Hb. unfold PR.outcome. cbn [PR.run].
  unfold CPS.addEmployee, PR.addEmployee, PR.onlyRole, PR.fromExternal,
    PR.asEuint64, PR.add, PR.allowThis, PR.allow, Runtime.asEuint64,
    Runtime.fromExternal, Runtime.add, PR.begin.
  rewrite bind_guard. cbn [Runtime.store Runtime.transient].
  destruct (onlyRole _ _ _) as [[]|]; [|done].
  cbn [mbind result_bind bind]. run_on. rewrite bind_lift.
  destruct (require _ _) as [[]|]; [|done].
  cbn [mbind result_bind bind]. run_on.
  cbn [config set_employee encryptedTotalBudget]. rewrite Hb.
  erewrite bind_eq; [|apply binary_permitted; (done || by_transient)].
  run_on.
  erewrite bind_eq; [|apply allow_permitted; by_transient].
  cbn [Runtime.store Runtime.transient].
  erewrite bind_eq; [|apply allow_permitted; by_transient].
  cbn [Runtime.store Runtime.transient].
  erewrite bind_eq; [|apply allow_permitted; by_transient].
  run_on. rewrite bind_lift.
  cbn [totalEmployees allow allowThis set_budget set_employee].
  destruct (checked_incr (totalEmployees s));
    cbn [mbind result_bind bind]; [|done].
  run_on. reflexivity.
Qed.

(** Once an employee is stored, [addEmployee] is refused: the budget is
    a sum computed by an earlier transaction and stored with no grant to
    the contract. *)
Lemma addEmployee_refused self env s employee sal tax pf :
  PR.dormant self s -> this env = self ->
  hasRole PAYROLL_ADMIN_ROLE (msg_sender env) s = true ->
  isActive (employeeOf s employee) = false ->
  employees s <> ∅ ->
  PR.outcome env s (call_addEmployee employee sal tax pf) =
    Revert (ACLNotAllowed (encryptedTotalBudget (config s)) self).
Proof.
  intros Hd Hself Hrole Hact Hne.
  assert (exists a b, encryptedTotalBudget (config s) = FHE.Add a b)
    as (x & y & Hb).
  { destruct Hd as (_ & _ & _ & [[_ He] | (a & e & x & y & _ & Hb)]);
      [done | eauto]. }
  unfold PR.outcome. cbn [PR.run].
  unfold PR.addEmployee, PR.onlyRole, PR.fromExternal,
    PR.asEuint64, PR.add, PR.allowThis, PR.allow, Runtime.asEuint64,
    Runtime.fromExternal, Runtime.add, PR.begin.
  rewrite bind_guard. cbn [Runtime.store Runtime.transient].
  unfold onlyRole. rewrite Hrole. run_on. rewrite bind_lift, Hact.
  cbn [negb require]. run_on.
  cbn [config set_employee encryptedTotalBudget].
  erewrite bind_revert; cycle 1.
  { rewrite binary_assigned by (done || by rewrite Hb).
    rewrite isAllowed_neither; [reflexivity|..].
    - cbn [Runtime.store acl set_employee]. rewrite Hself. intros Hin.
      destruct Hd as (Hacl & _). destruct (Hacl _ Hin) as (id & v & E).
      congruence.
    - cbn [Runtime.transient].
      unfold FHE.allow, FHE.asEuint64, FHE.fromExternal.
      rewrite Hb, !elem_of_cons, elem_of_nil.
      intros [[=]|[[=]|[[=]|[[=]|[[=]|[]]]]]]. }
  by rewrite Hself.
Qed.


Lemma dormant_frame self s s' :
  acl s' = acl s -> employees s' = employees s ->
  paymentHistory s' = paymentHistory s -> config s' = config s ->
  PR.dormant self s -> PR.dormant self s'.
Proof. unfold PR.dormant. by intros -> -> -> ->. Qed.

Lemma dormant_roles self env role account s :
  PR.dormant self s ->
  PR.dormant self (_grantRole env role account s) /\
  PR.dormant self (_revokeRole env role account s).
Proof.
  intros Hd. unfold _grantRole, _revokeRole.
  destruct (hasRole role account s); split; try done;
    by apply (dormant_frame self s).
Qed.

Lemma dormant_addEmployee self env s s' employee sal tax pf :
  PR.dormant self s -> this env = self -> employees s = ∅ ->
  CPS.addEmployee env s employee sal tax pf = Ok s' ->
  PR.dormant self s'.
Proof.
  intros (Hacl & Hrec & Hpay & Hbud) Hself Hnone.
  unfold CPS.addEmployee, onlyRole.
  destruct (hasRole _ _ s); [|done]. cbn [mbind result_bind bind].
  destruct (negb _); [|done]. cbn [require mbind result_bind bind].
  destruct (checked_incr _) as [n|]; [|done]. cbn [mbind result_bind bind].
  intros [= <-]. unfold PR.dormant.
  cbn [acl employees paymentHistory config emit set_totalEmployees allow
       allowThis set_budget set_employee encryptedTotalBudget].
  unfold FHE.allow, FHE.fromExternal. rewrite Hself. split_and!.
  - intros h Hh. rewrite !elem_of_cons in Hh.
    destruct Hh as [[= -> _] | [[= ->] | [[= ->] | Hh]]]; eauto.
  - intros a e He. destruct (decide (a = employee)) as [-> | Hne].
    + rewrite lookup_insert_eq in He. injection He as <-.
      cbn. split_and!; eauto. rewrite !elem_of_cons. auto.
    + rewrite lookup_insert_ne in He by done.
      destruct (Hrec a e He) as (H1 & H2 & H3 & H4 & H5 & H6).
      split_and!; try done. rewrite !elem_of_cons. auto.
  - done.
  - right. rewrite Hnone, insert_empty. unfold FHE.add. eauto 10.
Qed.

Lemma dormant_report self env s s' h :
  PR.dormant self s -> msg_sender env <> self ->
  CPS.generateComplianceReport env s = Ok (s', h) ->
  PR.dormant self s'.
Proof.
  intros (Hacl & Hrec & Hpay & Hbud) Hne H.
  apply generateComplianceReport_effect in H
    as (_ & Ha & _ & _ & He & Hp & Hc).
  unfold PR.dormant. rewrite Ha, He, Hp, Hc. split_and!; try done.
  - intros x Hx. rewrite !elem_of_cons in Hx.
    destruct Hx as [[= _ E] | [[= _ E] | Hx]]; [by subst..|]. by apply Hacl.
  - intros a e Hae. destruct (Hrec a e Hae) as (H1 & H2 & H3 & H4 & H5 & H6).
    split_and!; try done. rewrite !elem_of_cons. auto.
Qed.

(** Every transaction keeps the contract dormant. *)
Lemma dormant_outcome self env s c s' :
  PR.dormant self s -> this env = self -> msg_sender env <> self ->
  PR.outcome env s c = Ok s' -> PR.dormant self s'.
Proof.
  intros Hd Hself Hne H. destruct c.
  - pose proof (outcome_refines _ _ _ _ H) as Hi. cbn [CPS.run] in Hi.
    destruct (decide (employees s = ∅)) as [Hnone | Hsome].
    { by eapply dormant_addEmployee. }
    exfalso. unfold CPS.addEmployee, onlyRole in Hi.
    destruct (hasRole PAYROLL_ADMIN_ROLE (msg_sender env) s) eqn:Hrole; [|done].
    cbn [mbind result_bind bind] in Hi.
    destruct (isActive (employeeOf s employee)) eqn:Hact; [done|].
    by rewrite (addEmployee_refused self) in H.
  - rewrite (processPayroll_outcome self) in H by done.
    destruct (hasRole _ _ s); [|done].
    destruct (_ <? _); [|done]. destruct (_ && _); [done|].
    injection H as <-. by apply (dormant_frame self s).
  - exfalso. pose proof (outcome_refines _ _ _ _ H) as Hi.
    cbn [CPS.run] in Hi. unfold CPS.distributeBonus, onlyRole in Hi.
    destruct (hasRole EMPLOYER_ROLE (msg_sender env) s) eqn:Hrole; [|done].
    cbn [mbind result_bind bind] in Hi.
    destruct (isActive (employeeOf s employee)) eqn:Hact; [|done].
    by rewrite (distributeBonus_refused self) in H.
  - apply outcome_refines in H. cbn [CPS.run] in H.
    destruct (CPS.generateComplianceReport env s) as [[s1 h]|] eqn:E; [|done].
    injection H as <-. by eapply dormant_report.
  - exfalso. pose proof (outcome_refines _ _ _ _ H) as Hi.
    cbn [CPS.run] in Hi. unfold CPS.updateSalary, onlyRole in Hi.
    destruct (hasRole PAYROLL_ADMIN_ROLE (msg_sender env) s) eqn:Hrole; [|done].
    cbn [mbind result_bind bind] in Hi.
    destruct (isActive (employeeOf s employee)) eqn:Hact; [|done].
    by rewrite (updateSalary_refused self) in H.
  - apply outcome_refines in H. cbn [CPS.run] in H.
    unfold grantRole, onlyRole in H. destruct (hasRole _ _ s); [|done].
    injection H as <-. by apply dormant_roles.
  - apply outcome_refines in H. cbn [CPS.run] in H.
    unfold revokeRole, onlyRole in H. destruct (hasRole _ _ s); [|done].
    injection H as <-. by apply dormant_roles.
  - apply outcome_refines in H. cbn [CPS.run] in H.
    unfold renounceRole in H. case_bool_decide; [|done].
    injection H as <-. by apply dormant_roles.
Qed.

Lemma dormant_transact self env s c :
  PR.dormant self s -> this env = self -> msg_sender env <> self ->
  PR.dormant self (PR.transact env s c).
Proof.
  intros Hd Hself Hne. unfold PR.transact.
  destruct (PR.outcome env s c) as [s'|] eqn:E; [|done].
  by eapply dormant_outcome.
Qed.

Lemma later_dormant self s s' :
  PR.later self s s' -> PR.dormant self s -> PR.dormant self s'.
Proof.
  induction 1 as [|env c s' _ IH Hself Hne]; [done|].
  intros Hd. apply dormant_transact; auto.
Qed.

Lemma reachable_dormant self s : PR.reachable self s -> PR.dormant self s.
Proof.
  intros (env & t & tr & d & H). eapply later_dormant; [exact H|].
  apply dormant_constructor.
Qed.

End Dormancy.


(** ** Compliance reports on the runtime *)

Section Reports.

Import ConfidentialPayrollSystem.







End Reports.

(** * What the contract does on the runtime *)

Section RuntimeClaims.

Import ConfidentialPayrollSystem Scenario.


Lemma hired_reachable (e : address) : PR.reachable payrollAddress (RS.hired e).
Proof.
  exists (by_ admin 50), tokenAddress, admin, 14.
  unfold RS.hired, PR.after. cbn [foldl fst snd].
  apply PR.later_step; [constructor | reflexivity | by intros [=]].
Qed.





(** C6: [updateSalary] on the runtime.  In every state the contract
    reaches, the call of a payroll admin for an active employee is
    refused at its first operation, the subtraction from the budget: the
    budget ciphertext is stored by [addEmployee] with no grant to the
    contract.  The transaction changes nothing. *)
Theorem updateSalary_is_refused (self : address) (env : Env) (s : State)
    (employee : address) (newEncryptedSalary : externalEuint64)
    (inputProof : bytes) :
  PR.reachable self s -> this env = self -> msg_sender env <> self ->
  hasRole PAYROLL_ADMIN_ROLE (msg_sender env) s = true ->
  isActive (employeeOf s employee) = true ->
  PR.outcome env s (call_updateSalary employee newEncryptedSalary inputProof) =
    Revert (ACLNotAllowed (encryptedTotalBudget (config s)) self) /\
  FHE.isAllowed (encryptedTotalBudget (config s)) self (acl s) = false /\
  PR.transact env s (call_updateSalary employee newEncryptedSalary inputProof)
    = s.
Proof.
  intros Hr Hself Hne Hrole Hact.
  pose proof (reachable_dormant self s Hr) as Hd.
  pose proof (updateSalary_refused self env s employee newEncryptedSalary
                inputProof Hd Hself Hrole Hact) as H.
  split_and!.
  - exact H.
  - apply (dormant_no_grant self s); [done|]. by apply (dormant_budget self).
  - unfold PR.transact. by rewrite H.
Qed.

Lemma updateSalary_is_refused_witness :
  PR.outcome (by_ admin 70) (RS.hired alice)
    (call_updateSalary alice (enc 3 6000000) []) =
    Revert (ACLNotAllowed (encryptedTotalBudget (config (RS.hired alice)))
              payrollAddress) /\
  FHE.isAllowed (encryptedTotalBudget (config (RS.hired alice)))
    payrollAddress (acl (RS.hired alice)) = false /\
  PR.transact (by_ admin 70) (RS.hired alice)
    (call_updateSalary alice (enc 3 6000000) []) = RS.hired alice.
Proof.
  apply (updateSalary_is_refused payrollAddress (by_ admin 70)
           (RS.hired alice) alice (enc 3 6000000) []).
  - apply hired_reachable.
  - reflexivity.
  - by intros [=].
  - vm_compute. reflexivity.
  - vm_compute. reflexivity.
Defined.

Lemma updateSalary_logs_nothing_on_runtime env s employee sal pf :
  events (PR.transact env s (call_updateSalary employee sal pf)) = events s.
Proof.
  unfold PR.transact.
  destruct (PR.outcome env s _) as [s'|] eqn:E; [|done].
  apply outcome_refines in E. cbn [CPS.run] in E.
  by apply (event_log_of_calls env s) in E.
Qed.

(** C8: the event log after [updateSalary].  The spec's example, a
    payroll admin raising the salary of an employee hired earlier: the
    call is refused and the log keeps its four entries.  Nor can any
    call of [updateSalary] add an entry, on the runtime or with every
    FHE operation permitted: the function has no [emit]. *)
Theorem updateSalary_appends_no_event :
  PR.outcome (by_ admin 70) (RS.hired alice)
    (call_updateSalary alice (enc 3 6000000) []) =
    Revert (ACLNotAllowed (FHE.Add (FHE.Trivial 0) (FHE.Input 1 5000000))
              payrollAddress) /\
  events (PR.transact (by_ admin 70) (RS.hired alice)
            (call_updateSalary alice (enc 3 6000000) [])) =
    [RoleGranted DEFAULT_ADMIN_ROLE admin admin;
     RoleGranted EMPLOYER_ROLE admin admin;
     RoleGranted PAYROLL_ADMIN_ROLE admin admin;
     EmployeeAdded alice 50] /\
  (forall env s employee sal pf,
     events (PR.transact env s (call_updateSalary employee sal pf)) =
     events s) /\
  (forall env s employee sal pf,
     events (CPS.transact env s (call_updateSalary employee sal pf)) =
     events s).
Proof.
  split_and!.
  - vm_compute. reflexivity.
  - vm_compute. reflexivity.
  - apply updateSalary_logs_nothing_on_runtime.
  - intros env s employee sal pf. unfold CPS.transact.
    destruct (CPS.run env s _) as [s'|] eqn:E; [|done].
    cbn [CPS.run] in E. by apply (event_log_of_calls env s) in E.
Qed.

End RuntimeClaims.

Section RuntimeReports.

Import ConfidentialPayrollSystem Scenario.









End RuntimeReports.

(** * The token on the runtime *)

Section TokenRefinement.

Import PayrollToken.

Lemma isSenderAllowed_Ok {S} (grants : S -> FHE.ACL) sender h
    (m : Runtime.Machine S) b m' :
  Runtime.isSenderAllowed grants sender h m = Ok (b, m') ->
  b = Runtime.isAllowed grants h sender m /\ m' = m.
Proof. intros H. injection H as <- <-. done. Qed.

Lemma tryIncrease_refines env oldValue delta (m : TR.Machine) r m' :
  TR.tryIncrease env oldValue delta m = Ok (r, m') ->
  r = PT.tryIncrease oldValue delta /\
  exists T, m' = {| Runtime.store := Runtime.store m; Runtime.transient := T |}.
Proof.
  unfold TR.tryIncrease, PT.tryIncrease, TR.add, TR.ge, TR.select, TR.asEbool,
    Runtime.add, Runtime.ge, Runtime.asEbool.
  destruct (FHE.isInitialized oldValue) eqn:Hinit; intros H.
  - repeat run_step H. apply ret_Ok in H as [-> ->].
    split; [reflexivity | eauto].
  - repeat run_step H. apply ret_Ok in H as [-> ->]. eauto.
Qed.

Lemma tryDecrease_refines env oldValue delta (m : TR.Machine) r m' :
  TR.tryDecrease env oldValue delta m = Ok (r, m') ->
  r = PT.tryDecrease oldValue delta /\
  exists T, m' = {| Runtime.store := Runtime.store m; Runtime.transient := T |}.
Proof.
  unfold TR.tryDecrease, PT.tryDecrease, TR.sub, TR.ge, TR.select,
    Runtime.sub, Runtime.ge.
  intros H. repeat run_step H. apply ret_Ok in H as [-> ->].
  split; [reflexivity | eauto].
Qed.

Lemma credit_refines env from to amount success (m : TR.Machine) t m' :
  TR.credit env from to amount success m = Ok (t, m') ->
  TR.credited env from to amount success (Runtime.store m) =
    (Runtime.store m', t).
Proof.
  unfold TR.credit, TR.credited, TR.allowThis, TR.allow, TR.asEuint64,
    TR.select, TR.add, TR.sub, Runtime.asEuint64, Runtime.add, Runtime.sub.
  intros H. run_step H. run_step H. cbv zeta.
  apply bind_Ok in H as (u1 & m2 & E1 & H).
  apply bind_Ok in H as (u2 & m3 & E2 & H).
  apply bind_Ok in H as (u3 & m4 & E3 & H).
  repeat run_step H. apply ret_Ok in H as [-> ->]. cbn [Runtime.store].
  destruct (bool_decide (to = 0)), (bool_decide (from = 0)).
  - repeat run_step E1. apply write_Ok in E1 as ->.
    apply ret_Ok in E2 as [_ ->], E3 as [_ ->]. done.
  - repeat run_step E1. apply write_Ok in E1 as ->.
    apply allow_Ok in E2 as [_ ->]. apply ret_Ok in E3 as [_ ->]. done.
  - repeat run_step E1. apply write_Ok in E1 as ->.
    apply ret_Ok in E2 as [_ ->]. apply allow_Ok in E3 as [_ ->]. done.
  - repeat run_step E1. apply write_Ok in E1 as ->.
    apply allow_Ok in E2 as [_ ->], E3 as [_ ->]. done.
Qed.

Lemma update_refines env from to amount (m : TR.Machine) t m' :
  TR._update env from to amount m = Ok (t, m') ->
  PT._update env (Runtime.store m) from to amount = Ok (Runtime.store m', t).
Proof.
  unfold TR._update, TR.debit. intros H.
  apply bind_Ok in H as (success & m1 & E & H).
  apply credit_refines in H.
  unfold PT._update, TR.allowThis, TR.allow in *. unfold TR.credited in H.
  revert E H. destruct (bool_decide (from = 0)); intros E H.
  - run_step E. apply bind_Ok in E as (r & m2 & Er & E).
    apply tryIncrease_refines in Er as [-> [T ->]].
    cbn [Runtime.store] in *. repeat run_step E.
    apply ret_Ok in E as [-> ->].
    destruct (PT.tryIncrease _ _) as [sc ptr].
    cbn [fst snd Runtime.store mbind result_bind bind] in *.
    injection H as <- <-. reflexivity.
  - run_step E. run_step E.
    destruct (FHE.isInitialized (balanceOf (Runtime.store m) from)); [|done].
    apply bind_Ok in E as (r & m2 & Er & E).
    apply tryDecrease_refines in Er as [-> [T ->]].
    cbn [Runtime.store] in *. repeat run_step E.
    apply ret_Ok in E as [-> ->].
    destruct (PT.tryDecrease _ _) as [sc ptr].
    cbn [fst snd Runtime.store mbind result_bind bind] in *.
    injection H as <- <-. reflexivity.
Qed.

Lemma payment_refines env s employee grossPay taxAmount s' :
  TR.payment env s employee grossPay taxAmount = Ok s' ->
  PT.processPayrollPayment env s employee grossPay taxAmount = Ok s'.
Proof.
  unfold TR.payment.
  destruct (TR.processPayrollPayment _ _ _ _ _) as [[u m']|] eqn:H; [|done].
  intros [= <-]. revert H.
  unfold TR.processPayrollPayment, TR.isSenderAllowed, TR.sub, TR.le, TR.add,
    TR.select, TR.asEuint64, TR.allow, Runtime.sub, Runtime.le, Runtime.add,
    Runtime.asEuint64, TR.begin.
  intros H. run_step H.
  apply bind_Ok in H as (b1 & m1 & E1 & H).
  apply isSenderAllowed_Ok in E1 as [-> ->]. rewrite isAllowed_begin in H.
  run_step H.
  apply bind_Ok in H as (b2 & m2 & E2 & H).
  apply isSenderAllowed_Ok in E2 as [-> ->]. rewrite isAllowed_begin in H.
  do 6 run_step H.
  apply bind_Ok in H as (t & m3 & Eu & H).
  apply update_refines in Eu. cbn [Runtime.store] in Eu.
  repeat run_step H. apply write_Ok in H as ->. cbn [Runtime.store].
  unfold PT.processPayrollPayment, PT.isSenderAllowed.
  rewrite E, E0, E1. cbn [mbind result_bind bind].
  unfold FHE.sub, FHE.le in *. rewrite Eu. reflexivity.
Qed.

Lemma remittance_refines env s s' :
  TR.remittance env s = Ok s' -> PT.remitTaxWithholdings env s = Ok s'.
Proof.
  unfold TR.remittance.
  destruct (TR.remitTaxWithholdings _ _) as [[u m']|] eqn:H; [|done].
  intros [= <-]. revert H.
  unfold TR.remitTaxWithholdings, TR.gt, TR.select, TR.asEuint64, TR.allow,
    Runtime.gt, Runtime.asEuint64, TR.begin.
  intros H. do 7 run_step H.
  apply bind_Ok in H as (t & m3 & Eu & H).
  apply update_refines in Eu. cbn [Runtime.store] in Eu.
  repeat run_step H. apply write_Ok in H as ->. cbn [Runtime.store].
  unfold PT.remitTaxWithholdings.
  rewrite E. cbn [mbind result_bind bind].
  unfold FHE.gt in *. rewrite Eu. reflexivity.
Qed.

End TokenRefinement.

Section TokenOnRuntime.

Import PayrollToken Scenario.

Lemma payment_guards env s employee grossPay taxAmount s' :
  TR.payment env s employee grossPay taxAmount = Ok s' ->
  msg_sender env <> 0 ->
  PT.processPayrollPayment env s employee grossPay taxAmount = Ok s' /\
  isPayrollManager s (msg_sender env) = true /\
  isSenderAllowed env s grossPay = true /\
  isSenderAllowed env s taxAmount = true /\
  FHE.isInitialized (balanceOf s (msg_sender env)) = true.
Proof.
  intros H Hsender. apply payment_refines in H.
  destruct (processPayrollPayment_inv _ _ _ _ _ _ H)
    as (s1 & t & Hm & Hg & Ht & Hu & _).
  apply update_inv in Hu as (_ & _ & _ & _ & Hinit & _).
  split_and!; auto.
Qed.

(** C3, as stated, fails on the runtime: a payment of 100 out of a
    balance of 50 is accepted and moves nothing, where the minimum of
    the amount and the balance is 50. *)
Lemma accepted_payment_is_not_min : ~ RS.pays_min_of_amount_and_balance.
Proof.
  intros H.
  specialize (H (token_by admin 60) RS.token_ready bob
                (FHE.Trivial 100) (FHE.Trivial 0)
                (token_after (TR.payment (token_by admin 60) RS.token_ready bob
                                (FHE.Trivial 100) (FHE.Trivial 0)))).
  vm_compute in H.
  assert (E : 0 = 50); [| discriminate E].
  apply H; [reflexivity | discriminate | discriminate].
Qed.

(** C3, amended: in every [processPayrollPayment] the runtime accepts,
    the transfer is gated by the encrypted comparison
    [grossPay <= balance(sender)] and a homomorphic select between the
    net pay and an encrypted zero, and then by the balance check of the
    inherited transfer, itself a comparison and a select.  The amount
    that moves is all of the net pay when both comparisons hold and
    zero otherwise, never a part of it. *)
Theorem accepted_payment_all_or_nothing (env : Env) (s s' : State)
    (employee : address) (grossPay taxAmount : euint64) :
  TR.payment env s employee grossPay taxAmount = Ok s' ->
  msg_sender env <> 0 -> employee <> 0 -> employee <> msg_sender env ->
  let balance := balanceOf s (msg_sender env) in
  let netPay := FHE.sub grossPay taxAmount in
  let canTransfer := FHE.le grossPay balance in
  let actualTransfer := FHE.select canTransfer netPay (FHE.asEuint64 0) in
  let transferred :=
    FHE.select (FHE.ge balance actualTransfer) actualTransfer (FHE.asEuint64 0) in
  let paid :=
    if (FHE.decrypt grossPay <=? FHE.decrypt balance)
       && (FHE.decrypt netPay <=? FHE.decrypt balance)
    then FHE.decrypt netPay else 0 in
  ConfidentialTransfer (msg_sender env) employee transferred ∈ events s' /\
  FHE.decrypt transferred = paid /\
  FHE.decrypt (balanceOf s' employee) =
    (FHE.decrypt (balanceOf s employee) + paid) mod FHE.modulus /\
  FHE.decrypt (balanceOf s' (msg_sender env)) = FHE.decrypt balance - paid.
Proof.
  intros H Hsender Hemp Hne.
  destruct (payment_guards _ _ _ _ _ _ H Hsender)
    as (Hi & Hm & Hg & Ht & Hinit).
  destruct (transfer_all_or_nothing env s employee grossPay taxAmount
              Hm Hg Ht Hinit Hsender Hemp Hne) as (s'' & Hi' & Hrest).
  rewrite Hi in Hi'. injection Hi' as <-. exact Hrest.
Qed.

Lemma accepted_payment_all_or_nothing_witness :
  (exists transferred,
     ConfidentialTransfer admin bob transferred ∈ events RS.token_paid /\
     FHE.decrypt transferred = 30) /\
  FHE.decrypt (balanceOf RS.token_paid bob) = 30 /\
  FHE.decrypt (balanceOf RS.token_paid admin) = 20.
Proof.
  assert (TR.payment (token_by admin 60) RS.token_ready bob
            (FHE.Trivial 30) (FHE.Trivial 0) = Ok RS.token_paid) as H
    by (vm_compute; reflexivity).
  destruct (accepted_payment_all_or_nothing _ _ _ _ _ _ H)
    as (H1 & H2 & H3 & H4); [by intros [=]..|].
  split_and!.
  - eexists. split; [exact H1|]. rewrite H2. vm_compute. reflexivity.
  - rewrite H3. vm_compute. reflexivity.
  - etransitivity; [exact H4 | vm_compute; reflexivity].
Defined.



(** X15: [remitTaxWithholdings] is refused whenever the token holds no
    grant on the pending withholdings: when they were never set, the unset
    handle is passed on to [select]; when a payment stored them, it
    stored them with no grant to the token. *)
Theorem remittance_is_refused (env : Env) (s : State) :
  isPayrollManager s (msg_sender env) = true ->
  FHE.isAllowed (withholdingsOf s (taxAuthority s)) (this env) (acl s) = false ->
  withholdingsOf s (taxAuthority s) <> FHE.asEuint64 0 ->
  TR.remittance env s =
    Revert (ACLNotAllowed (withholdingsOf s (taxAuthority s)) (this env)).
Proof.
  intros Hm Hno Hne. unfold TR.remittance, TR.remitTaxWithholdings,
    TR.asEuint64, TR.gt, TR.select, Runtime.asEuint64, Runtime.gt, TR.begin.
  rewrite bind_guard. cbn [Runtime.store]. unfold onlyPayrollManager.
  rewrite Hm. cbn [require]. run_on.
  destruct (FHE.isInitialized (withholdingsOf s (taxAuthority s))) eqn:Hinit.
  - erewrite bind_revert; [reflexivity|].
    rewrite binary_assigned by done.
    rewrite isAllowed_neither; [done|..].
    + by apply bool_decide_eq_false_1 in Hno.
    + cbn [Runtime.transient]. rewrite list_elem_of_singleton.
      intros [= E]. done.
  - destruct (withholdingsOf s (taxAuthority s)) eqn:Ew; try done.
    erewrite bind_eq; cycle 1.
    { unfold Runtime.binary, Runtime.operand. cbn [FHE.isInitialized].
      unfold Runtime.asEuint64. rewrite bind_produced.
      cbn [FHE.isInitialized FHE.asEuint64 Runtime.store Runtime.transient].
      rewrite bind_ret.
      rewrite bind_check, isAllowed_transient by by_elem.
      rewrite bind_check, isAllowed_transient by by_elem.
      reflexivity. }
    run_on. unfold Runtime.select.
    erewrite bind_revert; [reflexivity|].
    rewrite bind_check, isAllowed_transient by by_elem.
    rewrite bind_check, isAllowed_neither; [done|..].
    + by apply bool_decide_eq_false_1 in Hno.
    + cbn [Runtime.transient]. unfold FHE.asEuint64, FHE.allow.
      rewrite !elem_of_cons, elem_of_nil.
      intros [[=]|[[=]|[[=]|[[=]|[]]]]].
Qed.

Lemma remittance_is_refused_witness :
  TR.remittance (token_by admin 60) RS.token_ready =
    Revert (ACLNotAllowed (withholdingsOf RS.token_ready
                             (taxAuthority RS.token_ready)) tokenAddress) /\
  TR.remittance (token_by admin 70) RS.token_short =
    Revert (ACLNotAllowed (withholdingsOf RS.token_short
                             (taxAuthority RS.token_short)) tokenAddress).
Proof.
  split.
  - apply (remittance_is_refused (token_by admin 60) RS.token_ready).
    + vm_compute. reflexivity.
    + vm_compute. reflexivity.
    + vm_compute. discriminate.
  - apply (remittance_is_refused (token_by admin 70) RS.token_short).
    + vm_compute. reflexivity.
    + vm_compute. reflexivity.
    + vm_compute. discriminate.
Defined.


End TokenOnRuntime.

(** ** Hiring, payroll runs and bonuses on the runtime *)

Section RuntimeCalls.

Import ConfidentialPayrollSystem Scenario Ledger.

Lemma reachable_counts self s :
  PR.reachable self s -> totalEmployees s = Z.of_nat (size (employees s)).
Proof.
  intros Hr. apply reachable_refines in Hr.
  by destruct (reachable_consistent s Hr) as (_ & Htot & _).
Qed.



(** X6: [addEmployee] by a payroll admin for an address that is not an
    employee, in every state the contract reaches.  While nobody is
    stored the call is accepted: it stores the record with the submitted
    salary and tax rate and encryptions of 0, sets the budget to the
    encrypted sum of the old budget and the salary, grants the salary
    to the contract and to the employee and the tax rate to the
    contract, counts the employee and logs the event.  Once somebody is
    stored the call is refused: that budget was stored with no grant to
    the contract. *)
Theorem addEmployee_on_runtime (self : address) (env : Env) (s : State)
    (employee : address) (encryptedSalary encryptedTaxRate : externalEuint64)
    (inputProof : bytes) :
  PR.reachable self s -> this env = self -> msg_sender env <> self ->
  hasRole PAYROLL_ADMIN_ROLE (msg_sender env) s = true ->
  isActive (employeeOf s employee) = false ->
  let salary := FHE.fromExternal encryptedSalary inputProof in
  let taxRate := FHE.fromExternal encryptedTaxRate inputProof in
  (employees s = ∅ ->
   exists s',
     PR.outcome env s
       (call_addEmployee employee encryptedSalary encryptedTaxRate inputProof)
       = Ok s' /\
     employees s' =
       {[ employee :=
            {| CPS.encryptedSalary := salary;
               encryptedBonus := FHE.asEuint64 0;
               encryptedTaxRate := taxRate;
               encryptedYTDEarnings := FHE.asEuint64 0;
               encryptedYTDTax := FHE.asEuint64 0;
               lastPaymentTimestamp := block_timestamp env;
               isActive := true |} ]} /\
     encryptedTotalBudget (config s') = FHE.add (FHE.asEuint64 0) salary /\
     acl s' = (salary, employee) :: (taxRate, self) :: (salary, self) :: acl s /\
     totalEmployees s' = 1 /\
     events s' = events s ++ [EmployeeAdded employee (block_timestamp env)]) /\
  (employees s <> ∅ ->
   PR.outcome env s
     (call_addEmployee employee encryptedSalary encryptedTaxRate inputProof)
     = Revert (ACLNotAllowed (encryptedTotalBudget (config s)) self) /\
   FHE.isAllowed (encryptedTotalBudget (config s)) self (acl s) = false).
Proof.
  intros Hr Hself Hne Hrole Hact salary taxRate.
  pose proof (reachable_dormant self s Hr) as Hd.
  split.
  - intros Hnone.
    assert (encryptedTotalBudget (config s) = FHE.asEuint64 0) as Hb.
    { destruct Hd as (_ & _ & _ & [[Hb _] | (a & e & x & y & He & _)]);
        [done|]. rewrite He in Hnone.
      by destruct (map_non_empty_singleton a e). }
    rewrite (addEmployee_first env s _ _ _ _ Hb).
    unfold CPS.addEmployee, onlyRole. rewrite Hrole, Hact.
    cbn [negb require mbind result_bind bind].
    cbn [totalEmployees allow allowThis set_budget set_employee].
    rewrite (reachable_counts self s Hr), Hnone, map_size_empty.
    unfold checked_incr. change (Z.of_nat 0) with 0.
    rewrite (proj2 (Z.ltb_lt 0 uint256_max)) by done.
    cbn [mbind result_bind bind]. eexists. split; [reflexivity|].
    cbn [employees config acl totalEmployees events emit set_totalEmployees
         allow allowThis set_budget set_employee encryptedTotalBudget].
    rewrite Hnone, Hb, Hself. by split_and!.
  - intros Hsome. split.
    + by apply (addEmployee_refused self).
    + apply (dormant_no_grant self s); [done|].
      by apply (dormant_budget self).
Qed.

Lemma addEmployee_on_runtime_witness :
  (exists s',
     PR.outcome (by_ admin 50) deployed
       (call_addEmployee alice (enc 1 5000000) (enc 2 20) []) = Ok s' /\
     employees s' =
       {[ alice :=
            {| CPS.encryptedSalary := FHE.Input 1 5000000;
               encryptedBonus := FHE.asEuint64 0;
               encryptedTaxRate := FHE.Input 2 20;
               encryptedYTDEarnings := FHE.asEuint64 0;
               encryptedYTDTax := FHE.asEuint64 0;
               lastPaymentTimestamp := 50;
               isActive := true |} ]} /\
     encryptedTotalBudget (config s') =
       FHE.add (FHE.asEuint64 0) (FHE.Input 1 5000000) /\
     acl s' = (FHE.Input 1 5000000, alice) :: (FHE.Input 2 20, payrollAddress)
              :: (FHE.Input 1 5000000, payrollAddress) :: acl deployed /\
     totalEmployees s' = 1 /\
     events s' = events deployed ++ [EmployeeAdded alice 50]) /\
  (PR.outcome (by_ admin 55) (RS.hired alice)
     (call_addEmployee bob (enc 3 70) (enc 4 0) []) =
     Revert (ACLNotAllowed (encryptedTotalBudget (config (RS.hired alice)))
               payrollAddress) /\
   FHE.isAllowed (encryptedTotalBudget (config (RS.hired alice)))
     payrollAddress (acl (RS.hired alice)) = false).
Proof.
  split.
  - apply (addEmployee_on_runtime payrollAddress (by_ admin 50) deployed alice
             (enc 1 5000000) (enc 2 20) []).
    + exists (by_ admin 50), tokenAddress, admin, 14. constructor.
    + reflexivity.
    + by intros [=].
    + vm_compute. reflexivity.
    + vm_compute. reflexivity.
    + vm_compute. reflexivity.
  - apply (addEmployee_on_runtime payrollAddress (by_ admin 55)
             (RS.hired alice) bob (enc 3 70) (enc 4 0) []).
    + apply hired_reachable.
    + reflexivity.
    + by intros [=].
    + vm_compute. reflexivity.
    + vm_compute. reflexivity.
    + vm_compute. discriminate.
Defined.





End RuntimeCalls.
